(** * Website design evaluator: score aggregation, categorisation,
      batch isolation and the image analysers' fallbacks

    A shallow embedding of [src/website_evaluator.py] and
    [src/design_analyzer.py], and of what the orchestrator calls in
    [src/report_generator.py], [src/google_sheets_integration.py] and
    [src/cloud_storage.py].  Python values are modelled as they are at
    run time: ints are unbounded ([Z]), floats are IEEE-754 binary64
    values (the Standard Library's [spec_float] with [prec = 53] and
    [emax = 1024]), dictionaries that are iterated keep their insertion
    order (association lists), dictionaries that are only looked up are
    finite maps, and an exception is a value of an error monad.  What the
    code reaches outside itself (browser, network, files, clock, OpenCV,
    Pillow, NumPy, scikit-learn, the OpenAI client) is a parameter of the
    model, free to return or to raise.  Console output is not modelled:
    [print] is taken to succeed. *)

From Stdlib Require Import ZArith QArith Lia Bool List.
From Stdlib Require Import SpecFloat FloatOps FloatAxioms.
From stdpp Require Import base option list strings pretty gmap.

Set Default Proof Using "Type".
Local Open Scope Z_scope.

(** ** Python exceptions and the error monad *)

Module Py.

(** An exception that [except Exception] catches: its class name and
    the text [str(e)] gives. *)
Record exn : Type := Exn { exn_class : string; exn_str : string }.

Inductive result (A : Type) : Type :=
| Ok (a : A)
| Raise (e : exn).
Arguments Ok {A} a.
Arguments Raise {A} e.

#[global] Instance result_ret : MRet result := fun A a => Ok a.
#[global] Instance result_bind : MBind result := fun A B f m =>
  match m with
  | Ok a => f a
  | Raise e => Raise e
  end.

#[global] Instance result_fmap : FMap result := fun A B f m =>
  match m with
  | Ok a => Ok (f a)
  | Raise e => Raise e
  end.

Definition is_ok {A} (r : result A) : bool :=
  match r with Ok _ => true | Raise _ => false end.

(** [try: body  except Exception: handler] for a body with a value. *)
Definition try_except {A} (body : result A) (handler : exn -> result A)
  : result A :=
  match body with
  | Ok a => Ok a
  | Raise e => handler e
  end.

(** ** Actions

    An action on the outside world (browser, network, files, clock,
    random generator): it may change the world, and it returns or
    raises. *)
Definition io (World A : Type) : Type := World -> result A * World.

#[global] Instance io_ret {World} : MRet (io World) :=
  fun A a w => (Ok a, w).
#[global] Instance io_bind {World} : MBind (io World) := fun A B f m w =>
  match m w with
  | (Ok a, w') => f a w'
  | (Raise e, w') => (Raise e, w')
  end.

Definition io_raise {World A} (e : exn) : io World A := fun w => (Raise e, w).
Definition io_lift {World A} (r : result A) : io World A := fun w => (r, w).
Definition io_read {World A} (f : World -> A) : io World A :=
  fun w => (Ok (f w), w).

(** [try: body  except Exception: handler] for an action. *)
Definition io_try_except {World A} (body : io World A)
    (handler : exn -> io World A) : io World A := fun w =>
  match body w with
  | (Ok a, w') => (Ok a, w')
  | (Raise e, w') => handler e w'
  end.

(** ** Numbers *)

(** A Python [float]. *)
Definition pyfloat : Type := spec_float.

(** The numbers [isinstance(x, (int, float))] accepts; a [bool] is an
    [int] (0 or 1). *)
Inductive pynum : Type :=
| PInt (n : Z)
| PFloat (f : pyfloat).

(** Every Python value the functions below may be handed. *)
#[warnings="-register-all"]
Inductive pyval : Type :=
| PyNone
| PyBool (b : bool)
| PyInt (n : Z)
| PyFloat (f : pyfloat)
| PyStr (s : string)
| PyList (items : list pyval)
| PyDict (items : list (string * pyval)).

Definition is_none (v : pyval) : bool :=
  match v with PyNone => true | _ => false end.

(** [isinstance(v, (int, float))], with the number it then is. *)
Definition as_number (v : pyval) : option pynum :=
  match v with
  | PyBool b => Some (PInt (if b then 1 else 0))
  | PyInt n => Some (PInt n)
  | PyFloat f => Some (PFloat f)
  | _ => None
  end.

(** *** Exact values and comparisons

    Python compares ints and floats by their mathematical value, with
    every comparison against NaN false. *)

Inductive xreal : Type :=
| XNaN
| XNegInf
| XFin (q : Q)
| XPosInf.

(** The rational [m * 2^e]. *)
Definition dyadic (m e : Z) : Q :=
  match e with
  | Z0 => inject_Z m
  | Zpos p => inject_Z (m * 2 ^ Zpos p)
  | Zneg p => Qmake m (2 ^ p)%positive
  end.

Definition float_value (f : pyfloat) : xreal :=
  match f with
  | S754_zero _ => XFin 0
  | S754_infinity s => if s then XNegInf else XPosInf
  | S754_nan => XNaN
  | S754_finite s m e => XFin (dyadic (cond_Zopp s (Zpos m)) e)
  end.

Definition num_value (n : pynum) : xreal :=
  match n with
  | PInt z => XFin (inject_Z z)
  | PFloat f => float_value f
  end.

Definition xlt (a b : xreal) : bool :=
  match a, b with
  | XNaN, _ | _, XNaN => false
  | XFin p, XFin q => negb (Qle_bool q p)
  | XNegInf, XNegInf => false
  | XNegInf, _ => true
  | _, XNegInf => false
  | XPosInf, _ => false
  | _, XPosInf => true
  end.

Definition xle (a b : xreal) : bool :=
  match a, b with
  | XNaN, _ | _, XNaN => false
  | XFin p, XFin q => Qle_bool p q
  | XNegInf, _ => true
  | _, XNegInf => false
  | _, XPosInf => true
  | XPosInf, _ => false
  end.

(** [a < b] and [a <= b] on numbers. *)
Definition py_lt (a b : pynum) : bool := xlt (num_value a) (num_value b).
Definition py_le (a b : pynum) : bool := xle (num_value a) (num_value b).

(** The builtins [min(a, b)] and [max(a, b)]: the first argument is kept
    unless the second is strictly smaller (resp. strictly greater). *)
Definition py_min (a b : pynum) : pynum := if py_lt b a then b else a.
Definition py_max (a b : pynum) : pynum := if py_lt a b then b else a.

(** *** [float(n)] for an int

    The nearest binary64 value, ties to even; [OverflowError] when the
    rounded value needs an exponent past the format's. *)

Definition overflow_error : exn :=
  Exn "OverflowError" "int too large to convert to float".

Definition round_half_even (q r half : Z) : Z :=
  if r <? half then q
  else if half <? r then q + 1
  else if Z.even q then q else q + 1.

Definition float_of_pos (s : bool) (p : positive) : result pyfloat :=
  let d := Z.log2 (Zpos p) + 1 in
  if d <=? 53 then
    Ok (S754_finite s (Z.to_pos (Z.shiftl (Zpos p) (53 - d))) (d - 53))
  else
    let k := d - 53 in
    let q := round_half_even (Z.shiftr (Zpos p) k) (Zpos p mod 2 ^ k) (2 ^ (k - 1)) in
    let '(m, e) := if q =? 2 ^ 53 then (2 ^ 52, k + 1) else (q, k) in
    if 971 <? e then Raise overflow_error
    else Ok (S754_finite s (Z.to_pos m) e).

Definition int_to_float (n : Z) : result pyfloat :=
  match n with
  | Z0 => Ok (S754_zero false)
  | Zpos p => float_of_pos false p
  | Zneg p => float_of_pos true p
  end.

Definition float_of_num (n : pynum) : result pyfloat :=
  match n with
  | PInt z => int_to_float z
  | PFloat f => Ok f
  end.

(** The same conversion through the Standard Library's IEEE-754
    rounding, to check [int_to_float] against. *)
Definition ieee_int_to_float (n : Z) : result pyfloat :=
  match binary_normalize prec emax n 0 false with
  | S754_infinity _ => Raise overflow_error
  | f => Ok f
  end.

(** The float of an int that has one (pixel counts, small constants). *)
Definition exact_float (n : Z) : pyfloat :=
  match int_to_float n with Ok f => f | Raise _ => S754_nan end.

(** A decimal literal [digits / 10^places], as the parser reads it: the
    nearest binary64 value (both operands are exact below [2^53]). *)
Definition decimal (digits : Z) (places : Z) : pyfloat :=
  match int_to_float digits, int_to_float (10 ^ places) with
  | Ok a, Ok b => SF64div a b
  | _, _ => S754_nan
  end.

(** *** Arithmetic *)

Definition py_mul (a b : pynum) : result pynum :=
  match a, b with
  | PInt x, PInt y => Ok (PInt (x * y))
  | PInt x, PFloat g => f ← int_to_float x; Ok (PFloat (SF64mul f g))
  | PFloat f, PInt y => g ← int_to_float y; Ok (PFloat (SF64mul f g))
  | PFloat f, PFloat g => Ok (PFloat (SF64mul f g))
  end.

(** [total += x] for a float [total]. *)
Definition float_add (total : pyfloat) (x : pynum) : result pyfloat :=
  g ← float_of_num x; Ok (SF64add total g).

(** [1 - x] and the like: int minus float. *)
Definition int_sub_float (n : Z) (x : pyfloat) : result pyfloat :=
  f ← int_to_float n; Ok (SF64sub f x).

(** *** [round(x, 2)] on a float

    The value is first rounded, exactly and ties to even, to a multiple
    of 1/100, and that decimal is then read back as the nearest
    float.  NaN, the infinities and the zeros round to themselves. *)
Definition round2 (x : pyfloat) : pyfloat :=
  match x with
  | S754_finite s m e =>
      let n :=
        match e with
        | Zneg k =>
            let num := 100 * Zpos m in
            round_half_even (Z.shiftr num (Zpos k)) (num mod 2 ^ Zpos k)
              (2 ^ (Zpos k - 1))
        | _ => 100 * Zpos m * 2 ^ e
        end in
      match n with
      | Zpos p => SF64div (S754_finite s p 0) (S754_finite false 100 0)
      | _ => S754_zero s
      end
  | _ => x
  end.

(** The two factors that clear the exponent of [m * 2^e]: comparing with
    an int [a] compares [m * scale_up e] with [a * scale_down e]. *)
Definition scale_up (e : Z) : Z := 2 ^ Z.max 0 e.
Definition scale_down (e : Z) : Z := 2 ^ Z.max 0 (- e).

End Py.

(** ** The data model: analysis results and the scoring configuration *)

Module Model.
Import Py.
Local Open Scope string_scope.

(** The colour descriptor [_analyze_colors] returns. *)
Record color_descriptor : Type := {
  dominant_colors : list (Z * Z * Z);
  average_rgb : list pynum;
  contrast_level : pyfloat;
  brightness : pyfloat;
  color_diversity : Z
}.

(** The layout descriptor [_analyze_layout] returns. *)
Record layout_descriptor : Type := {
  content_density : pyfloat;
  line_count : Z;
  sections_detected : Z;
  horizontal_balance : pyfloat;
  whitespace_ratio : pyfloat;
  image_dimensions : Z * Z
}.

(** The typography descriptor [_analyze_typography] returns. *)
Record typography_descriptor : Type := {
  text_regions_detected : Z;
  average_text_height : pyfloat;
  text_height_consistency : pyfloat;
  text_coverage_ratio : pyfloat;
  estimated_readability : pynum
}.

(** The value under ['technical_data']; [EmptyDict] is the literal [{}]. *)
Inductive technical : Type :=
| Typography (d : typography_descriptor)
| Color (d : color_descriptor)
| Layout (d : layout_descriptor)
| EmptyDict.

(** One category of the analysis: ['score'], ['analysis'],
    ['recommendations'] and, for three of the five categories,
    ['technical_data']. *)
Record category_result : Type := {
  score : pyval;
  analysis : pyval;
  recommendations : pyval;
  technical_data : option technical
}.

(** The [analysis_results] dictionary: only ever looked up by category
    name. *)
Abbreviation AnalysisResult := (gmap string category_result).

(** An entry of ['scoring_weights'] and of ['score_ranges']. *)
Record category_weight : Type := { weight : pynum }.
Record range_data : Type := {
  range_min : pynum;
  range_max : pynum;
  range_color : string
}.

(** The configuration file, its objects in the order of the file
    ([json.load] keeps it, and [.items()] iterates in it). *)
Record scoring_config : Type := {
  scoring_weights : list (string * category_weight);
  score_ranges : list (string * range_data)
}.

End Model.

(** ** [website_evaluator.py]: score aggregation and categorisation *)

Module WebsiteEvaluator.
Import Py Model.
Local Open Scope string_scope.

Definition type_error : exn :=
  Exn "TypeError" "unsupported operand type(s)".

(** One turn of the loop body of [_calculate_final_score]:
    [total_score += category_score * weight].  A score that is no number
    ends in [TypeError]: at the product or, for a sequence repeated by
    an int weight of the configuration (0 or 1), at the sum with the
    float total. *)
Definition add_weighted (total_score : pyfloat) (category_score : pyval)
    (weight : pynum) : result pyfloat :=
  match as_number category_score with
  | Some s => p ← py_mul s weight; float_add total_score p
  | None => Raise type_error
  end.

(** The loop of [_calculate_final_score] over [weights.items()]. *)
Fixpoint score_loop (analysis : AnalysisResult) (total_score : pyfloat)
    (weights : list (string * category_weight)) : result pyfloat :=
  match weights with
  | [] => Ok total_score
  | (category, category_data) :: rest =>
      match analysis !! category with
      | Some r =>
          total ← add_weighted total_score (score r) (weight category_data);
          score_loop analysis total rest
      | None => score_loop analysis total_score rest
      end
  end.

Definition _calculate_final_score (config : scoring_config)
    (analysis : AnalysisResult) : result pyfloat :=
  total_score ← score_loop analysis (S754_zero false) (scoring_weights config);
  Ok (round2 total_score).

(** [range_data['min'] <= score <= range_data['max']]. *)
Definition in_range (rd : range_data) (score : pynum) : bool :=
  py_le (range_min rd) score && py_le score (range_max rd).

(** The loop of [get_score_category] over [ranges.items()]. *)
Fixpoint scan_ranges (ranges : list (string * range_data)) (score : pynum)
  : option string :=
  match ranges with
  | [] => None
  | (category, rd) :: rest =>
      if in_range rd score then Some category else scan_ranges rest score
  end.

(** [max(0, min(100, float(score)))]. *)
Definition clamp (f : pyfloat) : pynum :=
  py_max (PInt 0) (py_min (PInt 100) (PFloat f)).

(** The two validation steps: [None], then anything that is no
    [int] or [float], becomes 50. *)
Definition validated (score : pyval) : pynum :=
  let score := if is_none score then PyInt 50 else score in
  match as_number score with
  | Some n => n
  | None => PInt 50
  end.

Definition get_score_category (config : scoring_config) (score : pyval)
  : result string :=
  let score := validated score in
  f ← float_of_num score;
  let score := clamp f in
  match scan_ranges (score_ranges config) score with
  | Some category => Ok category
  | None => Ok "fair"
  end.

(** The configuration and the analysis of [tests/test_evaluator.py]. *)
Definition test_config : scoring_config := {|
  scoring_weights :=
    [ ("typography", {| weight := PFloat (decimal 25 2) |});
      ("color", {| weight := PFloat (decimal 20 2) |});
      ("layout", {| weight := PFloat (decimal 25 2) |});
      ("usability", {| weight := PFloat (decimal 20 2) |});
      ("modern_design", {| weight := PFloat (decimal 10 2) |}) ];
  score_ranges :=
    [ ("excellent",
       {| range_min := PInt 90; range_max := PInt 100;
          range_color := "#4CAF50" |});
      ("poor",
       {| range_min := PInt 0; range_max := PInt 59;
          range_color := "#F44336" |}) ]
|}.

Definition scored (n : Z) : category_result := {|
  score := PyInt n;
  analysis := PyStr "";
  recommendations := PyList [];
  technical_data := None
|}.

Definition test_analysis : AnalysisResult :=
  <["typography" := scored 80]>
  (<["color" := scored 90]>
  (<["layout" := scored 70]>
  (<["usability" := scored 85]>
  (<["modern_design" := scored 75]> ∅)))).


(** *** The same two functions, read off the specification

    The final score as the specification words it: the terms
    [score x weight] of the categories that are in both mappings, in the
    order of the weights, summed from 0.0 and rounded to two places. *)
Definition common_terms (analysis : AnalysisResult)
    (weights : list (string * category_weight)) : list (pyval * pynum) :=
  omap (fun entry : string * category_weight =>
          r ← analysis !! entry.1; Some (score r, weight entry.2)) weights.

Fixpoint weighted_sum (total : pyfloat) (terms : list (pyval * pynum))
  : result pyfloat :=
  match terms with
  | [] => Ok total
  | (s, w) :: rest => t ← add_weighted total s w; weighted_sum t rest
  end.

Definition spec_final_score (config : scoring_config)
    (analysis : AnalysisResult) : result pyfloat :=
  total ← weighted_sum (S754_zero false)
            (common_terms analysis (scoring_weights config));
  Ok (round2 total).

(** A score that is a number [float()] converts for sure, and a weight
    that is a float (as 0.25 in the configuration file). *)
Definition plain_score (v : pyval) : Prop :=
  exists n, as_number v = Some n /\
    match n with PInt z => (Z.abs z < 2 ^ 1023)%Z | PFloat _ => True end.

Definition float_weight (w : pynum) : Prop := exists g, w = PFloat g.

(** A range that does not hold the score. *)
Definition misses (score : pynum) (entry : string * range_data) : Prop :=
  in_range entry.2 score = false.

(** [float(50)], the substituted default after conversion. *)
Definition fifty : pyfloat := S754_finite false 7036874417766400 (-47).

(** *** The orchestrator: [evaluate_website] and [batch_evaluate] *)

(** The dictionary [evaluate_website] returns; ['report_path'] is added
    once the report exists. *)
Record evaluation_data : Type := {
  url : string;
  timestamp : string;
  screenshot_path : string;
  cloud_url : option string;
  analysis_results : AnalysisResult;
  final_score : pyfloat;
  evaluation_time : pyfloat;
  report_path : option string
}.

(** The evaluator object: its configuration, and the collaborators and
    library calls it reaches through [self] and its imports.  Nothing is
    assumed of them: each may return or raise, whatever the world. *)
Record evaluator (World : Type) : Type := {
  config : scoring_config;
  urlparse : string -> result (string * string);
  time_time : World -> pyfloat;
  datetime_now_isoformat : World -> string;
  capture_website : string -> io World string;
  upload_screenshot : string -> io World (option string);
  analyze_design : string -> string -> io World AnalysisResult;
  generate_report : evaluation_data -> io World string;
  log_evaluation : evaluation_data -> io World bool
}.
Arguments config {World} _.
Arguments urlparse {World} _ _.
Arguments time_time {World} _ _.
Arguments datetime_now_isoformat {World} _ _.
Arguments capture_website {World} _ _ _.
Arguments upload_screenshot {World} _ _ _.
Arguments analyze_design {World} _ _ _ _.
Arguments generate_report {World} _ _ _.
Arguments log_evaluation {World} _ _ _.

(** [all([result.scheme, result.netloc])], [False] when parsing raises. *)
Definition validate_url {World} (self : evaluator World) (url : string)
  : bool :=
  match urlparse self url with
  | Ok (scheme, netloc) =>
      negb (String.eqb scheme "") && negb (String.eqb netloc "")
  | Raise _ => false
  end.

Definition invalid_url (url : string) : exn :=
  Exn "ValueError" ("URL inválida: " ++ url).

Definition evaluate_website {World} (self : evaluator World) (url : string)
    (save_to_cloud save_to_sheets : bool) : io World evaluation_data :=
  if negb (validate_url self url) then io_raise (invalid_url url)
  else
    start_time ← io_read (time_time self);
    screenshot_path ← capture_website self url;
    cloud_url ←
      (if save_to_cloud then upload_screenshot self screenshot_path
       else mret None);
    analysis_results ← analyze_design self screenshot_path url;
    final_score ← io_lift (_calculate_final_score (config self) analysis_results);
    timestamp ← io_read (datetime_now_isoformat self);
    now ← io_read (time_time self);
    let evaluation_data := {|
      url := url;
      timestamp := timestamp;
      screenshot_path := screenshot_path;
      cloud_url := cloud_url;
      analysis_results := analysis_results;
      final_score := final_score;
      evaluation_time := SF64sub now start_time;
      report_path := None
    |} in
    report_path ← generate_report self evaluation_data;
    let evaluation_data := {|
      url := url;
      timestamp := timestamp;
      screenshot_path := screenshot_path;
      cloud_url := cloud_url;
      analysis_results := analysis_results;
      final_score := final_score;
      evaluation_time := SF64sub now start_time;
      report_path := Some report_path
    |} in
    _ ← (if save_to_sheets then log_evaluation self evaluation_data
         else mret false);
    mret evaluation_data.

(** An element of the list [batch_evaluate] returns: a full evaluation,
    or the dictionary [{'url', 'error', 'timestamp'}]. *)
Inductive batch_entry : Type :=
| Evaluated (result : evaluation_data)
| ErrorRecord (url : string) (error : string) (timestamp : string).

(** One turn of the loop of [batch_evaluate]: the [try] with its
    [except Exception], each branch appending to [results]. *)
Definition batch_step {World} (self : evaluator World)
    (save_to_cloud save_to_sheets : bool) (results : list batch_entry)
    (url : string) (w : World) : list batch_entry * World :=
  match evaluate_website self url save_to_cloud save_to_sheets w with
  | (Ok result, w') => ((results ++ [Evaluated result])%list, w')
  | (Raise e, w') =>
      ((results ++
          [ErrorRecord url (exn_str e) (datetime_now_isoformat self w')])%list,
       w')
  end.

Fixpoint batch_loop {World} (self : evaluator World)
    (save_to_cloud save_to_sheets : bool) (results : list batch_entry)
    (urls : list string) (w : World) : list batch_entry * World :=
  match urls with
  | [] => (results, w)
  | url :: rest =>
      let '(results, w') :=
        batch_step self save_to_cloud save_to_sheets results url w in
      batch_loop self save_to_cloud save_to_sheets results rest w'
  end.

Definition batch_evaluate {World} (self : evaluator World)
    (urls : list string) (save_to_cloud save_to_sheets : bool) (w : World)
  : list batch_entry * World :=
  batch_loop self save_to_cloud save_to_sheets [] urls w.

(** What the specification expects in the slot of [url] when its turn
    comes in world [w], and the world its evaluation leaves. *)
Definition slot {World} (self : evaluator World)
    (save_to_cloud save_to_sheets : bool) (url : string) (w : World)
  : batch_entry :=
  match evaluate_website self url save_to_cloud save_to_sheets w with
  | (Ok result, _) => Evaluated result
  | (Raise e, w') =>
      ErrorRecord url (exn_str e) (datetime_now_isoformat self w')
  end.

Definition world_after {World} (self : evaluator World)
    (save_to_cloud save_to_sheets : bool) (w : World) (url : string)
  : World :=
  (evaluate_website self url save_to_cloud save_to_sheets w).2.

(** The world in which the [i]-th URL is evaluated. *)
Definition world_before {World} (self : evaluator World)
    (save_to_cloud save_to_sheets : bool) (w : World) (urls : list string)
    (i : nat) : World :=
  foldl (world_after self save_to_cloud save_to_sheets) w (take i urls).

(** The slots of all the URLs, each evaluated in the world its
    predecessors left. *)
Fixpoint slots {World} (self : evaluator World)
    (save_to_cloud save_to_sheets : bool) (urls : list string) (w : World)
  : list batch_entry :=
  match urls with
  | [] => []
  | url :: rest =>
      slot self save_to_cloud save_to_sheets url w ::
      slots self save_to_cloud save_to_sheets rest
        (world_after self save_to_cloud save_to_sheets w url)
  end.

(** *** A small world to run the orchestrator in

    The world is a clock that every collaborator advances; the capture
    of one host fails. *)
Definition sample_evaluator : evaluator nat := {|
  config := test_config;
  urlparse := fun url =>
    if String.prefix "https://" url
    then Ok ("https", String.substring 8 (String.length url - 8) url)
    else Ok ("", "");
  time_time := fun w => exact_float (Z.of_nat w);
  datetime_now_isoformat := fun w => "2024-01-01T12:00:" ++ pretty w;
  capture_website := fun url w =>
    if String.eqb url "https://down.example"
    then (Raise (Exn "WebDriverException" "net::ERR_NAME_NOT_RESOLVED"), S w)
    else (Ok ("screenshots/" ++ pretty w ++ ".png"), S w);
  upload_screenshot := fun _ w => (Ok None, S w);
  analyze_design := fun _ _ w => (Ok test_analysis, S w);
  generate_report := fun _ w => (Ok ("reports/" ++ pretty w ++ ".pdf"), S w);
  log_evaluation := fun _ w => (Ok false, S w)
|}.

Definition sample_urls : list string :=
  ["https://a.example"; "https://down.example"; "https://b.example"].

End WebsiteEvaluator.

(** ** [design_analyzer.py]: the AI call and the image analysers *)

Module DesignAnalyzer.
Import Py Model.
Local Open Scope string_scope.

(** *** [_find_sections] *)

(** The three local variables of [_find_sections]. *)
Record section_scan : Type := {
  sections : list (nat * nat);
  in_section : bool;
  section_start : nat
}.

(** The loop body at index [i] with value [value]. *)
Definition section_step (threshold : pynum) (st : section_scan) (i : nat)
    (value : pynum) : section_scan :=
  if py_lt value threshold && negb (in_section st) then
    {| sections := sections st; in_section := true; section_start := i |}
  else if py_le threshold value && in_section st then
    {| sections := (sections st ++ [(section_start st, i)])%list;
       in_section := false;
       section_start := section_start st |}
  else st.

Fixpoint section_loop (threshold : pynum) (st : section_scan) (i : nat)
    (vertical_profile : list pynum) : section_scan :=
  match vertical_profile with
  | [] => st
  | value :: rest =>
      section_loop threshold (section_step threshold st i value) (S i) rest
  end.

Definition section_scan_of (vertical_profile : list pynum)
    (threshold : pynum) : section_scan :=
  section_loop threshold
    {| sections := []; in_section := false; section_start := 0 |}
    0 vertical_profile.

Definition _find_sections (vertical_profile : list pynum)
    (threshold : pynum) : list (nat * nat) :=
  let st := section_scan_of vertical_profile threshold in
  if in_section st then
    (sections st ++ [(section_start st, length vertical_profile)])%list
  else sections st.

(** The profile of [tests/test_evaluator.py]. *)
Definition test_profile : list pynum :=
  map PInt [5; 5; 5; 50; 50; 5; 5; 30; 30; 30; 5; 5].

(** *** The libraries the analyser calls

    OpenCV, Pillow, NumPy's global random generator (its state is
    [Rng]), scikit-learn and the OpenAI client.  Nothing is assumed of
    them: each call may return or raise. *)
Record libraries (Rng CvImage PilImage : Type) : Type := {
  (* [cv2.imread]: [None] when the file cannot be decoded. *)
  cv2_imread : string -> option CvImage;
  (* [cv2.cvtColor(image, cv2.COLOR_BGR2GRAY)] on an array: the rows of
     8-bit intensities. *)
  bgr2gray : CvImage -> result (list (list Z));
  (* [cv2.Canny] then [cv2.HoughLines]: [None] or the lines found. *)
  hough_lines : list (list Z) -> result (option nat);
  (* The body of the [try] of [_analyze_typography]. *)
  typography_body : option CvImage -> result typography_descriptor;
  (* [Image.open]. *)
  Image_open : string -> result PilImage;
  (* [convert('RGB')], [np.array] and [reshape(-1, 3)]. *)
  rgb_pixels : PilImage -> result (list (Z * Z * Z));
  (* [ImageStat.Stat(image).mean]. *)
  stat_mean : PilImage -> result (list pynum);
  (* [np.array(image.convert('L'))] with [.std()] and [np.mean]. *)
  gray_std : PilImage -> result pyfloat;
  gray_mean : PilImage -> result pyfloat;
  (* [np.random.choice(n, size, replace=False)] on the global generator. *)
  random_choice : nat -> nat -> io Rng (list nat);
  (* [KMeans(n_clusters, random_state).fit(sample).cluster_centers_]. *)
  kmeans_centers :
    nat -> Z -> list (Z * Z * Z) -> result (list (pyfloat * pyfloat * pyfloat));
  (* The body of the [try] of [_analyze_with_openai]: the request to the
     vision model and [json.loads] of its reply. *)
  openai_json : string -> result pyval
}.
Arguments cv2_imread {Rng CvImage PilImage} _ _.
Arguments bgr2gray {Rng CvImage PilImage} _ _.
Arguments hough_lines {Rng CvImage PilImage} _ _.
Arguments typography_body {Rng CvImage PilImage} _ _.
Arguments Image_open {Rng CvImage PilImage} _ _.
Arguments rgb_pixels {Rng CvImage PilImage} _ _.
Arguments stat_mean {Rng CvImage PilImage} _ _.
Arguments gray_std {Rng CvImage PilImage} _ _.
Arguments gray_mean {Rng CvImage PilImage} _ _.
Arguments random_choice {Rng CvImage PilImage} _ _ _.
Arguments kmeans_centers {Rng CvImage PilImage} _ _ _ _.
Arguments openai_json {Rng CvImage PilImage} _ _.

Section Analyzer.
Context {Rng CvImage PilImage : Type}.
Implicit Type lib : libraries Rng CvImage PilImage.

(** *** [_analyze_with_openai] and [_get_default_ai_analysis] *)

(** The dictionary the [except] branch of [_analyze_with_openai]
    returns. *)
Definition openai_fallback : pyval := PyDict [
  ("typography_score", PyInt 70);
  ("typography_analysis", PyStr "Análisis no disponible");
  ("typography_recommendations", PyList [PyStr "Verificar contraste de texto"]);
  ("color_score", PyInt 70);
  ("color_analysis", PyStr "Análisis no disponible");
  ("color_recommendations", PyList [PyStr "Revisar esquema de colores"]);
  ("layout_score", PyInt 70);
  ("layout_analysis", PyStr "Análisis no disponible");
  ("layout_recommendations", PyList [PyStr "Mejorar estructura visual"]);
  ("usability_score", PyInt 70);
  ("usability_analysis", PyStr "Análisis no disponible");
  ("usability_recommendations", PyList [PyStr "Simplificar navegación"]);
  ("modern_design_score", PyInt 70);
  ("modern_design_analysis", PyStr "Análisis no disponible");
  ("modern_design_recommendations", PyList [PyStr "Actualizar diseño visual"])
].

Definition _analyze_with_openai lib (screenshot_path : string)
  : result pyval :=
  try_except (openai_json lib screenshot_path) (fun _ => Ok openai_fallback).

Definition _get_default_ai_analysis : pyval := PyDict [
  ("typography_score", PyInt 70);
  ("typography_analysis",
   PyStr "Análisis automático: Tipografía estándar detectada");
  ("typography_recommendations",
   PyList [PyStr "Verificar legibilidad del texto";
           PyStr "Considerar mejores contrastes"]);
  ("color_score", PyInt 70);
  ("color_analysis", PyStr "Análisis automático: Esquema de colores básico");
  ("color_recommendations",
   PyList [PyStr "Revisar armonía cromática"; PyStr "Mejorar contraste"]);
  ("layout_score", PyInt 70);
  ("layout_analysis",
   PyStr "Análisis automático: Estructura de layout convencional");
  ("layout_recommendations",
   PyList [PyStr "Optimizar espaciado"; PyStr "Mejorar jerarquía visual"]);
  ("usability_score", PyInt 70);
  ("usability_analysis", PyStr "Análisis automático: Usabilidad básica");
  ("usability_recommendations",
   PyList [PyStr "Simplificar navegación"; PyStr "Mejorar accesibilidad"]);
  ("modern_design_score", PyInt 70);
  ("modern_design_analysis", PyStr "Análisis automático: Diseño funcional");
  ("modern_design_recommendations",
   PyList [PyStr "Modernizar elementos visuales";
           PyStr "Seguir tendencias actuales"])
].

(** *** [_analyze_colors] *)

Definition color_defaults : color_descriptor := {|
  dominant_colors := [(128, 128, 128)];
  average_rgb := [PInt 128; PInt 128; PInt 128];
  contrast_level := decimal 500 1;
  brightness := decimal 1280 1;
  color_diversity := 100
|}.

Definition index_error : exn := Exn "IndexError" "index out of bounds".

(** [pixels[indices]]. *)
Fixpoint take_pixels (pixels : list (Z * Z * Z)) (indices : list nat)
  : result (list (Z * Z * Z)) :=
  match indices with
  | [] => Ok []
  | i :: rest =>
      match pixels !! i with
      | Some px => l ← take_pixels pixels rest; Ok (px :: l)
      | None => Raise index_error
      end
  end.

(** [astype(int)] on a float: truncation towards zero (NumPy gives the
    least 64-bit int for NaN and the infinities). *)
Definition astype_int (x : pyfloat) : Z :=
  match x with
  | S754_zero _ => 0
  | S754_finite s m e =>
      cond_Zopp s
        (match e with
         | Zneg k => Z.shiftr (Zpos m) (Zpos k)
         | _ => Zpos m * 2 ^ e
         end)
  | _ => - 2 ^ 63
  end.

Definition astype_int3 (c : pyfloat * pyfloat * pyfloat) : Z * Z * Z :=
  let '(r, g, b) := c in (astype_int r, astype_int g, astype_int b).

(** The sample the clustering is run on: [sample_size] indices drawn
    from the global generator, and the pixels at them. *)
#[warnings="-abstract-large-number"]
Definition draw_sample lib (pixels : list (Z * Z * Z))
  : io Rng (list (Z * Z * Z)) :=
  let sample_size := Nat.min 10000 (length pixels) in
  indices ← random_choice lib (length pixels) sample_size;
  io_lift (take_pixels pixels indices).

(** The dominant colours of a sample. *)
Definition cluster lib (sample_pixels : list (Z * Z * Z))
  : result (list (Z * Z * Z)) :=
  centers ← kmeans_centers lib 5 42 sample_pixels;
  Ok (map astype_int3 centers).

(** The body of the [try] of [_analyze_colors]. *)
Definition colors_body lib (image : PilImage) : io Rng color_descriptor :=
  pixels ← io_lift (rgb_pixels lib image);
  sample_pixels ← draw_sample lib pixels;
  dominant_colors ← io_lift (cluster lib sample_pixels);
  mean ← io_lift (stat_mean lib image);
  contrast ← io_lift (gray_std lib image);
  brightness ← io_lift (gray_mean lib image);
  mret {|
    dominant_colors := dominant_colors;
    average_rgb := mean;
    contrast_level := contrast;
    brightness := brightness;
    color_diversity :=
      Z.of_nat (length (remove_dups (take 1000 sample_pixels)))
  |}.

Definition _analyze_colors lib (image : PilImage) : io Rng color_descriptor :=
  io_try_except (colors_body lib image) (fun _ => mret color_defaults).

(** *** [_analyze_layout] *)

Definition layout_defaults : layout_descriptor := {|
  content_density := decimal 5 1;
  line_count := 0;
  sections_detected := 3;
  horizontal_balance := decimal 100 1;
  whitespace_ratio := decimal 3 1;
  image_dimensions := (1920, 1080)
|}.

Definition cv2_error : exn := Exn "cv2.error" "!_src.empty() in function cvtColor".
Definition zero_division_error : exn := Exn "ZeroDivisionError" "division by zero".

(** [cv2.cvtColor(image, cv2.COLOR_BGR2GRAY)]; [image] is [None] when
    [cv2.imread] could not read the file. *)
Definition cvtColor lib (image : option CvImage) : result (list (list Z)) :=
  match image with
  | Some array => bgr2gray lib array
  | None => Raise cv2_error
  end.

(** [a / b] on two ints (pixel counts, exact as floats). *)
Definition int_truediv (a b : Z) : result pyfloat :=
  if (b =? 0)%Z then Raise zero_division_error
  else x ← int_to_float a; y ← int_to_float b; Ok (SF64div x y).

(** [np.mean] of 8-bit values: their sum, exact in binary64, over their
    number; NaN when there are none. *)
Definition np_mean (values : list Z) : pyfloat :=
  match int_to_float (foldr Z.add 0 values),
        int_to_float (Z.of_nat (length values)) with
  | Ok total, Ok n => SF64div total n
  | _, _ => S754_nan
  end.

Definition gray_width (gray : list (list Z)) : nat :=
  match gray with
  | [] => 0
  | row :: _ => length row
  end.

Definition layout_body lib (image : option CvImage)
  : result layout_descriptor :=
  gray ← cvtColor lib image;
  lines ← hough_lines lib gray;
  let height := length gray in
  let width := gray_width gray in
  let total_pixels := Z.of_nat height * Z.of_nat width in
  let content_pixels :=
    Z.of_nat (length (filter (fun v => (v < 240)%Z) (concat gray))) in
  content_density ← int_truediv content_pixels total_pixels;
  let vertical_profile := map (fun row => PFloat (np_mean row)) gray in
  let sections := _find_sections vertical_profile (PInt 10) in
  let left_half := map (take (width / 2)) gray in
  let right_half := map (drop (width / 2)) gray in
  let balance :=
    SFabs (SF64sub (np_mean (concat left_half)) (np_mean (concat right_half))) in
  whitespace ← int_sub_float 1 content_density;
  Ok {|
    content_density := content_density;
    line_count := match lines with Some n => Z.of_nat n | None => 0 end;
    sections_detected := Z.of_nat (length sections);
    horizontal_balance := balance;
    whitespace_ratio := whitespace;
    image_dimensions := (Z.of_nat width, Z.of_nat height)
  |}.

Definition _analyze_layout lib (image : option CvImage)
  : result layout_descriptor :=
  try_except (layout_body lib image) (fun _ => Ok layout_defaults).

(** *** [_analyze_typography] *)

Definition typography_defaults : typography_descriptor := {|
  text_regions_detected := 10;
  average_text_height := decimal 160 1;
  text_height_consistency := decimal 7 1;
  text_coverage_ratio := decimal 15 2;
  estimated_readability := PInt 70
|}.

Definition _analyze_typography lib (image : option CvImage)
  : result typography_descriptor :=
  try_except (typography_body lib image) (fun _ => Ok typography_defaults).

(** *** [analyze_design] *)

Definition attribute_error : exn :=
  Exn "AttributeError" "object has no attribute 'get'".

(** [d[key]] in the items of a dictionary. *)
Fixpoint dict_lookup (key : string) (items : list (string * pyval))
  : option pyval :=
  match items with
  | [] => None
  | (k, v) :: rest => if String.eqb k key then Some v else dict_lookup key rest
  end.

(** [d.get(key, default)]: only a dictionary has the method. *)
Definition dict_get (d : pyval) (key : string) (default : pyval)
  : result pyval :=
  match d with
  | PyDict items => Ok (from_option id default (dict_lookup key items))
  | _ => Raise attribute_error
  end.

(** One entry of [results]. *)
Definition category_entry (ai_analysis : pyval) (name : string)
    (technical : option technical) : result category_result :=
  score ← dict_get ai_analysis (name ++ "_score") (PyInt 70);
  analysis ← dict_get ai_analysis (name ++ "_analysis") (PyStr "");
  recommendations ←
    dict_get ai_analysis (name ++ "_recommendations") (PyList []);
  Ok {| score := score; analysis := analysis;
        recommendations := recommendations; technical_data := technical |}.

Definition combine (ai_analysis : pyval) (typography_analysis : technical)
    (color_analysis : technical) (layout_analysis : technical)
  : result AnalysisResult :=
  typography ← category_entry ai_analysis "typography" (Some typography_analysis);
  color ← category_entry ai_analysis "color" (Some color_analysis);
  layout ← category_entry ai_analysis "layout" (Some layout_analysis);
  usability ← category_entry ai_analysis "usability" None;
  modern_design ← category_entry ai_analysis "modern_design" None;
  Ok (<["typography" := typography]>
      (<["color" := color]>
      (<["layout" := layout]>
      (<["usability" := usability]>
      (<["modern_design" := modern_design]> ∅))))).

Definition analyze_design lib (screenshot_path url : string)
  : io Rng AnalysisResult :=
  let image := cv2_imread lib screenshot_path in
  pil_image ← io_lift (Image_open lib screenshot_path);
  ai_analysis ← io_lift
    (try_except (_analyze_with_openai lib screenshot_path)
       (fun _ => Ok _get_default_ai_analysis));
  color_analysis ← io_try_except
    (d ← _analyze_colors lib pil_image; mret (Color d))
    (fun _ => mret EmptyDict);
  layout_analysis ← io_lift (_analyze_layout lib image);
  typography_analysis ← io_lift (_analyze_typography lib image);
  io_lift (combine ai_analysis (Typography typography_analysis)
             color_analysis (Layout layout_analysis)).

End Analyzer.

(** The five category names. *)
Definition categories : list string :=
  ["typography"; "color"; "layout"; "usability"; "modern_design"].

(** *** A small environment to run the analyser in

    An image is the list of its pixels (grey rows for OpenCV), the
    generator state is a counter that every draw advances and that
    fixes where the drawn indices start, and the clustering returns its
    first points as centres.  [reply] is what the vision model's reply
    parses to. *)
(** An image of eight pixels, and its grey rows. *)
Definition eight_pixels : list (Z * Z * Z) :=
  [(255, 0, 0); (0, 255, 0); (0, 0, 255); (255, 255, 0);
   (0, 255, 255); (255, 0, 255); (0, 0, 0); (255, 255, 255)].

Definition gray_rows : list (list Z) :=
  [[255; 255; 255; 255]; [0; 0; 255; 255]; [255; 255; 255; 255]].

Definition sample_libraries (reply : result pyval)
  : libraries nat (list (list Z)) (list (Z * Z * Z)) := {|
  cv2_imread := fun path =>
    if String.eqb path "unreadable.gif" then None
    else Some gray_rows;
  bgr2gray := fun array => Ok array;
  hough_lines := fun _ => Ok None;
  typography_body := fun _ => Ok typography_defaults;
  Image_open := fun path =>
    if String.eqb path "one_pixel.png" then Ok [(255, 255, 255)]
    else Ok eight_pixels;
  rgb_pixels := fun image => Ok image;
  stat_mean := fun _ => Ok [PFloat (exact_float 127); PFloat (exact_float 127);
                            PFloat (exact_float 127)];
  gray_std := fun _ => Ok (exact_float 90);
  gray_mean := fun _ => Ok (exact_float 127);
  random_choice := fun n size g =>
    (Ok (map (fun i => (i + g) mod n)%nat (seq 0 size)), S g);
  kmeans_centers := fun n_clusters _ sample =>
    if (length sample <? n_clusters)%nat
    then Raise (Exn "ValueError" "n_samples should be >= n_clusters")
    else Ok (map (fun '(r, g, b) => (exact_float r, exact_float g, exact_float b))
               (take n_clusters sample));
  openai_json := fun _ => reply
|}.

End DesignAnalyzer.

(** ** [design_analyzer.py]: the body of [_analyze_typography] *)

Module Typography.
Import Py Model DesignAnalyzer.
Local Open Scope string_scope.

(** The OpenCV and NumPy calls of [_analyze_typography]; a contour is
    whatever [cv2.findContours] returns, and its bounding rectangle holds
    32-bit ints. *)
Record contour_tools (Contour : Type) : Type := {
  (* [cv2.threshold] then [cv2.findContours]. *)
  find_contours : list (list Z) -> result (list Contour);
  (* [cv2.boundingRect]: x, y, w, h. *)
  bounding_rect : Contour -> result (Z * Z * Z * Z);
  contour_area : Contour -> result pyfloat;
  (* [np.std] of a list of ints. *)
  np_std : list Z -> pyfloat
}.
Arguments find_contours {Contour} _ _.
Arguments bounding_rect {Contour} _ _.
Arguments contour_area {Contour} _ _.
Arguments np_std {Contour} _ _.

Section Body.
Context {Rng CvImage PilImage Contour : Type}.
Implicit Type lib : libraries Rng CvImage PilImage.
Implicit Type tools : contour_tools Contour.

(** [0.1 < aspect_ratio < 10 and 50 < area < 10000]. *)
Definition looks_like_text (aspect_ratio area : pyfloat) : bool :=
  py_lt (PFloat (decimal 1 1)) (PFloat aspect_ratio)
  && py_lt (PFloat aspect_ratio) (PInt 10)
  && py_lt (PInt 50) (PFloat area)
  && py_lt (PFloat area) (PInt 10000).

(** The loop over the contours. *)
Fixpoint contours_loop tools (contours : list Contour)
    (text_contours : list (Z * Z * Z * Z)) : result (list (Z * Z * Z * Z)) :=
  match contours with
  | [] => Ok text_contours
  | contour :: rest =>
      rect ← bounding_rect tools contour;
      let '(x, y, w, h) := rect in
      aspect_ratio ← int_truediv w h;
      area ← contour_area tools contour;
      if looks_like_text aspect_ratio area
      then contours_loop tools rest (text_contours ++ [(x, y, w, h)])%list
      else contours_loop tools rest text_contours
  end.

(** The three statistics: average height, height consistency and
    coverage. *)
Definition text_statistics tools (gray : list (list Z))
    (text_contours : list (Z * Z * Z * Z))
  : result (pyfloat * pyfloat * pyfloat) :=
  match text_contours with
  | [] => Ok (exact_float 20, decimal 5 1, decimal 1 1)
  | _ =>
      let heights := map (fun '(x, y, w, h) => h) text_contours in
      let avg_text_height := np_mean heights in
      let text_height_consistency :=
        SF64div (exact_float 1) (SF64add (np_std tools heights) (exact_float 1)) in
      let covered :=
        foldr Z.add 0%Z (map (fun '(x, y, w, h) => (w * h)%Z) text_contours) in
      text_coverage ←
        int_truediv covered
          (Z.of_nat (length gray) * Z.of_nat (gray_width gray))%Z;
      Ok (avg_text_height, text_height_consistency, text_coverage)
  end.

(** The body of the [try] of [_analyze_typography]. *)
Definition typography_try lib tools (image : option CvImage)
  : result typography_descriptor :=
  gray ← cvtColor lib image;
  contours ← find_contours tools gray;
  text_contours ← contours_loop tools contours [];
  statistics ← text_statistics tools gray text_contours;
  let '(avg_text_height, text_height_consistency, text_coverage) :=
    statistics in
  Ok {|
    text_regions_detected := Z.of_nat (length text_contours);
    average_text_height := avg_text_height;
    text_height_consistency := text_height_consistency;
    text_coverage_ratio := text_coverage;
    estimated_readability :=
      py_min (PInt 100)
        (PFloat (SF64mul text_height_consistency (exact_float 100)))
  |}.

(** The libraries with this body for the typography step. *)
Definition with_typography lib tools : libraries Rng CvImage PilImage := {|
  cv2_imread := cv2_imread lib;
  bgr2gray := bgr2gray lib;
  hough_lines := hough_lines lib;
  typography_body := typography_try lib tools;
  Image_open := Image_open lib;
  rgb_pixels := rgb_pixels lib;
  stat_mean := stat_mean lib;
  gray_std := gray_std lib;
  gray_mean := gray_mean lib;
  random_choice := random_choice lib;
  kmeans_centers := kmeans_centers lib;
  openai_json := openai_json lib
|}.

End Body.

(** What the typography step gives on a page without text. *)
Definition no_text_descriptor : typography_descriptor := {|
  text_regions_detected := 0;
  average_text_height := exact_float 20;
  text_height_consistency := decimal 5 1;
  text_coverage_ratio := decimal 1 1;
  estimated_readability := PFloat (exact_float 50)
|}.

End Typography.

(** ** [report_generator.py]: the category of the report *)

Module ReportGenerator.
Import Py Model WebsiteEvaluator.
Local Open Scope string_scope.

Definition value_error : exn :=
  Exn "ValueError" "could not convert string to float".
Definition float_type_error : exn :=
  Exn "TypeError" "float() argument must be a string or a real number".

(** The builtin [float(v)].  [float_of_str] is its reading of a string,
    [None] where it raises [ValueError]. *)
Definition py_float (float_of_str : string -> option pyfloat) (v : pyval)
  : result pyfloat :=
  match v with
  | PyBool b => int_to_float (if b then 1 else 0)
  | PyInt n => int_to_float n
  | PyFloat f => Ok f
  | PyStr s =>
      match float_of_str s with
      | Some f => Ok f
      | None => Raise value_error
      end
  | _ => Raise float_type_error
  end.

(** [try: body  except (ValueError, TypeError): handler]. *)
Definition except_value_or_type {A} (body : result A)
    (handler : exn -> result A) : result A :=
  match body with
  | Ok a => Ok a
  | Raise e =>
      if bool_decide (exn_class e ∈ ["ValueError"; "TypeError"])
      then handler e
      else Raise e
  end.

Definition _get_score_category (float_of_str : string -> option pyfloat)
    (config : scoring_config) (score : pyval) : result string :=
  except_value_or_type
    (if is_none score then Ok "poor"
     else
       score ← py_float float_of_str score;
       if py_lt (PFloat score) (PInt 0) then Ok "poor"
       else if py_lt (PInt 100) (PFloat score) then Ok "excellent"
       else
         match scan_ranges (score_ranges config) (PFloat score) with
         | Some category => Ok category
         | None => Ok "poor"
         end)
    (fun _ => Ok "poor").

End ReportGenerator.

(** ** [google_sheets_integration.py]: the row of an evaluation *)

Module GoogleSheetsIntegration.
Import Py Model DesignAnalyzer.
Local Open Scope string_scope.

(** The spreadsheet object: whether its client and worksheet were set
    up, and the library calls it makes. *)
Record sheets (World : Type) : Type := {
  (* [self.client] and [self.worksheet] are both set. *)
  configured : bool;
  (* [urlparse(url).netloc] for a string. *)
  netloc : string -> result string;
  datetime_now_isoformat : World -> string;
  (* The builtins [str.title()] and [str(v)]. *)
  title : string -> string;
  str : pyval -> string;
  (* [self.worksheet.append_row(row)]. *)
  append_row : list pyval -> io World unit
}.
Arguments configured {World} _.
Arguments netloc {World} _ _.
Arguments datetime_now_isoformat {World} _ _.
Arguments title {World} _ _.
Arguments str {World} _ _.
Arguments append_row {World} _ _ _.

(** *** [_get_score_category] *)

Definition compare_error : exn :=
  Exn "TypeError" "'>=' not supported between these instances".

(** [score >= k] for an int [k]. *)
Definition ge_int (score : pyval) (k : Z) : result bool :=
  match as_number score with
  | Some n => Ok (py_le (PInt k) n)
  | None => Raise compare_error
  end.

Definition _get_score_category (score : pyval) : result string :=
  b ← ge_int score 90;
  if b : bool then Ok "Excellent"
  else
    b ← ge_int score 80;
    if b : bool then Ok "Very Good"
    else
      b ← ge_int score 70;
      if b : bool then Ok "Good"
      else
        b ← ge_int score 60;
        if b : bool then Ok "Fair" else Ok "Poor".

(** *** The characters of a [str]

    A Python [str] is a sequence of code points, and [len] and slices
    count code points.  A [string] here holds the UTF-8 encoding of the
    text (as a string literal of this file does): a code point is a
    leading byte with the continuation bytes (of the form 10xxxxxx) that
    follow it. *)

Definition is_continuation (c : Ascii.ascii) : bool :=
  match c with
  | Ascii.Ascii _ _ _ _ _ _ b6 b7 => b7 && negb b6
  end.

(** The number of code points of a text. *)
Fixpoint code_points (s : string) : nat :=
  match s with
  | EmptyString => 0
  | String c rest =>
      if is_continuation c then code_points rest else S (code_points rest)
  end.

(** The first [k] code points of a text, each with all its bytes. *)
Fixpoint take_code_points (k : nat) (s : string) : string :=
  match s with
  | EmptyString => EmptyString
  | String c rest =>
      if is_continuation c then String c (take_code_points k rest)
      else
        match k with
        | O => EmptyString
        | S k' => String c (take_code_points k' rest)
        end
  end.

(** *** [_truncate_text] *)

Definition len_error : exn := Exn "TypeError" "object has no len()".
Definition slice_error : exn := Exn "TypeError" "cannot slice or concatenate".

(** The builtin [len(v)]. *)
Definition py_len (v : pyval) : result Z :=
  match v with
  | PyStr s => Ok (Z.of_nat (code_points s))
  | PyList items => Ok (Z.of_nat (length items))
  | PyDict items => Ok (Z.of_nat (length items))
  | _ => Raise len_error
  end.

(** The number of characters [s[:k]] keeps of a string of [len]
    characters: a negative [k] counts from the end. *)
Definition slice_stop (k : Z) (len : nat) : nat :=
  if (0 <=? k)%Z then Nat.min (Z.to_nat k) len
  else Z.to_nat (Z.of_nat len + k).

(** [text[:k]] on a string. *)
Definition str_slice_to (k : Z) (text : string) : string :=
  take_code_points (slice_stop k (code_points text)) text.

(** [text[:max_length-3] + "..."] is defined on a string only: a list
    cannot take the string and a dictionary has no slices (the class
    of that exception depends on the interpreter; every caller catches
    [Exception]). *)
Definition _truncate_text (text : pyval) (max_length : Z) : result pyval :=
  n ← py_len text;
  if (n <=? max_length)%Z then Ok text
  else
    match text with
    | PyStr s => Ok (PyStr (str_slice_to (max_length - 3) s ++ "..."))
    | _ => Raise slice_error
    end.

(** *** [_get_top_recommendations] *)

(** [d.items()]: only a dictionary has the method. *)
Definition dict_items (d : pyval) : result (list (string * pyval)) :=
  match d with
  | PyDict items => Ok items
  | _ => Raise attribute_error
  end.

(** The truth value of [if v:]. *)
Definition truthy (v : pyval) : bool :=
  match v with
  | PyNone => false
  | PyBool b => b
  | PyInt n => negb (n =? 0)%Z
  | PyFloat (S754_zero _) => false
  | PyFloat _ => true
  | PyStr s => negb (String.eqb s "")
  | PyList [] | PyDict [] => false
  | PyList _ | PyDict _ => true
  end.

Definition subscript_error : exn :=
  Exn "TypeError" "object is not subscriptable".
Definition key_error : exn := Exn "KeyError" "0".
Definition index_out_of_range : exn := Exn "IndexError" "index out of range".

(** [v[0]]. *)
Definition item0 (v : pyval) : result pyval :=
  match v with
  | PyList (x :: _) => Ok x
  | PyStr (String _ _ as s) => Ok (PyStr (take_code_points 1 s))
  | PyList [] | PyStr "" => Raise index_out_of_range
  | PyDict _ => Raise key_error
  | _ => Raise subscript_error
  end.

(** A value inside an f-string: a string goes in as it is, anything
    else through [str]. *)
Definition formatted {World} (self : sheets World) (v : pyval) : string :=
  match v with
  | PyStr s => s
  | _ => str self v
  end.

(** The loop of [_get_top_recommendations]. *)
Fixpoint recommendations_loop {World} (self : sheets World)
    (items : list (string * pyval)) (recommendations : list string)
  : result (list string) :=
  match items with
  | [] => Ok recommendations
  | (category, data) :: rest =>
      category_recs ← dict_get data "recommendations" (PyList []);
      if truthy category_recs then
        first_rec ← item0 category_recs;
        recommendations_loop self rest
          (recommendations ++
             [(title self category ++ ": " ++ formatted self first_rec)%string])%list
      else recommendations_loop self rest recommendations
  end.

Definition _get_top_recommendations {World} (self : sheets World)
    (analysis_results : pyval) : result string :=
  items ← dict_items analysis_results;
  recommendations ← recommendations_loop self items [];
  Ok (String.concat " | " (take 3 recommendations)).

(** *** [_prepare_technical_summary] *)

(** The number of hundredths nearest to [m * 2^e], ties to even. *)
Definition hundredths (m : positive) (e : Z) : Z :=
  match e with
  | Zneg k =>
      let num := 100 * Zpos m in
      round_half_even (Z.shiftr num (Zpos k)) (num mod 2 ^ Zpos k)
        (2 ^ (Zpos k - 1))
  | _ => 100 * Zpos m * 2 ^ e
  end.

Definition two_digits (d : Z) : string :=
  if (d <? 10)%Z then "0" ++ pretty d else pretty d.

(** [f"{x:.2f}"] on a float. *)
Definition format_2f (x : pyfloat) : string :=
  match x with
  | S754_nan => "nan"
  | S754_infinity s => if s then "-inf" else "inf"
  | S754_zero s => if s then "-0.00" else "0.00"
  | S754_finite s m e =>
      let n := hundredths m e in
      (if s then "-" else "") ++ pretty (n / 100) ++ "." ++ two_digits (n mod 100)
  end.

(** The inner loop: of the first two technical data, those that are
    numbers, as [key: value] with two decimals. *)
Fixpoint metrics_loop (items : list (string * pyval))
    (key_metrics : list string) : result (list string) :=
  match items with
  | [] => Ok key_metrics
  | (key, value) :: rest =>
      match as_number value with
      | Some n =>
          x ← float_of_num n;
          metrics_loop rest (key_metrics ++ [(key ++ ": " ++ format_2f x)%string])%list
      | None => metrics_loop rest key_metrics
      end
  end.

Fixpoint summary_loop (items : list (string * pyval))
    (summary_parts : list string) : result (list string) :=
  match items with
  | [] => Ok summary_parts
  | (category, data) :: rest =>
      technical_data ← dict_get data "technical_data" (PyDict []);
      if truthy technical_data then
        technical_items ← dict_items technical_data;
        key_metrics ← metrics_loop (take 2 technical_items) [];
        if bool_decide (key_metrics = []) then summary_loop rest summary_parts
        else
          summary_loop rest
            (summary_parts ++
               [(category ++ ": " ++ String.concat ", " key_metrics)%string])%list
      else summary_loop rest summary_parts
  end.

Definition _prepare_technical_summary (analysis_results : pyval)
  : result string :=
  items ← dict_items analysis_results;
  summary_parts ← summary_loop items [];
  Ok (String.concat " | " summary_parts).

(** *** [_prepare_row_data] and [log_evaluation] *)

(** [s.replace(old, "")] for a non-empty [old]: its occurrences are
    dropped from left to right; [skip] characters of a match are still
    to drop. *)
Fixpoint remove_all (old : string) (skip : nat) (s : string) : string :=
  match s with
  | EmptyString => EmptyString
  | String c rest =>
      match skip with
      | S k => remove_all old k rest
      | O =>
          if String.prefix old s
          then remove_all old (String.length old - 1) rest
          else String c (remove_all old 0 rest)
      end
  end.

Definition url_type_error : exn :=
  Exn "TypeError" "a bytes-like object is required, not 'str'".

(** [urlparse(url).netloc.replace('www.', '')]; for a [url] that is no
    string the parse or the replace raises. *)
Definition domain_of {World} (self : sheets World) (url : pyval)
  : result string :=
  match url with
  | PyStr u => n ← netloc self u; Ok (remove_all "www." 0 n)
  | _ => Raise url_type_error
  end.

(** [analysis_results.get(category, {}).get(key, default)]. *)
Definition nested_get (analysis_results : pyval) (category key : string)
    (default : pyval) : result pyval :=
  data ← dict_get analysis_results category (PyDict []);
  dict_get data key default.

Definition _prepare_row_data {World} (self : sheets World)
    (evaluation_data : pyval) (w : World) : result (list pyval) :=
  url ← dict_get evaluation_data "url" (PyStr "");
  domain ← domain_of self url;
  timestamp ←
    dict_get evaluation_data "timestamp" (PyStr (datetime_now_isoformat self w));
  final_score ← dict_get evaluation_data "final_score" (PyInt 0);
  score_category ← _get_score_category final_score;
  analysis_results ← dict_get evaluation_data "analysis_results" (PyDict []);
  typography_score ← nested_get analysis_results "typography" "score" (PyInt 0);
  color_score ← nested_get analysis_results "color" "score" (PyInt 0);
  layout_score ← nested_get analysis_results "layout" "score" (PyInt 0);
  usability_score ← nested_get analysis_results "usability" "score" (PyInt 0);
  modern_design_score ←
    nested_get analysis_results "modern_design" "score" (PyInt 0);
  typography_analysis ←
    (text ← nested_get analysis_results "typography" "analysis" (PyStr "");
     _truncate_text text 1000);
  color_analysis ←
    (text ← nested_get analysis_results "color" "analysis" (PyStr "");
     _truncate_text text 1000);
  layout_analysis ←
    (text ← nested_get analysis_results "layout" "analysis" (PyStr "");
     _truncate_text text 1000);
  usability_analysis ←
    (text ← nested_get analysis_results "usability" "analysis" (PyStr "");
     _truncate_text text 1000);
  modern_design_analysis ←
    (text ← nested_get analysis_results "modern_design" "analysis" (PyStr "");
     _truncate_text text 1000);
  top_recommendations ← _get_top_recommendations self analysis_results;
  technical_summary ← _prepare_technical_summary analysis_results;
  cloud_url ← dict_get evaluation_data "cloud_url" (PyStr "");
  report_path ← dict_get evaluation_data "report_path" (PyStr "");
  evaluation_time ← dict_get evaluation_data "evaluation_time" (PyInt 0);
  Ok [ timestamp; url; PyStr domain; final_score; PyStr score_category;
       typography_score; color_score; layout_score; usability_score;
       modern_design_score; cloud_url; report_path; evaluation_time;
       typography_analysis; color_analysis; layout_analysis;
       usability_analysis; modern_design_analysis;
       PyStr top_recommendations; PyStr technical_summary ].

(** The header row [_setup_headers] writes. *)
Definition headers : list string :=
  [ "Timestamp"; "URL"; "Domain"; "Final Score"; "Score Category";
    "Typography Score"; "Color Score"; "Layout Score"; "Usability Score";
    "Modern Design Score"; "Screenshot URL"; "Report Path";
    "Evaluation Time (s)"; "Typography Analysis"; "Color Analysis";
    "Layout Analysis"; "Usability Analysis"; "Modern Design Analysis";
    "Top Recommendations"; "Technical Summary" ].

Definition log_evaluation {World} (self : sheets World)
    (evaluation_data : pyval) : io World bool :=
  io_try_except
    (if negb (configured self) then mret false
     else
       row_data ← (fun w => (_prepare_row_data self evaluation_data w, w));
       _ ← append_row self row_data;
       mret true)
    (fun _ => mret false).

End GoogleSheetsIntegration.

(** ** [cloud_storage.py]: the upload of a screenshot *)

Module CloudStorageManager.
Import Py.
Local Open Scope string_scope.

(** The storage manager: whether its client and bucket were set up, and
    the library calls it makes. *)
Record storage (World : Type) : Type := {
  (* [self.s3_client] and [self.bucket_name] are both set. *)
  configured : bool;
  os_path_exists : string -> World -> bool;
  os_path_basename : string -> string;
  os_path_splitext : string -> string * string;
  str_lower : string -> string;
  datetime_now_strftime : World -> string;
  datetime_now_isoformat : World -> string;
  (* [open(file_path, 'rb')] and [put_object] with this key, content
     type and upload time. *)
  put_object : string -> string -> string -> string -> io World unit;
  (* [generate_presigned_url] for this key. *)
  generate_presigned_url : string -> io World string
}.
Arguments configured {World} _.
Arguments os_path_exists {World} _ _ _.
Arguments os_path_basename {World} _ _.
Arguments os_path_splitext {World} _ _.
Arguments str_lower {World} _ _.
Arguments datetime_now_strftime {World} _ _.
Arguments datetime_now_isoformat {World} _ _.
Arguments put_object {World} _ _ _ _ _ _.
Arguments generate_presigned_url {World} _ _ _.

(** [s.endswith(suffix)]. *)
Definition endswith (suffix s : string) : bool :=
  String.prefix (String.rev suffix) (String.rev s).

(** The content type [upload_to_s3] picks from the extension. *)
Definition content_type_of {World} (self : storage World) (file_path : string)
  : string :=
  let lower := str_lower self file_path in
  if endswith ".jpg" lower || endswith ".jpeg" lower then "image/jpeg"
  else if endswith ".pdf" lower then "application/pdf"
  else "image/png".

(** The body of the [try] of [upload_to_s3]. *)
Definition upload_body {World} (self : storage World)
    (file_path folder : string) : io World string :=
  timestamp ← io_read (datetime_now_strftime self);
  let file_name := os_path_basename self file_path in
  let name_parts := os_path_splitext self file_name in
  let unique_name := name_parts.1 ++ "_" ++ timestamp ++ name_parts.2 in
  let s3_key := folder ++ "/" ++ unique_name in
  let content_type := content_type_of self file_path in
  upload_time ← io_read (datetime_now_isoformat self);
  _ ← put_object self s3_key content_type file_path upload_time;
  generate_presigned_url self s3_key.

Definition upload_to_s3 {World} (self : storage World)
    (file_path folder : string) : io World (option string) := fun w =>
  if negb (configured self) then (Ok None, w)
  else if negb (os_path_exists self file_path w) then (Ok None, w)
  else
    io_try_except
      (url ← upload_body self file_path folder; mret (Some url))
      (fun _ => mret None) w.

Definition upload_screenshot {World} (self : storage World)
    (file_path : string) : io World (option string) := fun w =>
  if negb (os_path_exists self file_path w) then (Ok None, w)
  else
    match upload_to_s3 self file_path "screenshots" w with
    | (Ok (Some s3_url), w') =>
        if String.eqb s3_url "" then (Ok None, w') else (Ok (Some s3_url), w')
    | (Ok None, w') => (Ok None, w')
    | (Raise e, w') => (Raise e, w')
    end.

End CloudStorageManager.

(** ** [main.py]: the badge of a score *)

Module Main.
Import Py GoogleSheetsIntegration.
Local Open Scope string_scope.

Definition get_score_emoji (score : pyval) : result string :=
  b ← ge_int score 90;
  if b : bool then Ok "🏆"
  else
    b ← ge_int score 80;
    if b : bool then Ok "🥇"
    else
      b ← ge_int score 70;
      if b : bool then Ok "🥈"
      else
        b ← ge_int score 60;
        if b : bool then Ok "🥉" else Ok "❌".

(** The badge that stands for a spreadsheet category. *)
Definition emoji_of_category (category : string) : string :=
  if String.eqb category "Excellent" then "🏆"
  else if String.eqb category "Very Good" then "🥇"
  else if String.eqb category "Good" then "🥈"
  else if String.eqb category "Fair" then "🥉"
  else "❌".

End Main.

(** ** Notions the properties are stated with *)

Module Notions.
Import Py Model WebsiteEvaluator.
Local Open Scope string_scope.

(** Row [i] lies in one of the sections: [start <= i < end]. *)
Definition covered (sections : list (nat * nat)) (i : nat) : Prop :=
  exists s e, (s, e) ∈ sections /\ (s <= i < e)%nat.

(** Sections that are non-empty, in increasing order, and apart: each
    starts at [lo] or later and after the end of the one before. *)
Fixpoint apart (lo : nat) (sections : list (nat * nat)) : Prop :=
  match sections with
  | [] => True
  | (s, e) :: rest => (lo <= s < e)%nat /\ apart (S e) rest
  end.

(** The evaluator with other cloud-storage and spreadsheet
    collaborators in place of its own. *)
Definition with_services {World} (self : evaluator World)
    (upload : string -> io World (option string))
    (log : evaluation_data -> io World bool) : evaluator World := {|
  config := config self;
  urlparse := urlparse self;
  time_time := time_time self;
  datetime_now_isoformat := datetime_now_isoformat self;
  capture_website := capture_website self;
  upload_screenshot := upload;
  analyze_design := analyze_design self;
  generate_report := generate_report self;
  log_evaluation := log
|}.

(** The spreadsheet categories from the lowest to the highest. *)
Definition category_rank (category : string) : nat :=
  if String.eqb category "Excellent" then 4
  else if String.eqb category "Very Good" then 3
  else if String.eqb category "Good" then 2
  else if String.eqb category "Fair" then 1
  else 0.

End Notions.

(** ** Small environments to run the collaborators in *)

Module Samples.
Import Py Model GoogleSheetsIntegration WebsiteEvaluator.
Local Open Scope string_scope.

(** The evaluation of the repository's test of [_prepare_row_data]. *)
Definition test_evaluation_data : pyval := PyDict [
  ("url", PyStr "https://example.com");
  ("timestamp", PyStr "2024-01-01T12:00:00");
  ("final_score", PyFloat (decimal 855 1));
  ("analysis_results", PyDict [
     ("typography", PyDict [("score", PyInt 90);
                            ("analysis", PyStr "Buen análisis")]);
     ("color", PyDict [("score", PyInt 80);
                       ("analysis", PyStr "Análisis de color")])]);
  ("cloud_url", PyStr "https://cloud.example.com/file");
  ("evaluation_time", PyFloat (decimal 452 1))
].

(** A worksheet that is the list of its rows. *)
Definition sample_sheets (configured : bool) : sheets (list (list pyval)) := {|
  GoogleSheetsIntegration.configured := configured;
  netloc := fun url =>
    if String.prefix "https://" url
    then Ok (String.substring 8 (String.length url - 8) url)
    else Ok "";
  GoogleSheetsIntegration.datetime_now_isoformat := fun _ =>
    "2024-01-01T12:00:00";
  title := fun s => s;
  str := fun _ => "";
  append_row := fun row w => (Ok tt, (w ++ [row])%list)
|}.

(** Contours given by their rectangle and area; the heights have no
    spread. *)
Definition sample_tools (contours : list (Z * Z * Z * Z * pyfloat))
  : Typography.contour_tools (Z * Z * Z * Z * pyfloat) := {|
  Typography.find_contours := fun _ => Ok contours;
  Typography.bounding_rect := fun contour => Ok contour.1;
  Typography.contour_area := fun contour => Ok contour.2;
  Typography.np_std := fun _ => S754_zero false
|}.

(** The analysis of the test with the colour score as the string
    ["90"], and an evaluator whose analyser returns it. *)
Definition string_score_analysis : AnalysisResult :=
  <["color" := {| score := PyStr "90"; analysis := PyStr "";
                  recommendations := PyList [];
                  technical_data := None |}]> test_analysis.

Definition string_score_evaluator : evaluator nat := {|
  config := config sample_evaluator;
  urlparse := urlparse sample_evaluator;
  time_time := time_time sample_evaluator;
  WebsiteEvaluator.datetime_now_isoformat :=
    WebsiteEvaluator.datetime_now_isoformat sample_evaluator;
  capture_website := capture_website sample_evaluator;
  upload_screenshot := upload_screenshot sample_evaluator;
  analyze_design := fun _ _ w => (Ok string_score_analysis, S w);
  generate_report := generate_report sample_evaluator;
  log_evaluation := log_evaluation sample_evaluator
|}.

End Samples.

(** * Properties *)

Import Py Model WebsiteEvaluator DesignAnalyzer.
Local Open Scope string_scope.
Local Open Scope Z_scope.

(** ** The number model *)

(** [int_to_float] is the Standard Library's IEEE 754 conversion of an
    integer to binary64, rounding to nearest with ties to even, with
    overflow reported as [OverflowError]. The lemmas below follow
    [binary_round]: the mantissa is aligned to 53 bits, shifted right
    with a round bit and a sticky bit, rounded, and shifted once more
    when rounding carries into the next binade. *)

Lemma digits2_pos_size p : digits2_pos p = Pos.size p.
Proof. induction p; cbn; congruence. Qed.

Lemma digits2_pos_log2 p : Z.pos (digits2_pos p) = Z.log2 (Z.pos p) + 1.
Proof.
  rewrite digits2_pos_size. destruct p; cbn [Pos.size Z.log2]; lia.
Qed.

Lemma iter_pos_nat {A} (f : A -> A) p : forall x,
  SpecFloat.iter_pos f p x = Nat.iter (Pos.to_nat p) f x.
Proof.
  induction p as [p IH|p IH|]; intros x; cbn [SpecFloat.iter_pos].
  - rewrite !IH, Pos2Nat.inj_xI.
    replace (S (2 * Pos.to_nat p))%nat with (Pos.to_nat p + S (Pos.to_nat p))%nat by lia.
    rewrite Nat.iter_add, Nat.iter_succ_r. reflexivity.
  - rewrite !IH, Pos2Nat.inj_xO.
    replace (2 * Pos.to_nat p)%nat with (Pos.to_nat p + Pos.to_nat p)%nat by lia.
    rewrite Nat.iter_add. reflexivity.
  - reflexivity.
Qed.

Lemma shr_1_spec m r s : 0 <= m ->
  shr_1 {| shr_m := m; shr_r := r; shr_s := s |} =
  {| shr_m := m / 2; shr_r := Z.odd m; shr_s := r || s |}.
Proof.
  intros Hm. destruct m as [|[p|p|]|p]; try lia; cbn [shr_1]; f_equal;
    try reflexivity.
  - rewrite Pos2Z.inj_xI. apply Z.div_unique_pos with (r := 1); lia.
  - rewrite Pos2Z.inj_xO. apply Z.div_unique_pos with (r := 0); lia.
Qed.

(** [j + 1] shifts of a non-negative mantissa: quotient, round bit, sticky bit. *)
Lemma shr_iter m : 0 <= m -> forall j,
  Nat.iter (S j) shr_1 {| shr_m := m; shr_r := false; shr_s := false |} =
  {| shr_m := m / 2 ^ Z.of_nat (S j);
     shr_r := Z.testbit m (Z.of_nat j);
     shr_s := negb (m mod 2 ^ Z.of_nat j =? 0) |}.
Proof.
  intros Hm. induction j as [|j IH].
  - cbn [Nat.iter]. rewrite shr_1_spec by exact Hm.
    change (Z.of_nat 1) with 1. change (Z.of_nat 0) with 0.
    rewrite Z.pow_1_r, Z.pow_0_r, Z.mod_1_r, Z.bit0_odd. reflexivity.
  - rewrite Nat.iter_succ, IH. clear IH.
    assert (Hp : 0 < 2 ^ Z.of_nat j) by (apply Z.pow_pos_nonneg; lia).
    assert (Hp1 : 2 ^ Z.of_nat (S j) = 2 * 2 ^ Z.of_nat j).
    { rewrite Nat2Z.inj_succ, Z.pow_succ_r by lia. reflexivity. }
    rewrite shr_1_spec by (apply Z.div_pos; lia).
    f_equal.
    + rewrite (Nat2Z.inj_succ (S j)), Z.pow_succ_r by lia.
      rewrite Z.mul_comm, <- Z.div_div by lia. reflexivity.
    + rewrite Z.testbit_odd, Z.shiftr_div_pow2 by lia. reflexivity.
    + rewrite Z.testbit_eqb by lia.
      rewrite Hp1.
      rewrite (Z.mul_comm 2), Z.rem_mul_r by lia.
      pose proof (Z.mod_pos_bound m (2 ^ Z.of_nat j) Hp).
      pose proof (Z.mod_pos_bound (m / 2 ^ Z.of_nat j) 2 ltac:(lia)).
      destruct (Z.eqb_spec ((m / 2 ^ Z.of_nat j) mod 2) 1),
               (Z.eqb_spec (m mod 2 ^ Z.of_nat j) 0),
               (Z.eqb_spec (m mod 2 ^ Z.of_nat j + 2 ^ Z.of_nat j * ((m / 2 ^ Z.of_nat j) mod 2)) 0);
        cbn; try reflexivity; nia.
Qed.

Lemma Zdigits2_log2 m : 0 < m -> Zdigits2 m = Z.log2 m + 1.
Proof. destruct m; try lia. intros _. apply digits2_pos_log2. Qed.

Lemma fexp_large e : -1021 <= e -> fexp prec emax e = e - 53.
Proof. intros. unfold fexp, SpecFloat.emin, prec, emax. lia. Qed.

Lemma shr_fexp_exact m e :
  0 < m -> Z.log2 m = 52 -> -1074 <= e ->
  shr_fexp prec emax m e loc_Exact =
  ({| shr_m := m; shr_r := false; shr_s := false |}, e).
Proof.
  intros Hm Hlog He. unfold shr_fexp. rewrite Zdigits2_log2, Hlog by exact Hm.
  rewrite fexp_large by lia.
  replace (52 + 1 + e - 53 - e) with 0 by lia. reflexivity.
Qed.

Lemma binary_round_aux_exact s m e :
  0 < m -> Z.log2 m = 52 -> -1074 <= e ->
  binary_round_aux prec emax s m e loc_Exact =
  if e <=? 971 then S754_finite s (Z.to_pos m) e else S754_infinity s.
Proof.
  intros Hm Hlog He. unfold binary_round_aux.
  rewrite shr_fexp_exact by assumption. cbn [shr_m loc_of_shr_record round_nearest_even].
  rewrite shr_fexp_exact by assumption. cbn [shr_m].
  destruct m; try lia. reflexivity.
Qed.

Lemma pos_iter_xO p k : Z.pos (Pos.iter xO p k) = Z.shiftl (Z.pos p) (Z.pos k).
Proof.
  cbn [Z.shiftl].
  apply (Pos.iter_swap_gen _ _ Z.pos xO (Z.mul 2)). reflexivity.
Qed.

(** The first shift of [binary_round_aux] on an int of more than 53 bits. *)
Lemma shr_fexp_long p k :
  1 <= k -> Z.log2 (Z.pos p) = 52 + k ->
  shr_fexp prec emax (Z.pos p) 0 loc_Exact =
  ({| shr_m := Z.pos p / 2 ^ k;
      shr_r := Z.testbit (Z.pos p) (k - 1);
      shr_s := negb (Z.pos p mod 2 ^ (k - 1) =? 0) |}, k).
Proof.
  intros Hk Hlog. unfold shr_fexp.
  rewrite Zdigits2_log2, Hlog by lia. rewrite fexp_large by lia.
  replace (52 + k + 1 + 0 - 53 - 0) with k by lia.
  destruct k as [|kp|kp]; try lia. cbn [shr shr_record_of_loc].
  rewrite iter_pos_nat.
  destruct (Pos.to_nat kp) as [|j] eqn:Hj; [lia|].
  rewrite shr_iter by lia.
  replace (Z.of_nat (S j)) with (Z.pos kp) by lia.
  replace (Z.of_nat j) with (Z.pos kp - 1) by lia.
  reflexivity.
Qed.

Lemma round_nearest_even_half p k :
  1 <= k ->
  round_nearest_even (Z.pos p / 2 ^ k)
    (loc_of_shr_record
       {| shr_m := Z.pos p / 2 ^ k;
          shr_r := Z.testbit (Z.pos p) (k - 1);
          shr_s := negb (Z.pos p mod 2 ^ (k - 1) =? 0) |}) =
  round_half_even (Z.shiftr (Z.pos p) k) (Z.pos p mod 2 ^ k) (2 ^ (k - 1)).
Proof.
  intros Hk. rewrite Z.shiftr_div_pow2 by lia.
  assert (Hp : 0 < 2 ^ (k - 1)) by (apply Z.pow_pos_nonneg; lia).
  assert (Hsplit : Z.pos p mod 2 ^ k =
            Z.pos p mod 2 ^ (k - 1) +
            2 ^ (k - 1) * ((Z.pos p / 2 ^ (k - 1)) mod 2)).
  { replace k with (k - 1 + 1) at 1 by lia.
    rewrite Z.pow_add_r, Z.pow_1_r by lia. apply Z.rem_mul_r; lia. }
  pose proof (Z.mod_pos_bound (Z.pos p) (2 ^ (k - 1)) Hp).
  pose proof (Z.mod_pos_bound (Z.pos p / 2 ^ (k - 1)) 2 ltac:(lia)).
  rewrite Z.testbit_eqb by lia. unfold round_half_even. rewrite Hsplit.
  destruct (Z.eqb_spec ((Z.pos p / 2 ^ (k - 1)) mod 2) 1) as [Hb|Hb],
           (Z.eqb_spec (Z.pos p mod 2 ^ (k - 1)) 0) as [Hs|Hs];
    cbn [negb loc_of_shr_record round_nearest_even];
    repeat match goal with
           | |- context [if ?a <? ?b then _ else _] => destruct (Z.ltb_spec a b)
           end; try reflexivity; try nia.
Qed.

Lemma float_of_pos_ieee s p :
  float_of_pos s p =
  match binary_round prec emax s p 0 with
  | S754_infinity _ => Raise overflow_error
  | f => Ok f
  end.
Proof.
  unfold float_of_pos, binary_round.
  rewrite digits2_pos_log2, Z.add_0_r.
  pose proof (Z.log2_spec (Z.pos p) ltac:(lia)) as [Hlo Hhi].
  pose proof (Z.log2_nonneg (Z.pos p)) as Hl.
  remember (Z.log2 (Z.pos p)) as l eqn:El.
  rewrite fexp_large by lia. unfold shl_align.
  destruct (Z.leb_spec (l + 1) 53) as [Hd|Hd].
  - destruct (l + 1 - 53 - 0) as [|kp|kp] eqn:Ek; try lia.
    + rewrite binary_round_aux_exact by lia.
      replace (53 - (l + 1)) with 0 by lia. rewrite Z.shiftl_0_r.
      replace (l + 1 - 53) with 0 by lia. reflexivity.
    + rewrite binary_round_aux_exact.
      * replace (53 - (l + 1)) with (Z.pos kp) by lia.
        rewrite pos_iter_xO.
        destruct (Z.leb_spec (l + 1 - 53) 971); [reflexivity|lia].
      * lia.
      * rewrite pos_iter_xO, Z.log2_shiftl by lia. lia.
      * lia.
  - destruct (l + 1 - 53 - 0) as [|kp|kp] eqn:Ek; try lia.
    unfold binary_round_aux.
    rewrite (shr_fexp_long p (l + 1 - 53)) by lia.
    cbn [shr_m]. rewrite round_nearest_even_half by lia.
    set (k := l + 1 - 53) in *.
    assert (Hq0 : 2 ^ 52 <= Z.shiftr (Z.pos p) k < 2 ^ 53).
    { rewrite Z.shiftr_div_pow2 by lia.
      assert (0 < 2 ^ k) by (apply Z.pow_pos_nonneg; lia).
      split.
      - apply Z.div_le_lower_bound; [lia|].
        rewrite <- Z.pow_add_r by lia.
        replace (k + 52) with l by (unfold k; lia). exact Hlo.
      - apply Z.div_lt_upper_bound; [lia|].
        rewrite <- Z.pow_add_r by lia.
        replace (k + 53) with (Z.succ l) by (unfold k; lia). exact Hhi. }
    set (q := round_half_even _ _ _).
    assert (Hq : 2 ^ 52 <= q <= 2 ^ 53).
    { unfold q, round_half_even.
      repeat match goal with |- context [if ?b then _ else _] => destruct b end;
        lia. }
    clearbody q.
    destruct (Z.eqb_spec q (2 ^ 53)) as [->|Hne].
    + unfold shr_fexp. rewrite Zdigits2_log2 by lia.
      change (Z.log2 (2 ^ 53)) with 53. rewrite fexp_large by lia.
      replace (53 + 1 + k - 53 - k) with 1 by lia.
      cbn [shr shr_record_of_loc SpecFloat.iter_pos shr_1 shr_m].
      change (2 ^ 53) with (Z.pos (2 ^ 53)%positive).
      cbn [shr_1 shr_m].
      unfold prec, emax.
      destruct (Z.leb_spec (k + 1) (1024 - 53)), (Z.ltb_spec 971 (k + 1));
        try lia; reflexivity.
    + rewrite shr_fexp_exact.
      * cbn [shr_m]. destruct q as [|qp|qp]; try lia.
        unfold prec, emax.
        destruct (Z.leb_spec k (1024 - 53)), (Z.ltb_spec 971 k);
          try lia; reflexivity.
      * lia.
      * apply Z.log2_unique; lia.
      * lia.
Qed.

Lemma int_to_float_ieee n : int_to_float n = ieee_int_to_float n.
Proof.
  destruct n as [|p|p]; cbn [int_to_float]; [reflexivity|..];
    apply float_of_pos_ieee.
Qed.

(** The same on small and large ints, ties to even in both directions,
    the carry into the next binade, and both sides of the overflow
    threshold, by evaluation. *)
Example int_to_float_is_ieee :
  Forall (fun n => int_to_float n = ieee_int_to_float n)
    [ 0; 1; -1; 50; 100; 255; 2 ^ 53 - 1; 2 ^ 53; 2 ^ 53 + 1; 2 ^ 53 + 2;
      2 ^ 53 + 3; - (2 ^ 60 + 2 ^ 7); - (2 ^ 60 + 2 ^ 7 + 1);
      - (2 ^ 60 + 2 ^ 7 + 2 ^ 8); 2 ^ 54 - 1; 10 ^ 22; 10 ^ 23; 3 ^ 400;
      2 ^ 1024 - 2 ^ 970 - 1; 2 ^ 1024 - 2 ^ 970; - 2 ^ 1024; 10 ^ 400 ].
Proof. repeat constructor; vm_compute; reflexivity. Qed.

(** [decimal] against the binary64 values of the literals used below
    (0.25 is 0x1p-2, 0.2 is 0x1.999999999999ap-3, 0.1 is
    0x1.999999999999ap-4, 80.75 is 0x1.43p+6, 0.5 is 0x1p-1, 0.3 is
    0x1.3333333333333p-2). *)
Example decimal_literals :
  decimal 25 2 = S754_finite false (2 ^ 52) (-54) /\
  decimal 20 2 = S754_finite false 0x1999999999999a (-55) /\
  decimal 10 2 = S754_finite false 0x1999999999999a (-56) /\
  decimal 8075 2 = S754_finite false 0x14300000000000 (-46) /\
  decimal 5 1 = S754_finite false (2 ^ 52) (-53) /\
  decimal 3 1 = S754_finite false 0x13333333333333 (-54).
Proof. repeat split; vm_compute; reflexivity. Qed.

(** [round2] on values whose two-place rounding is known: 2.675 is
    stored just below the tie and goes down, 0.125 and 0.375 are exact
    ties and go to the even hundredth, -0.001 keeps its sign. *)
Example round2_examples :
  round2 (decimal 2675 3) = decimal 267 2 /\
  round2 (decimal 125 3) = decimal 12 2 /\
  round2 (decimal 375 3) = decimal 38 2 /\
  round2 (decimal 80756 3) = decimal 8076 2 /\
  round2 (decimal 8000 2) = decimal 8000 2 /\
  round2 (decimal (-1) 3) = S754_zero true /\
  round2 S754_nan = S754_nan.
Proof. repeat split; vm_compute; reflexivity. Qed.

Lemma scale_up_pos e : 0 < scale_up e.
Proof. unfold scale_up. apply Z.pow_pos_nonneg; lia. Qed.

Lemma scale_down_pos e : 0 < scale_down e.
Proof. unfold scale_down. apply Z.pow_pos_nonneg; lia. Qed.

Lemma scale_up_nonneg e : 0 <= e -> scale_up e = 2 ^ e.
Proof. intros. unfold scale_up. f_equal. lia. Qed.

Lemma scale_up_nonpos e : e <= 0 -> scale_up e = 1.
Proof. intros. unfold scale_up. rewrite Z.max_l by lia. reflexivity. Qed.

Lemma scale_down_nonneg e : 0 <= e -> scale_down e = 1.
Proof. intros. unfold scale_down. rewrite Z.max_l by lia. reflexivity. Qed.

Lemma scale_down_nonpos e : e <= 0 -> scale_down e = 2 ^ (- e).
Proof. intros. unfold scale_down. f_equal. lia. Qed.

Lemma dyadic_scaled m e :
  Qnum (dyadic m e) = m * scale_up e /\ QDen (dyadic m e) = scale_down e.
Proof.
  unfold scale_up, scale_down, dyadic.
  destruct e as [|p|p]; cbn [Qnum Qden inject_Z].
  - rewrite Z.opp_0, Z.max_id. change (2 ^ 0) with 1. lia.
  - rewrite (Z.max_r 0 (Z.pos p)), (Z.max_l 0 (- Z.pos p)) by lia.
    change (2 ^ 0) with 1. lia.
  - rewrite (Z.max_l 0 (Z.neg p)), Pos2Z.opp_neg, (Z.max_r 0 (Z.pos p)) by lia.
    rewrite Pos2Z.inj_pow. change (2 ^ 0) with 1. lia.
Qed.

Lemma inject_le_dyadic a m e :
  Qle_bool (inject_Z a) (dyadic m e) = (a * scale_down e <=? m * scale_up e).
Proof.
  unfold Qle_bool. destruct (dyadic_scaled m e) as [-> ->].
  cbn [Qnum Qden inject_Z]. f_equal; lia.
Qed.

Lemma dyadic_le_inject m e a :
  Qle_bool (dyadic m e) (inject_Z a) = (m * scale_up e <=? a * scale_down e).
Proof.
  unfold Qle_bool. destruct (dyadic_scaled m e) as [-> ->].
  cbn [Qnum Qden inject_Z]. f_equal; lia.
Qed.

(** What [float(n)] is, in the scaled form the comparisons use: exact
    below [2^53], and at least [2^53] from there on. *)
Lemma float_of_pos_shape s p f :
  float_of_pos s p = Ok f ->
  exists m e, f = S754_finite s m e /\
    (Z.pos p < 2 ^ 53 -> Z.pos m * scale_up e = Z.pos p * scale_down e) /\
    (2 ^ 53 <= Z.pos p -> 2 ^ 53 <= Z.pos m * scale_up e /\ scale_down e = 1).
Proof.
  unfold float_of_pos.
  pose proof (Z.log2_spec (Z.pos p) ltac:(lia)) as [Hlo Hhi].
  set (l := Z.log2 (Z.pos p)) in *.
  assert (0 <= l) by apply Z.log2_nonneg.
  destruct (Z.leb_spec (l + 1) 53) as [Hd|Hd].
  - intros [= <-].
    assert (Hm : 0 < Z.shiftl (Z.pos p) (53 - (l + 1))).
    { rewrite Z.shiftl_mul_pow2 by lia.
      apply Z.mul_pos_pos; [lia | apply Z.pow_pos_nonneg; lia]. }
    eexists _, _. split; [reflexivity|].
    assert (Hlt : Z.pos p < 2 ^ 53).
    { eapply Z.lt_le_trans; [exact Hhi|].
      apply Z.pow_le_mono_r; lia. }
    split; [intros _ | lia].
    rewrite scale_up_nonpos, scale_down_nonpos by lia.
    rewrite Z2Pos.id by exact Hm.
    rewrite Z.shiftl_mul_pow2 by lia.
    rewrite Z.mul_1_r. do 2 f_equal. lia.
  - assert (Hge : 2 ^ 53 <= Z.pos p).
    { eapply Z.le_trans; [|exact Hlo]. apply Z.pow_le_mono_r; lia. }
    set (k := l + 1 - 53).
    assert (Hk : 1 <= k) by (unfold k; lia).
    assert (Hq0 : 2 ^ 52 <= Z.shiftr (Z.pos p) k).
    { rewrite Z.shiftr_div_pow2 by lia.
      apply Z.div_le_lower_bound; [apply Z.pow_pos_nonneg; lia|].
      rewrite <- Z.pow_add_r by lia.
      replace (k + 52) with l by (unfold k; lia). exact Hlo. }
    set (q := round_half_even _ _ _).
    assert (Hq : 2 ^ 52 <= q).
    { unfold q, round_half_even.
      repeat match goal with |- context [if ?b then _ else _] => destruct b end;
        lia. }
    clearbody q.
    assert (Hpk : 2 <= 2 ^ k).
    { change 2 with (2 ^ 1) at 1. apply Z.pow_le_mono_r; lia. }
    destruct (Z.eqb_spec q (2 ^ 53)) as [->|Hne].
    + destruct (971 <? k + 1); [discriminate|]. intros [= <-].
      eexists _, _. split; [reflexivity|].
      split; [lia|intros _].
      rewrite scale_up_nonneg, scale_down_nonneg by lia.
      split; [|reflexivity].
      change (Z.pos (Z.to_pos (2 ^ 52))) with (2 ^ 52).
      rewrite Z.pow_add_r by lia. change (2 ^ 1) with 2. nia.
    + destruct (971 <? k); [discriminate|]. intros [= <-].
      eexists _, _. split; [reflexivity|].
      split; [lia|intros _].
      rewrite scale_up_nonneg, scale_down_nonneg by lia.
      split; [|reflexivity].
      rewrite Z2Pos.id by lia.
      change (2 ^ 53) with (2 ^ 52 * 2). nia.
Qed.

Lemma inject_le_inject a b : Qle_bool (inject_Z a) (inject_Z b) = (a <=? b).
Proof. unfold Qle_bool. cbn [Qnum Qden inject_Z]. f_equal; lia. Qed.

(** Comparisons of a float with an int, as integer comparisons. *)
Lemma py_lt_finite_int s m e a :
  py_lt (PFloat (S754_finite s m e)) (PInt a)
  = (cond_Zopp s (Z.pos m) * scale_up e <? a * scale_down e).
Proof.
  unfold py_lt, xlt, num_value, float_value.
  rewrite inject_le_dyadic. rewrite Z.ltb_antisym. reflexivity.
Qed.

Lemma py_lt_int_finite a s m e :
  py_lt (PInt a) (PFloat (S754_finite s m e))
  = (a * scale_down e <? cond_Zopp s (Z.pos m) * scale_up e).
Proof.
  unfold py_lt, xlt, num_value, float_value.
  rewrite dyadic_le_inject. rewrite Z.ltb_antisym. reflexivity.
Qed.

Lemma py_lt_int_int a b : py_lt (PInt a) (PInt b) = (a <? b).
Proof.
  unfold py_lt, xlt, num_value. rewrite inject_le_inject.
  rewrite Z.ltb_antisym. reflexivity.
Qed.

Lemma py_le_int_int a b : py_le (PInt a) (PInt b) = (a <=? b).
Proof. unfold py_le, xle, num_value. apply inject_le_inject. Qed.

Lemma py_le_finite_int s m e a :
  py_le (PFloat (S754_finite s m e)) (PInt a)
  = (cond_Zopp s (Z.pos m) * scale_up e <=? a * scale_down e).
Proof. unfold py_le, xle, num_value, float_value. apply dyadic_le_inject. Qed.

Lemma py_le_int_finite a s m e :
  py_le (PInt a) (PFloat (S754_finite s m e))
  = (a * scale_down e <=? cond_Zopp s (Z.pos m) * scale_up e).
Proof. unfold py_le, xle, num_value, float_value. apply inject_le_dyadic. Qed.

Ltac cmp_int :=
  rewrite ?py_lt_finite_int, ?py_lt_int_finite, ?py_lt_int_int,
    ?py_le_finite_int, ?py_le_int_finite, ?py_le_int_int in *.

Lemma py_lt_le a b : py_lt a b = true -> py_le a b = true.
Proof.
  unfold py_lt, py_le, xlt, xle.
  destruct (num_value a) as [| |p|], (num_value b) as [| |q|];
    try discriminate; try reflexivity.
  intros H%negb_true_iff. apply Qle_bool_iff.
  apply Qlt_le_weak, Qnot_le_lt. intros Hle%Qle_bool_iff. congruence.
Qed.

Lemma int_to_float_negative n f :
  n < 0 -> int_to_float n = Ok f -> py_lt (PFloat f) (PInt 0) = true.
Proof.
  destruct n as [|p|p]; try lia. intros _ Hf. cbn [int_to_float] in Hf.
  apply float_of_pos_shape in Hf as (m & e & -> & _).
  cmp_int. apply Z.ltb_lt. cbn [cond_Zopp].
  pose proof (scale_up_pos e). pose proof (scale_down_pos e). lia.
Qed.

Lemma int_to_float_above a n f :
  0 <= a < 2 ^ 53 -> a < n -> int_to_float n = Ok f ->
  py_lt (PInt a) (PFloat f) = true.
Proof.
  intros Ha Hn Hf. destruct n as [|p|p]; try lia. cbn [int_to_float] in Hf.
  apply float_of_pos_shape in Hf as (m & e & -> & Hsmall & Hbig).
  cmp_int. apply Z.ltb_lt. cbn [cond_Zopp].
  pose proof (scale_down_pos e).
  destruct (Z.lt_ge_cases (Z.pos p) (2 ^ 53)) as [Hp|Hp].
  - rewrite (Hsmall Hp). nia.
  - destruct (Hbig Hp) as [Hm ->]. lia.
Qed.

Lemma int_to_float_small n :
  Z.abs n < 2 ^ 1023 -> exists f, int_to_float n = Ok f.
Proof.
  intros Hn.
  assert (Hpos : forall s p, Z.pos p < 2 ^ 1023 -> exists f, float_of_pos s p = Ok f).
  { intros s p Hp. unfold float_of_pos.
    pose proof (Z.log2_spec (Z.pos p) ltac:(lia)) as [Hlo Hhi].
    set (l := Z.log2 (Z.pos p)) in *.
    assert (0 <= l) by apply Z.log2_nonneg.
    assert (l < 1023).
    { apply (Z.pow_lt_mono_r_iff 2); lia. }
    destruct (l + 1 <=? 53); [eauto|].
    destruct (_ =? _).
    - destruct (Z.ltb_spec 971 (l + 1 - 53 + 1)); [lia|eauto].
    - destruct (Z.ltb_spec 971 (l + 1 - 53)); [lia|eauto]. }
  destruct n as [|p|p]; cbn [int_to_float]; [eauto|apply Hpos; lia|apply Hpos; lia].
Qed.


(** ** The clamp of [get_score_category] *)

Lemma clamp_below f :
  py_lt (PFloat f) (PInt 0) = true -> clamp f = PInt 0.
Proof.
  unfold clamp, py_max, py_min.
  destruct f as [s|[|]| |s m e]; try discriminate; try reflexivity.
  cmp_int. intros H%Z.ltb_lt.
  pose proof (scale_up_pos e). pose proof (scale_down_pos e).
  destruct (Z.ltb_spec (cond_Zopp s (Z.pos m) * scale_up e) (100 * scale_down e));
    [|lia].
  cmp_int.
  destruct (Z.ltb_spec (0 * scale_down e) (cond_Zopp s (Z.pos m) * scale_up e));
    [lia|reflexivity].
Qed.

Lemma clamp_above f :
  py_lt (PInt 100) (PFloat f) = true -> clamp f = PInt 100.
Proof.
  unfold clamp, py_max, py_min.
  destruct f as [s|[|]| |s m e]; try discriminate; try reflexivity.
  cmp_int. intros H%Z.ltb_lt.
  destruct (Z.ltb_spec (cond_Zopp s (Z.pos m) * scale_up e) (100 * scale_down e));
    [lia|reflexivity].
Qed.

Lemma clamp_cases f :
  clamp f = PInt 0 \/ clamp f = PInt 100 \/
  (clamp f = PFloat f /\ py_lt (PInt 0) (PFloat f) = true
   /\ py_lt (PFloat f) (PInt 100) = true).
Proof.
  unfold clamp, py_max, py_min.
  destruct (py_lt (PFloat f) (PInt 100)) eqn:Hhi.
  - destruct (py_lt (PInt 0) (PFloat f)) eqn:Hlo; auto.
  - right; left. reflexivity.
Qed.

Lemma clamp_bounds f :
  py_le (PInt 0) (clamp f) = true /\ py_le (clamp f) (PInt 100) = true.
Proof.
  destruct (clamp_cases f) as [-> | [-> | (-> & Hlo & Hhi)]].
  - split; reflexivity.
  - split; reflexivity.
  - split; apply py_lt_le; assumption.
Qed.



(** ** [get_score_category] *)

Lemma scan_ranges_first ranges score
    (pre post : list (string * range_data)) category rd :
  ranges = (pre ++ (category, rd) :: post)%list ->
  Forall (misses score) pre ->
  in_range rd score = true ->
  scan_ranges ranges score = Some category.
Proof.
  intros -> Hpre Hin. induction Hpre as [|[c r] pre Hmiss _ IH]; cbn.
  - rewrite Hin. reflexivity.
  - unfold misses in Hmiss. cbn in Hmiss. rewrite Hmiss. exact IH.
Qed.

Lemma scan_ranges_none ranges score :
  Forall (misses score) ranges -> scan_ranges ranges score = None.
Proof.
  induction 1 as [|[c r] rest Hmiss _ IH]; cbn; [reflexivity|].
  unfold misses in Hmiss. cbn in Hmiss. rewrite Hmiss. exact IH.
Qed.

Lemma scan_ranges_exists ranges score :
  Exists (fun entry => in_range entry.2 score = true) ranges ->
  exists category rd,
    (category, rd) ∈ ranges /\ in_range rd score = true /\
    scan_ranges ranges score = Some category.
Proof.
  induction ranges as [|[c r] rest IH]; intros Hex.
  - inversion Hex.
  - cbn. destruct (in_range r score) eqn:Hr.
    + exists c, r. split; [left|auto].
    + apply Exists_cons in Hex as [Hhd|Htl].
      * cbn in Hhd. congruence.
      * destruct (IH Htl) as (c' & r' & Hel & Hin & Hscan).
        exists c', r'. split; [right; exact Hel|auto].
Qed.

Lemma validated_number v n : as_number v = Some n -> validated v = n.
Proof.
  intros Hn. unfold validated.
  destruct v; try discriminate; cbn in *; congruence.
Qed.

Lemma validated_non_numeric v : as_number v = None -> validated v = PInt 50.
Proof.
  intros Hn. unfold validated.
  destruct v; try discriminate; reflexivity.
Qed.

Lemma get_score_category_eq config v f :
  float_of_num (validated v) = Ok f ->
  get_score_category config v =
  Ok (default "fair" (scan_ranges (score_ranges config) (clamp f))).
Proof.
  intros Hf. unfold get_score_category. rewrite Hf. cbn.
  destruct (scan_ranges _ _); reflexivity.
Qed.

(** Claim C2, with the fallback the code has: for every numeric score
    that [float()] converts, the clamped score lies in [0, 100], the
    result is the name of the first range, in the order of the
    configuration, whose inclusive bounds hold the clamped score, and
    ['fair'] when no range does; on a configuration whose ranges cover
    [0, 100] the result is always the name of a configured range. *)
Theorem get_score_category_first_range config v n f :
  as_number v = Some n -> float_of_num n = Ok f ->
  (py_le (PInt 0) (clamp f) = true /\ py_le (clamp f) (PInt 100) = true) /\
  (forall (pre post : list (string * range_data)) category rd,
     score_ranges config = (pre ++ (category, rd) :: post)%list ->
     Forall (misses (clamp f)) pre ->
     in_range rd (clamp f) = true ->
     get_score_category config v = Ok category) /\
  (Forall (misses (clamp f)) (score_ranges config) ->
   get_score_category config v = Ok "fair") /\
  ((forall s, py_le (PInt 0) s = true -> py_le s (PInt 100) = true ->
      Exists (fun entry => in_range entry.2 s = true) (score_ranges config)) ->
   exists category rd,
     (category, rd) ∈ score_ranges config /\ in_range rd (clamp f) = true /\
     get_score_category config v = Ok category).
Proof.
  intros Hn Hf. apply validated_number in Hn. rewrite <- Hn in Hf.
  pose proof (get_score_category_eq config v f Hf) as Heq.
  split; [apply clamp_bounds|]. repeat split.
  - intros pre post category rd Hr Hpre Hin. rewrite Heq.
    erewrite scan_ranges_first by eassumption. reflexivity.
  - intros Hall. rewrite Heq, scan_ranges_none by assumption. reflexivity.
  - intros Hcover. destruct (clamp_bounds f) as [Hlo Hhi].
    destruct (scan_ranges_exists _ _ (Hcover _ Hlo Hhi)) as (c & r & Hel & Hin & Hs).
    exists c, r. rewrite Heq, Hs. auto.
Qed.

(** Two numbers of the same finite value compare alike. *)
Lemma in_range_same_value rd a b p q :
  num_value a = XFin p -> num_value b = XFin q -> Qeq p q ->
  in_range rd a = in_range rd b.
Proof.
  intros Ha Hb Hpq. unfold in_range, py_le. rewrite Ha, Hb.
  f_equal.
  - destruct (num_value (range_min rd)); try reflexivity.
    cbn. apply Qleb_comp; [reflexivity|exact Hpq].
  - destruct (num_value (range_max rd)); try reflexivity.
    cbn. apply Qleb_comp; [exact Hpq|reflexivity].
Qed.

Lemma scan_ranges_same_value ranges a b p q :
  num_value a = XFin p -> num_value b = XFin q -> Qeq p q ->
  scan_ranges ranges a = scan_ranges ranges b.
Proof.
  intros Ha Hb Hpq. induction ranges as [|[c r] rest IH]; cbn; [reflexivity|].
  rewrite (in_range_same_value r a b p q Ha Hb Hpq), IH. reflexivity.
Qed.

Lemma float_of_fifty : int_to_float 50 = Ok fifty.
Proof. vm_compute. reflexivity. Qed.

Lemma clamp_fifty : clamp fifty = PFloat fifty.
Proof. vm_compute. reflexivity. Qed.

Lemma scan_ranges_fifty ranges :
  scan_ranges ranges (clamp fifty) = scan_ranges ranges (PInt 50).
Proof.
  rewrite clamp_fifty.
  eapply scan_ranges_same_value; [reflexivity..|].
  vm_compute. reflexivity.
Qed.

(** Claim C10: [None] and every value that is neither [int] nor [float]
    is replaced by 50; the function then returns what it returns on 50,
    the name of the first configured range that holds 50 (['fair'] when
    there is none), and never raises. *)
Theorem get_score_category_non_numeric config v :
  as_number v = None ->
  validated v = PInt 50 /\
  get_score_category config v = get_score_category config (PyInt 50) /\
  get_score_category config v =
    Ok (default "fair" (scan_ranges (score_ranges config) (PInt 50))) /\
  (forall (pre post : list (string * range_data)) category rd,
     score_ranges config = (pre ++ (category, rd) :: post)%list ->
     Forall (misses (PInt 50)) pre ->
     in_range rd (PInt 50) = true ->
     get_score_category config v = Ok category).
Proof.
  intros Hv. pose proof (validated_non_numeric v Hv) as Hval.
  assert (Heq : get_score_category config v =
    Ok (default "fair" (scan_ranges (score_ranges config) (PInt 50)))).
  { rewrite (get_score_category_eq config v fifty).
    - rewrite scan_ranges_fifty. reflexivity.
    - rewrite Hval. exact float_of_fifty. }
  repeat split; try assumption.
  - rewrite Heq. symmetry.
    rewrite (get_score_category_eq config (PyInt 50) fifty) by exact float_of_fifty.
    rewrite scan_ranges_fifty. reflexivity.
  - intros pre post category rd Hr Hpre Hin. rewrite Heq.
    erewrite scan_ranges_first by eassumption. reflexivity.
Qed.

(** The string ["95"] is not parsed: it is categorised as 50. *)
Lemma get_score_category_non_numeric_witness :
  as_number (PyStr "95") = None /\
  get_score_category test_config (PyStr "95") = Ok "poor".
Proof.
  split; [reflexivity|].
  destruct (get_score_category_non_numeric test_config (PyStr "95") eq_refl)
    as (_ & _ & _ & Hfirst).
  apply (Hfirst [("excellent", {| range_min := PInt 90; range_max := PInt 100;
                                  range_color := "#4CAF50" |})] []
                "poor" {| range_min := PInt 0; range_max := PInt 59;
                          range_color := "#F44336" |}).
  - reflexivity.
  - repeat constructor.
  - reflexivity.
Defined.

Lemma get_score_category_zero config :
  get_score_category config (PyInt 0) =
  Ok (default "fair" (scan_ranges (score_ranges config) (PInt 0))).
Proof. apply (get_score_category_eq config (PyInt 0) (S754_zero false)). reflexivity. Qed.

Lemma get_score_category_hundred config :
  get_score_category config (PyInt 100) =
  Ok (default "fair" (scan_ranges (score_ranges config) (PInt 100))).
Proof.
  destruct (int_to_float 100) as [f|] eqn:Hf; [|discriminate Hf].
  rewrite (get_score_category_eq config (PyInt 100) f Hf).
  replace (clamp f) with (PInt 100); [reflexivity|].
  revert Hf. vm_compute. intros [= <-]. reflexivity.
Qed.

(** Beside claim C5: every numeric score that [float()] converts (every
    float, and every int within the float range) is categorised without
    raising; below 0 it is clamped to 0 and categorised as 0 is, above
    100 it is clamped to 100 and categorised as 100 is. *)
Theorem get_score_category_out_of_bounds config v n f :
  as_number v = Some n -> float_of_num n = Ok f ->
  (exists category, get_score_category config v = Ok category) /\
  (py_lt n (PInt 0) = true ->
   clamp f = PInt 0 /\
   get_score_category config v = get_score_category config (PyInt 0)) /\
  (py_lt (PInt 100) n = true ->
   clamp f = PInt 100 /\
   get_score_category config v = get_score_category config (PyInt 100)).
Proof.
  intros Hn Hf. pose proof (validated_number v n Hn) as Hval.
  assert (Heq := get_score_category_eq config v f).
  rewrite Hval in Heq. specialize (Heq Hf).
  split; [eauto|]. split.
  - intros Hlt.
    assert (Hc : clamp f = PInt 0).
    { apply clamp_below. destruct n as [z|g]; cbn in Hf.
      - rewrite py_lt_int_int in Hlt. apply Z.ltb_lt in Hlt.
        eapply int_to_float_negative; eassumption.
      - congruence. }
    split; [exact Hc|]. rewrite Heq, Hc, get_score_category_zero. reflexivity.
  - intros Hgt.
    assert (Hc : clamp f = PInt 100).
    { apply clamp_above. destruct n as [z|g]; cbn in Hf.
      - rewrite py_lt_int_int in Hgt. apply Z.ltb_lt in Hgt.
        eapply int_to_float_above; [|eassumption..]. lia.
      - congruence. }
    split; [exact Hc|]. rewrite Heq, Hc, get_score_category_hundred. reflexivity.
Qed.

(** ** [_calculate_final_score] *)

Lemma score_loop_weighted_sum analysis weights total :
  score_loop analysis total weights =
  weighted_sum total (common_terms analysis weights).
Proof.
  revert total. induction weights as [|[c cd] rest IH]; intros total.
  - reflexivity.
  - cbn. destruct (analysis !! c) as [r|] eqn:Hc; cbn.
    + destruct (add_weighted total (score r) (weight cd)); cbn; [apply IH|reflexivity].
    + apply IH.
Qed.

Lemma elem_of_common_terms analysis weights s w :
  (s, w) ∈ common_terms analysis weights <->
  exists category cd r,
    (category, cd) ∈ weights /\ analysis !! category = Some r /\
    s = score r /\ w = weight cd.
Proof.
  unfold common_terms. rewrite list_elem_of_omap. split.
  - intros ([c cd] & Hel & Hsome). cbn in Hsome.
    destruct (analysis !! c) as [r|] eqn:Hc; cbn in Hsome; [|discriminate].
    injection Hsome as <- <-. exists c, cd, r. auto.
  - intros (c & cd & r & Hel & Hc & -> & ->).
    exists (c, cd). split; [exact Hel|]. cbn. rewrite Hc. reflexivity.
Qed.

Lemma score_loop_skips_unanalysed analysis total
    (pre post : list (string * category_weight)) category cd :
  analysis !! category = None ->
  score_loop analysis total (pre ++ (category, cd) :: post) =
  score_loop analysis total (pre ++ post).
Proof.
  intros Hc. rewrite !score_loop_weighted_sum. f_equal.
  unfold common_terms. rewrite !omap_app. cbn. rewrite Hc. reflexivity.
Qed.

Lemma score_loop_skips_unweighted analysis total weights category :
  category ∉ weights.*1 ->
  score_loop (delete category analysis) total weights =
  score_loop analysis total weights.
Proof.
  revert total. induction weights as [|[c cd] rest IH]; intros total Hc.
  - reflexivity.
  - cbn in Hc. apply not_elem_of_cons in Hc as [Hne Hrest].
    cbn. rewrite lookup_delete_ne by congruence.
    destruct (analysis !! c) as [r|]; cbn.
    + destruct (add_weighted total (score r) (weight cd)); cbn; [|reflexivity].
      apply IH, Hrest.
    + apply IH, Hrest.
Qed.

Lemma add_weighted_returns total s w :
  plain_score s -> float_weight w -> exists t, add_weighted total s w = Ok t.
Proof.
  intros (n & Hn & Hsize) [g ->]. unfold add_weighted. rewrite Hn.
  destruct n as [z|f]; cbn.
  - destruct (int_to_float_small z Hsize) as [fz ->]. cbn. eauto.
  - eauto.
Qed.

Lemma weighted_sum_returns terms : forall total,
  Forall (fun term => plain_score term.1 /\ float_weight term.2) terms ->
  exists t, weighted_sum total terms = Ok t.
Proof.
  induction terms as [|[s w] rest IH]; intros total Hall; cbn; [eauto|].
  apply Forall_cons in Hall as [[Hs Hw] Hrest]. cbn in Hs, Hw.
  destruct (add_weighted_returns total s w Hs Hw) as [t ->]. cbn.
  apply IH, Hrest.
Qed.

(** Claim C1, with the example's value as the code computes it: for
    every analysis and every weights mapping, [_calculate_final_score]
    is the left-to-right sum, from 0.0, of [score x weight] over the
    categories of the weights that the analysis holds too, rounded to two
    places; each such term belongs to a category present in both; a
    category missing from either mapping changes nothing; nothing is
    renormalised; with float weights and scores within float range the
    function returns; and the scores 80, 90, 70, 85, 75 under the weights
    0.25, 0.20, 0.25, 0.20, 0.10 give 80.0. *)
Theorem final_score_is_rounded_weighted_sum :
  (forall config analysis,
     _calculate_final_score config analysis = spec_final_score config analysis) /\
  (forall analysis weights s w,
     (s, w) ∈ common_terms analysis weights <->
     exists category cd r,
       (category, cd) ∈ weights /\ analysis !! category = Some r /\
       s = score r /\ w = weight cd) /\
  (forall config analysis category,
     category ∉ (scoring_weights config).*1 ->
     _calculate_final_score config (delete category analysis) =
     _calculate_final_score config analysis) /\
  (forall config config' analysis
          (pre post : list (string * category_weight)) category cd,
     scoring_weights config = (pre ++ (category, cd) :: post)%list ->
     scoring_weights config' = (pre ++ post)%list ->
     analysis !! category = None ->
     _calculate_final_score config analysis =
     _calculate_final_score config' analysis) /\
  (forall config analysis,
     (forall category cd,
        (category, cd) ∈ scoring_weights config -> float_weight (weight cd)) ->
     (forall category r,
        analysis !! category = Some r -> plain_score (score r)) ->
     exists total, _calculate_final_score config analysis = Ok total) /\
  _calculate_final_score test_config test_analysis = Ok (decimal 8000 2).
Proof.
  split; [|split; [|split; [|split; [|split]]]].
  - intros config analysis. unfold _calculate_final_score, spec_final_score.
    rewrite score_loop_weighted_sum. reflexivity.
  - apply elem_of_common_terms.
  - intros config analysis category Hc. unfold _calculate_final_score.
    rewrite score_loop_skips_unweighted by exact Hc. reflexivity.
  - intros config config' analysis pre post category cd Hw Hw' Hc.
    unfold _calculate_final_score. rewrite Hw, Hw'.
    rewrite score_loop_skips_unanalysed by exact Hc. reflexivity.
  - intros config analysis Hweights Hscores. unfold _calculate_final_score.
    rewrite score_loop_weighted_sum.
    destruct (weighted_sum_returns
                (common_terms analysis (scoring_weights config))
                (S754_zero false)) as [total ->]; [|cbn; eauto].
    apply Forall_forall. intros [s w] Hterm.
    apply elem_of_common_terms in Hterm as (c & cd & r & Hel & Hr & -> & ->).
    split; cbn; eauto.
  - vm_compute. reflexivity.
Qed.

(** The example of claim C1 on the code: the weighted sum is 80.0, not
    80.75 (in hundredths, 2000 + 1800 + 1750 + 1700 + 750 = 8000). *)
Lemma final_score_example_is_not_80_75 :
  _calculate_final_score test_config test_analysis = Ok (decimal 8000 2) /\
  _calculate_final_score test_config test_analysis <> Ok (decimal 8075 2).
Proof. split; vm_compute; [reflexivity|intros [=]]. Qed.

(** ** The tests of [tests/test_evaluator.py] on the model *)

Example test_get_score_category :
  get_score_category test_config (PyInt 95) = Ok "excellent" /\
  get_score_category test_config (PyInt 90) = Ok "excellent" /\
  get_score_category test_config (PyInt 59) = Ok "poor" /\
  get_score_category test_config (PyInt 0) = Ok "poor".
Proof. repeat split; vm_compute; reflexivity. Qed.

Example test_out_of_bounds_examples :
  get_score_category test_config (PyInt (-5)) =
    get_score_category test_config (PyInt 0) /\
  get_score_category test_config (PyInt 150) =
    get_score_category test_config (PyInt 100) /\
  get_score_category test_config (PyFloat S754_nan) = Ok "excellent".
Proof. repeat split; vm_compute; reflexivity. Qed.

(** The configured boundary 59 falls in ['poor'], the second range. *)
Lemma get_score_category_first_range_witness :
  get_score_category test_config (PyInt 59) = Ok "poor".
Proof.
  assert (Hf : float_of_num (PInt 59) = Ok (exact_float 59))
    by (vm_compute; reflexivity).
  destruct (get_score_category_first_range test_config (PyInt 59) (PInt 59)
              (exact_float 59) eq_refl Hf) as (_ & Hfirst & _).
  apply (Hfirst [("excellent", {| range_min := PInt 90; range_max := PInt 100;
                                  range_color := "#4CAF50" |})] []
                "poor" {| range_min := PInt 0; range_max := PInt 59;
                          range_color := "#F44336" |}).
  - reflexivity.
  - constructor; [vm_compute; reflexivity|constructor].
  - vm_compute. reflexivity.
Defined.

(** Claim C2 as stated fails on the fallback: with the ranges of the
    test configuration 75 lies in no range, and the result is ['fair'],
    not ['poor']. *)
Lemma get_score_category_fallback_is_fair :
  scan_ranges (score_ranges test_config) (clamp (exact_float 75)) = None /\
  get_score_category test_config (PyInt 75) = Ok "fair" /\
  get_score_category test_config (PyInt 75) <> Ok "poor".
Proof. repeat split; vm_compute; [reflexivity..|intros [=]]. Qed.

(** Outside the scores the function is declared for ([score: float],
    0 to 100): an int beyond the float range, such as [10**400], is not
    clamped; [float(score)] raises [OverflowError] out of the function
    (and so does [-10**400]). *)
Lemma get_score_category_huge_int_raises :
  as_number (PyInt (10 ^ 400)) = Some (PInt (10 ^ 400)) /\
  py_lt (PInt 100) (PInt (10 ^ 400)) = true /\
  get_score_category test_config (PyInt (10 ^ 400)) = Raise overflow_error /\
  get_score_category test_config (PyInt (- 10 ^ 400)) = Raise overflow_error.
Proof. repeat split; vm_compute; reflexivity. Qed.

(** The spec's two examples' kind: -5.5 goes where 0 goes, 150 where 100
    goes. *)
Lemma get_score_category_out_of_bounds_witness :
  get_score_category test_config (PyFloat (decimal (-55) 1)) =
    get_score_category test_config (PyInt 0) /\
  get_score_category test_config (PyInt 150) =
    get_score_category test_config (PyInt 100).
Proof.
  split.
  - apply (get_score_category_out_of_bounds test_config
             (PyFloat (decimal (-55) 1)) (PFloat (decimal (-55) 1))
             (decimal (-55) 1) eq_refl eq_refl).
    vm_compute. reflexivity.
  - assert (Hf : float_of_num (PInt 150) = Ok (exact_float 150))
      by (vm_compute; reflexivity).
    apply (get_score_category_out_of_bounds test_config (PyInt 150) (PInt 150)
             (exact_float 150) eq_refl Hf).
    vm_compute. reflexivity.
Defined.



(** ** [batch_evaluate] *)

Section Batch.
Context {World : Type} (self : evaluator World).
Context (save_to_cloud save_to_sheets : bool).

Local Abbreviation slot := (slot self save_to_cloud save_to_sheets).
Local Abbreviation slots := (slots self save_to_cloud save_to_sheets).
Local Abbreviation world_after := (world_after self save_to_cloud save_to_sheets).
Local Abbreviation world_before := (world_before self save_to_cloud save_to_sheets).

Lemma batch_step_slot results url w :
  batch_step self save_to_cloud save_to_sheets results url w =
  ((results ++ [slot url w])%list, world_after w url).
Proof.
  unfold batch_step, WebsiteEvaluator.slot, WebsiteEvaluator.world_after.
  destruct (evaluate_website self url save_to_cloud save_to_sheets w) as [[d|e] w'];
    reflexivity.
Qed.

Lemma batch_loop_slots urls : forall results w,
  batch_loop self save_to_cloud save_to_sheets results urls w =
  ((results ++ slots urls w)%list, foldl world_after w urls).
Proof.
  induction urls as [|url rest IH]; intros results w; cbn [batch_loop].
  - cbn. rewrite app_nil_r. reflexivity.
  - rewrite batch_step_slot, IH. cbn. rewrite <- app_assoc. reflexivity.
Qed.

Lemma length_slots urls : forall w, length (slots urls w) = length urls.
Proof. induction urls as [|url rest IH]; intros w; cbn; [|rewrite IH]; reflexivity. Qed.

Lemma lookup_slots urls : forall w i url,
  urls !! i = Some url ->
  slots urls w !! i = Some (slot url (world_before w urls i)).
Proof.
  unfold WebsiteEvaluator.world_before.
  induction urls as [|u rest IH]; intros w i url Hi; [discriminate|].
  destruct i as [|i]; cbn in *.
  - congruence.
  - apply IH, Hi.
Qed.

(** How an evaluation that stops at the capture looks from outside. *)
Lemma evaluate_website_capture_fails url w e w' :
  validate_url self url = true ->
  capture_website self url w = (Raise e, w') ->
  evaluate_website self url save_to_cloud save_to_sheets w = (Raise e, w').
Proof.
  intros Hvalid Hcap. unfold evaluate_website. rewrite Hvalid. cbn.
  unfold mbind, io_bind, io_read. rewrite Hcap. reflexivity.
Qed.

Lemma evaluate_website_invalid_url url w :
  validate_url self url = false ->
  evaluate_website self url save_to_cloud save_to_sheets w =
  (Raise (invalid_url url), w).
Proof. intros Hvalid. unfold evaluate_website. rewrite Hvalid. reflexivity. Qed.

End Batch.

(** Claim C3: for every list of URLs, whatever the collaborators do,
    [batch_evaluate] returns one result per URL, in the order of the
    URLs; the result at position [i] is the slot of the [i]-th URL,
    evaluated in the world the URLs before it left: its full evaluation,
    or, when [evaluate_website] raised [e], the record of its url,
    [str(e)] and a timestamp; a capture that raises gives such a record;
    and the URLs after a failure are evaluated all the same. *)
Theorem batch_evaluate_isolates_failures {World} (self : evaluator World)
    (urls : list string) (save_to_cloud save_to_sheets : bool) (w : World) :
  let results := (batch_evaluate self urls save_to_cloud save_to_sheets w).1 in
  length results = length urls /\
  (forall i url,
     urls !! i = Some url ->
     results !! i =
     Some (slot self save_to_cloud save_to_sheets url
             (world_before self save_to_cloud save_to_sheets w urls i))) /\
  (forall url w0,
     match evaluate_website self url save_to_cloud save_to_sheets w0 with
     | (Ok result, _) =>
         slot self save_to_cloud save_to_sheets url w0 = Evaluated result
     | (Raise e, w1) =>
         slot self save_to_cloud save_to_sheets url w0 =
         ErrorRecord url (exn_str e) (datetime_now_isoformat self w1)
     end) /\
  (forall url w0 e w1,
     validate_url self url = true ->
     capture_website self url w0 = (Raise e, w1) ->
     slot self save_to_cloud save_to_sheets url w0 =
     ErrorRecord url (exn_str e) (datetime_now_isoformat self w1)).
Proof.
  cbn zeta. unfold batch_evaluate. rewrite batch_loop_slots. cbn [fst app].
  split; [apply length_slots|]. split; [|split].
  - intros i url Hi. apply lookup_slots, Hi.
  - intros url w0. unfold slot.
    destruct (evaluate_website self url save_to_cloud save_to_sheets w0)
      as [[d|e] w1]; reflexivity.
  - intros url w0 e w1 Hvalid Hcap. unfold slot.
    rewrite (evaluate_website_capture_fails self save_to_cloud save_to_sheets
               url w0 e w1 Hvalid Hcap).
    reflexivity.
Qed.

(** Three URLs, the capture of the second fails: three results, the
    second an error record, the other two full evaluations. *)
Example batch_evaluate_sample :
  exists first third,
    (batch_evaluate sample_evaluator sample_urls true true 0%nat).1 =
    [ Evaluated first;
      ErrorRecord "https://down.example" "net::ERR_NAME_NOT_RESOLVED"
        "2024-01-01T12:00:6";
      Evaluated third ] /\
    url first = "https://a.example" /\ url third = "https://b.example" /\
    final_score first = decimal 8000 2.
Proof. eexists _, _. vm_compute. repeat split. Qed.

(** ** [_find_sections] *)

Lemma py_lt_not_ge a b : py_lt a b = true -> py_le b a = false.
Proof.
  unfold py_lt, py_le, xlt, xle.
  destruct (num_value a) as [| |p|], (num_value b) as [| |q|];
    try discriminate; try reflexivity.
  intros H%negb_true_iff. exact H.
Qed.

Lemma section_loop_snoc threshold (profile : list pynum) value : forall st i,
  section_loop threshold st i (profile ++ [value]) =
  section_step threshold (section_loop threshold st i profile)
    (i + length profile) value.
Proof.
  induction profile as [|v rest IH]; intros st i; cbn.
  - rewrite Nat.add_0_r. reflexivity.
  - rewrite IH. f_equal. lia.
Qed.

Lemma section_step_opens threshold st i value :
  py_lt value threshold = true ->
  in_section (section_step threshold st i value) = true /\
  (section_start (section_step threshold st i value) <= Nat.max i (section_start st))%nat.
Proof.
  intros Hlt. unfold section_step. rewrite Hlt, (py_lt_not_ge _ _ Hlt).
  destruct (in_section st) eqn:Hin; cbn; rewrite ?Hin; split; auto; lia.
Qed.

Lemma section_start_bound threshold (profile : list pynum) : forall st i,
  (section_start st <= i)%nat ->
  (section_start (section_loop threshold st i profile) <= i + length profile)%nat.
Proof.
  induction profile as [|v rest IH]; intros st i Hst; cbn; [lia|].
  etransitivity; [apply IH|lia].
  unfold section_step.
  repeat match goal with |- context [if ?b then _ else _] => destruct b end;
    cbn; lia.
Qed.

(** Claim C6: on the test profile with threshold 10, [_find_sections]
    returns the three sections (0,3), (5,7), (10,12), so at least two;
    and for every profile and threshold, a section still open when the
    loop ends is closed at the length of the profile: it is the last
    section returned.  In particular a profile that ends below the
    threshold ends in such a section. *)
Theorem find_sections_closes_open_section :
  _find_sections test_profile (PInt 10) = [(0, 3); (5, 7); (10, 12)]%nat /\
  (2 <= length (_find_sections test_profile (PInt 10)))%nat /\
  (forall profile threshold,
     in_section (section_scan_of profile threshold) = true ->
     last (_find_sections profile threshold) =
     Some (section_start (section_scan_of profile threshold), length profile)) /\
  (forall (profile : list pynum) value threshold,
     py_lt value threshold = true ->
     exists start,
       last (_find_sections (profile ++ [value]) threshold) =
       Some (start, length (profile ++ [value])) /\
       (start <= length profile)%nat).
Proof.
  split; [vm_compute; reflexivity|].
  split; [vm_compute; lia|].
  assert (Hopen : forall profile threshold,
     in_section (section_scan_of profile threshold) = true ->
     last (_find_sections profile threshold) =
     Some (section_start (section_scan_of profile threshold), length profile)).
  { intros profile threshold Hin. unfold _find_sections. rewrite Hin.
    apply last_snoc. }
  split; [exact Hopen|].
  intros profile value threshold Hlt.
  pose proof (section_step_opens threshold
                (section_loop threshold
                   {| sections := []; in_section := false; section_start := 0 |}
                   0 profile)
                (0 + length profile) value Hlt) as [Hin Hstart].
  rewrite <- section_loop_snoc in Hin, Hstart.
  eexists. split; [apply Hopen; exact Hin|].
  fold (section_scan_of (profile ++ [value]) threshold) in Hstart.
  etransitivity; [exact Hstart|].
  pose proof (section_start_bound threshold profile
                {| sections := []; in_section := false; section_start := 0 |} 0%nat
                ltac:(cbn; lia)).
  lia.
Qed.

(** ** The analysers never raise *)

Section AnalyzerFacts.
Context {Rng CvImage PilImage : Type} (lib : libraries Rng CvImage PilImage).

Lemma try_except_ok {A} (body : result A) (fallback : A) :
  try_except body (fun _ => Ok fallback) =
  Ok (match body with Ok a => a | Raise _ => fallback end).
Proof. destruct body; reflexivity. Qed.

Lemma io_bind_run {W A B} (m : io W A) (k : A -> io W B) (w : W) :
  (m ≫= k) w =
  match m w with
  | (Ok a, w') => k a w'
  | (Raise e, w') => (Raise e, w')
  end.
Proof. reflexivity. Qed.

Lemma io_bind_lift {W A B} (r : result A) (k : A -> io W B) (w : W) :
  (io_lift r ≫= k) w =
  match r with
  | Ok a => k a w
  | Raise e => (Raise e, w)
  end.
Proof. destruct r; reflexivity. Qed.

Lemma analyze_colors_cases image rng :
  _analyze_colors lib image rng =
  match colors_body lib image rng with
  | (Ok d, rng') => (Ok d, rng')
  | (Raise _, rng') => (Ok color_defaults, rng')
  end.
Proof.
  unfold _analyze_colors, io_try_except.
  destruct (colors_body lib image rng) as [[d|e] rng']; reflexivity.
Qed.

Lemma analyze_colors_ok image rng :
  exists d rng', _analyze_colors lib image rng = (Ok d, rng').
Proof.
  rewrite analyze_colors_cases.
  destruct (colors_body lib image rng) as [[d|e] rng']; eauto.
Qed.

Lemma analyze_layout_cases image :
  _analyze_layout lib image =
  Ok (match layout_body lib image with Ok d => d | Raise _ => layout_defaults end).
Proof. apply try_except_ok. Qed.

(** [analyze_design], once the image is open: the five entries are built
    from what the AI step left and from the three descriptors. *)
Lemma analyze_design_open path url rng pil_image :
  Image_open lib path = Ok pil_image ->
  exists ai color layout typography rng',
    try_except (_analyze_with_openai lib path)
      (fun _ => Ok _get_default_ai_analysis) = Ok ai /\
    _analyze_colors lib pil_image rng = (Ok color, rng') /\
    _analyze_layout lib (cv2_imread lib path) = Ok layout /\
    _analyze_typography lib (cv2_imread lib path) = Ok typography /\
    analyze_design lib path url rng =
    (combine ai (Typography typography) (Color color) (Layout layout), rng').
Proof.
  intros Hopen.
  destruct (analyze_colors_ok pil_image rng) as (color & rng' & Hcolor).
  unfold analyze_design. rewrite Hopen.
  unfold _analyze_with_openai, _analyze_layout, _analyze_typography.
  rewrite !try_except_ok.
  eexists _, color, _, _, rng'. repeat split; [exact Hcolor|].
  cbn. unfold mbind, io_bind, io_try_except, io_lift. cbn.
  rewrite Hcolor. reflexivity.
Qed.

Lemma openai_never_raises path :
  _analyze_with_openai lib path =
  Ok (match openai_json lib path with Ok v => v | Raise _ => openai_fallback end).
Proof. apply try_except_ok. Qed.

End AnalyzerFacts.

(** ** The AI step of [analyze_design] *)

(** Claim C4 at a malformed reply that still parses: a reply that is
    valid JSON but no object (a list, a number, [null]) leaves the [try]
    of [_analyze_with_openai] without an exception, so no default is
    substituted, and the first [.get] on it raises [AttributeError] out
    of [analyze_design]. *)
Theorem analyze_design_raises_on_non_object_reply
    {Rng CvImage PilImage : Type} (lib : libraries Rng CvImage PilImage)
    (path url : string) (rng : Rng) (pil_image : PilImage) (reply : pyval) :
  Image_open lib path = Ok pil_image ->
  openai_json lib path = Ok reply ->
  (forall items, reply <> PyDict items) ->
  (analyze_design lib path url rng).1 = Raise attribute_error.
Proof.
  intros Hopen Hreply Hshape.
  destruct (analyze_design_open lib path url rng pil_image Hopen)
    as (ai & color & layout & typography & rng' & Hai & _ & _ & _ & ->).
  rewrite openai_never_raises, Hreply in Hai. cbn in Hai.
  injection Hai as <-. cbn [fst].
  destruct reply; try reflexivity. exfalso. eapply Hshape. reflexivity.
Qed.

(** The reply [[]]. *)
Lemma analyze_design_raises_on_non_object_reply_witness :
  (analyze_design (sample_libraries (Ok (PyList []))) "page.png"
     "https://a.example" 0%nat).1 = Raise attribute_error.
Proof.
  apply (analyze_design_raises_on_non_object_reply
           (sample_libraries (Ok (PyList []))) "page.png" "https://a.example"
           0%nat _ (PyList []) eq_refl eq_refl).
  intros items [=].
Defined.

(** Beside claim C4: when the request or the parsing raises, the
    fallback of [_analyze_with_openai] is substituted, and
    [analyze_design] returns exactly the five categories, each with
    score 70, the narrative "Análisis no disponible" and one
    recommendation. *)
Theorem openai_failure_gives_fallback
    {Rng CvImage PilImage : Type} (lib : libraries Rng CvImage PilImage)
    (path url : string) (rng : Rng) (pil_image : PilImage) (e : exn) :
  Image_open lib path = Ok pil_image ->
  openai_json lib path = Raise e ->
  exists results rng',
    analyze_design lib path url rng = (Ok results, rng') /\
    dom results = list_to_set categories /\
    forall name, name ∈ categories ->
      exists r recommendation,
        results !! name = Some r /\
        score r = PyInt 70 /\
        analysis r = PyStr "Análisis no disponible" /\
        recommendations r = PyList [PyStr recommendation].
Proof.
  intros Hopen Hreply.
  destruct (analyze_design_open lib path url rng pil_image Hopen)
    as (ai & color & layout & typography & rng' & Hai & _ & _ & _ & ->).
  rewrite openai_never_raises, Hreply in Hai. cbn in Hai.
  injection Hai as <-.
  eexists _, rng'. split; [reflexivity|]. split.
  - rewrite !dom_insert_L, dom_empty_L. cbn. set_solver.
  - intros name Hname. unfold categories in Hname.
    repeat (apply elem_of_cons in Hname as [->|Hname]);
      [eexists _, _; split; [reflexivity|repeat split; reflexivity]..|].
    inversion Hname.
Qed.

(** A connection error. *)
Lemma openai_failure_gives_fallback_witness :
  exists results rng',
    analyze_design
      (sample_libraries (Raise (Exn "APIConnectionError" "Connection error.")))
      "page.png" "https://a.example" 0%nat = (Ok results, rng') /\
    dom results = list_to_set categories.
Proof.
  destruct (openai_failure_gives_fallback
              (sample_libraries (Raise (Exn "APIConnectionError" "Connection error.")))
              "page.png" "https://a.example" 0%nat _ _ eq_refl eq_refl)
    as (results & rng' & Hrun & Hdom & _).
  exists results, rng'. split; assumption.
Defined.

(** ** [_analyze_layout] *)

(** Claim C7 on the failure path: whatever the libraries do, an image
    OpenCV could not read (and any other exception in the [try]) ends in
    the [except] branch, which returns density 0.5 with whitespace ratio
    0.3, while 1 - 0.5 is 0.5. *)
Theorem layout_defaults_break_whitespace_ratio
    {Rng CvImage PilImage : Type} (lib : libraries Rng CvImage PilImage) :
  _analyze_layout lib None = Ok layout_defaults /\
  (forall image e,
     layout_body lib image = Raise e ->
     _analyze_layout lib image = Ok layout_defaults) /\
  content_density layout_defaults = decimal 5 1 /\
  whitespace_ratio layout_defaults = decimal 3 1 /\
  int_sub_float 1 (content_density layout_defaults) = Ok (decimal 5 1) /\
  int_sub_float 1 (content_density layout_defaults)
    <> Ok (whitespace_ratio layout_defaults).
Proof.
  split; [reflexivity|]. split.
  - intros image e Hbody. rewrite analyze_layout_cases, Hbody. reflexivity.
  - repeat split; try (vm_compute; reflexivity).
    vm_compute. intros [=].
Qed.

(** Beside claim C7: on the path that returns from the [try], the
    whitespace ratio is [1 - content_density]. *)
Theorem layout_whitespace_is_complement
    {Rng CvImage PilImage : Type} (lib : libraries Rng CvImage PilImage)
    (image : option CvImage) (d : layout_descriptor) :
  layout_body lib image = Ok d ->
  _analyze_layout lib image = Ok d /\
  int_sub_float 1 (content_density d) = Ok (whitespace_ratio d).
Proof.
  intros Hbody. split; [rewrite analyze_layout_cases, Hbody; reflexivity|].
  unfold layout_body in Hbody.
  destruct (cvtColor lib image) as [gray|]; [|discriminate].
  cbn [mbind result_bind] in Hbody.
  destruct (hough_lines lib gray) as [lines|]; [|discriminate].
  cbn [mbind result_bind] in Hbody.
  destruct (int_truediv _ _) as [density|]; [|discriminate].
  cbn [mbind result_bind] in Hbody.
  destruct (int_sub_float 1 density) as [whitespace|] eqn:Hws; [|discriminate].
  cbn [mbind result_bind] in Hbody. injection Hbody as <-.
  cbn [content_density whitespace_ratio]. exact Hws.
Qed.

(** Three grey rows of four pixels. *)
Lemma layout_whitespace_is_complement_witness :
  exists d,
    _analyze_layout (sample_libraries (Ok (PyList [])))
      (Some gray_rows) = Ok d /\
    int_sub_float 1 (content_density d) = Ok (whitespace_ratio d).
Proof.
  eexists.
  apply (layout_whitespace_is_complement (sample_libraries (Ok (PyList [])))
           (Some gray_rows)).
  vm_compute. reflexivity.
Defined.

(** ** [_analyze_colors] *)

Lemma combine_color ai typography color layout results :
  combine ai typography color layout = Ok results ->
  exists r, results !! "color" = Some r /\ technical_data r = Some color.
Proof.
  unfold combine. intros Hcombine.
  destruct (category_entry ai "typography" _) as [t|]; [|discriminate].
  cbn [mbind result_bind] in Hcombine.
  destruct (category_entry ai "color" _) as [c|] eqn:Hc; [|discriminate].
  cbn [mbind result_bind] in Hcombine.
  destruct (category_entry ai "layout" _) as [l|]; [|discriminate].
  cbn [mbind result_bind] in Hcombine.
  destruct (category_entry ai "usability" _) as [u|]; [|discriminate].
  cbn [mbind result_bind] in Hcombine.
  destruct (category_entry ai "modern_design" _) as [m|]; [|discriminate].
  cbn [mbind result_bind] in Hcombine. injection Hcombine as <-.
  exists c. split; [reflexivity|].
  unfold category_entry in Hc.
  destruct (dict_get ai _ (PyInt 70)); [|discriminate].
  cbn [mbind result_bind] in Hc.
  destruct (dict_get ai _ (PyStr "")); [|discriminate].
  cbn [mbind result_bind] in Hc.
  destruct (dict_get ai _ (PyList [])); [|discriminate].
  cbn [mbind result_bind] in Hc.
  injection Hc as <-. reflexivity.
Qed.

Lemma analyze_design_returns {Rng CvImage PilImage : Type}
    (lib : libraries Rng CvImage PilImage) path url rng results rng' :
  analyze_design lib path url rng = (Ok results, rng') ->
  exists pil_image, Image_open lib path = Ok pil_image.
Proof.
  unfold analyze_design. rewrite io_bind_lift.
  destruct (Image_open lib path) as [pil_image|e]; [eauto|discriminate].
Qed.

(** Claim C8: when the body of [_analyze_colors] raises, the neutral-gray
    descriptor (dominant colour (128,128,128), average [128,128,128],
    contrast 50.0, brightness 128.0, diversity 100) takes its place;
    [_analyze_colors] never raises; [analyze_design] then carries that
    descriptor under ['color'] (never the empty dictionary of its own
    [except] branch); and whether [analyze_design] returns does not
    depend on the colour step. *)
Theorem color_failure_gives_neutral_gray
    {Rng CvImage PilImage : Type} (lib : libraries Rng CvImage PilImage) :
  (forall image rng e rng',
     colors_body lib image rng = (Raise e, rng') ->
     _analyze_colors lib image rng = (Ok color_defaults, rng')) /\
  (forall image rng, exists d rng', _analyze_colors lib image rng = (Ok d, rng')) /\
  (forall path url rng pil_image e rng' results rng'',
     Image_open lib path = Ok pil_image ->
     colors_body lib pil_image rng = (Raise e, rng') ->
     analyze_design lib path url rng = (Ok results, rng'') ->
     exists r,
       results !! "color" = Some r /\
       technical_data r = Some (Color color_defaults)) /\
  (forall path url rng results rng',
     analyze_design lib path url rng = (Ok results, rng') ->
     exists r d,
       results !! "color" = Some r /\ technical_data r = Some (Color d)) /\
  (forall path url rng pil_image items,
     Image_open lib path = Ok pil_image ->
     (openai_json lib path = Ok (PyDict items) \/
      exists e, openai_json lib path = Raise e) ->
     is_ok (analyze_design lib path url rng).1 = true) /\
  color_defaults = {|
    dominant_colors := [(128, 128, 128)];
    average_rgb := [PInt 128; PInt 128; PInt 128];
    contrast_level := decimal 500 1;
    brightness := decimal 1280 1;
    color_diversity := 100
  |}.
Proof.
  split; [|split; [|split; [|split; [|split]]]].
  - intros image rng e rng' Hbody. rewrite analyze_colors_cases, Hbody.
    reflexivity.
  - apply analyze_colors_ok.
  - intros path url rng pil_image e rng' results rng'' Hopen Hbody Hrun.
    destruct (analyze_design_open lib path url rng pil_image Hopen)
      as (ai & color & layout & typography & rng1 & _ & Hcolor & _ & _ & Heq).
    rewrite analyze_colors_cases, Hbody in Hcolor. injection Hcolor as <- <-.
    rewrite Heq in Hrun. injection Hrun as Hcombine _.
    apply (combine_color _ _ _ _ _ Hcombine).
  - intros path url rng results rng' Hrun.
    destruct (analyze_design_returns lib path url rng results rng' Hrun)
      as [pil_image Hopen].
    destruct (analyze_design_open lib path url rng pil_image Hopen)
      as (ai & color & layout & typography & rng1 & _ & _ & _ & _ & Heq).
    rewrite Heq in Hrun. injection Hrun as Hcombine _.
    destruct (combine_color _ _ _ _ _ Hcombine) as (r & Hr & Htech).
    eauto.
  - intros path url rng pil_image items Hopen Hreply.
    destruct (analyze_design_open lib path url rng pil_image Hopen)
      as (ai & color & layout & typography & rng1 & Hai & _ & _ & _ & ->).
    rewrite openai_never_raises in Hai. cbn in Hai. injection Hai as <-.
    destruct Hreply as [->|[e ->]]; reflexivity.
  - reflexivity.
Qed.

(** A one-pixel image: the clustering refuses fewer samples than
    clusters, and the colour entry holds the neutral-gray descriptor. *)
Example color_failure_sample :
  match (analyze_design
           (sample_libraries (Raise (Exn "APIConnectionError" "Connection error.")))
           "one_pixel.png" "https://a.example" 0%nat).1 with
  | Ok results => technical_data <$> results !! "color"
  | Raise _ => None
  end = Some (Some (Color color_defaults)).
Proof. vm_compute. reflexivity. Qed.

(** Claim C9, amended: the clustering is seeded (5 clusters,
    [random_state=42]) and the dominant colours are its centres on the
    drawn sample, truncated; the sample is drawn from the global
    generator, which nothing seeds.  So two runs on one image agree
    whenever they draw the same sample. *)
Theorem colors_depend_only_on_sample
    {Rng CvImage PilImage : Type} (lib : libraries Rng CvImage PilImage)
    (image : PilImage) (pixels : list (Z * Z * Z)) (rng1 rng2 : Rng) :
  rgb_pixels lib image = Ok pixels ->
  (draw_sample lib pixels rng1).1 = (draw_sample lib pixels rng2).1 ->
  (_analyze_colors lib image rng1).1 = (_analyze_colors lib image rng2).1 /\
  (forall sample,
     (draw_sample lib pixels rng1).1 = Ok sample ->
     forall d, (colors_body lib image rng1).1 = Ok d ->
     cluster lib sample = Ok (dominant_colors d) /\
     cluster lib sample =
       (centers ← kmeans_centers lib 5 42 sample; Ok (map astype_int3 centers))).
Proof.
  intros Hpx Hsame.
  assert (Hbody : forall rng,
    colors_body lib image rng =
    match draw_sample lib pixels rng with
    | (Ok sample, rng') =>
        ((dominant ← cluster lib sample;
          mean ← stat_mean lib image;
          contrast ← gray_std lib image;
          bright ← gray_mean lib image;
          Ok {| dominant_colors := dominant; average_rgb := mean;
                contrast_level := contrast; brightness := bright;
                color_diversity :=
                  Z.of_nat (length (remove_dups (take 1000 sample))) |}), rng')
    | (Raise e, rng') => (Raise e, rng')
    end).
  { intros rng. unfold colors_body.
    rewrite io_bind_lift, Hpx, io_bind_run.
    destruct (draw_sample lib pixels rng) as [[sample|e] rng']; [|reflexivity].
    rewrite io_bind_lift.
    destruct (cluster lib sample); cbn [mbind result_bind]; [|reflexivity].
    rewrite io_bind_lift.
    destruct (stat_mean lib image); cbn [mbind result_bind]; [|reflexivity].
    rewrite io_bind_lift.
    destruct (gray_std lib image); cbn [mbind result_bind]; [|reflexivity].
    rewrite io_bind_lift.
    destruct (gray_mean lib image); reflexivity. }
  split.
  - rewrite !analyze_colors_cases, !Hbody.
    destruct (draw_sample lib pixels rng1) as [[s1|e1] r1],
             (draw_sample lib pixels rng2) as [[s2|e2] r2];
      cbn [fst] in Hsame; try discriminate; [|reflexivity].
    injection Hsame as ->.
    destruct (cluster lib s2 ≫= _); reflexivity.
  - intros sample Hsample d Hd. split; [|reflexivity].
    rewrite Hbody in Hd.
    destruct (draw_sample lib pixels rng1) as [[s1|e1] r1];
      cbn [fst] in Hsample, Hd; [|discriminate].
    injection Hsample as ->.
    destruct (cluster lib sample) as [dominant|]; [|discriminate].
    cbn [mbind result_bind fst] in Hd.
    destruct (stat_mean lib image); [|discriminate].
    cbn [mbind result_bind] in Hd.
    destruct (gray_std lib image); [|discriminate].
    cbn [mbind result_bind] in Hd.
    destruct (gray_mean lib image); [|discriminate].
    cbn [mbind result_bind] in Hd.
    injection Hd as <-. reflexivity.
Qed.

(** Generator states 0 and 8 draw the same eight indices. *)
Lemma colors_depend_only_on_sample_witness :
  (_analyze_colors (sample_libraries (Ok (PyList []))) eight_pixels 0%nat).1 =
  (_analyze_colors (sample_libraries (Ok (PyList []))) eight_pixels 8%nat).1.
Proof.
  apply (colors_depend_only_on_sample (sample_libraries (Ok (PyList [])))
           eight_pixels eight_pixels 0%nat 8%nat eq_refl).
  vm_compute. reflexivity.
Defined.

(** Claim C9 as stated fails: two runs on the same image with the
    generator in two states give two lists of dominant colours. *)
Lemma dominant_colors_vary_with_generator :
  let lib := sample_libraries (Ok (PyList [])) in
  (dominant_colors <$> (_analyze_colors lib eight_pixels 0%nat).1) =
    Ok [(255, 0, 0); (0, 255, 0); (0, 0, 255); (255, 255, 0); (0, 255, 255)] /\
  (dominant_colors <$> (_analyze_colors lib eight_pixels 3%nat).1) =
    Ok [(255, 255, 0); (0, 255, 255); (255, 0, 255); (0, 0, 0); (255, 255, 255)] /\
  ~ (forall (Rng CvImage PilImage : Type) (lib : libraries Rng CvImage PilImage)
       (image : PilImage) (rng1 rng2 : Rng),
       (dominant_colors <$> (_analyze_colors lib image rng1).1) =
       (dominant_colors <$> (_analyze_colors lib image rng2).1)).
Proof.
  cbn zeta. split; [vm_compute; reflexivity|]. split; [vm_compute; reflexivity|].
  intros Hdet.
  specialize (Hdet _ _ _ (sample_libraries (Ok (PyList []))) eight_pixels
                0%nat 3%nat).
  vm_compute in Hdet. discriminate Hdet.
Qed.

(** * Further properties

    What the code does beside the specification's sentences: edge cases
    of the scoring, the orchestrator's bookkeeping, the shape of the
    detected sections, and the collaborators the orchestrator calls
    (report category, spreadsheet row, upload). *)

Import Notions Typography Samples.

Ltac run_bind H :=
  match type of H with
  | (?m ≫= _) = Ok _ =>
      destruct m eqn:?; cbn [mbind result_bind] in H; [|discriminate H]
  end.

(** ** [website_evaluator.py] *)

(** *** [get_score_category] on a NaN *)

(** A NaN score is categorised as 100 is: [min(100, nan)] keeps its
    first argument, since no comparison with a NaN holds. *)
Theorem get_score_category_nan (config : scoring_config) :
  clamp S754_nan = PInt 100 /\
  get_score_category config (PyFloat S754_nan) =
  get_score_category config (PyInt 100).
Proof.
  split; [reflexivity|].
  rewrite get_score_category_hundred.
  apply (get_score_category_eq config (PyFloat S754_nan) S754_nan). reflexivity.
Qed.

(** *** [_calculate_final_score]: edge cases *)

Lemma score_loop_none analysis total weights :
  (forall category cd, (category, cd) ∈ weights -> analysis !! category = None) ->
  score_loop analysis total weights = Ok total.
Proof.
  induction weights as [|[c cd] rest IH]; intros Hnone; cbn; [reflexivity|].
  rewrite (Hnone c cd) by (apply elem_of_cons; left; reflexivity).
  apply IH. intros c' cd' Hin. apply (Hnone c' cd'). apply elem_of_cons. right. exact Hin.
Qed.

(** When the analysis holds none of the weighted categories (an empty
    analysis, or one under other names), the final score is 0.0 and
    nothing is raised. *)
Theorem final_score_without_common_category (config : scoring_config)
    (analysis : AnalysisResult) :
  (forall category cd,
     (category, cd) ∈ scoring_weights config -> analysis !! category = None) ->
  _calculate_final_score config analysis = Ok (S754_zero false).
Proof.
  intros Hnone. unfold _calculate_final_score.
  rewrite score_loop_none by exact Hnone. reflexivity.
Qed.

Lemma final_score_without_common_category_witness :
  _calculate_final_score test_config ∅ = Ok (S754_zero false).
Proof.
  apply (final_score_without_common_category test_config ∅).
  intros category cd _. apply lookup_empty.
Defined.

Lemma score_loop_non_numeric analysis weights category cd r :
  (category, cd) ∈ weights ->
  analysis !! category = Some r ->
  as_number (score r) = None ->
  forall total, is_ok (score_loop analysis total weights) = false.
Proof.
  intros Hin Hr Hscore.
  induction weights as [|[c0 cd0] rest IH]; intros total; [inversion Hin|].
  cbn [score_loop].
  apply elem_of_cons in Hin as [[= <- <-]|Hin].
  - rewrite Hr. unfold add_weighted. rewrite Hscore. reflexivity.
  - destruct (analysis !! c0) as [r0|]; [|apply IH, Hin].
    destruct (add_weighted total (score r0) (weight cd0)) as [t|e]; cbn;
      [apply IH, Hin|reflexivity].
Qed.

(** A weighted category whose score is no number ([None], a string, a
    list, a dictionary) makes [_calculate_final_score] raise: it never
    returns a score computed around such an entry. *)
Theorem final_score_rejects_non_numeric (config : scoring_config)
    (analysis : AnalysisResult) (category : string) (cd : category_weight)
    (r : category_result) :
  (category, cd) ∈ scoring_weights config ->
  analysis !! category = Some r ->
  as_number (score r) = None ->
  exists e, _calculate_final_score config analysis = Raise e.
Proof.
  intros Hin Hr Hscore. unfold _calculate_final_score.
  pose proof (score_loop_non_numeric analysis _ category cd r Hin Hr Hscore
                (S754_zero false)) as Hraise.
  destruct (score_loop analysis (S754_zero false) (scoring_weights config))
    as [t|e]; [discriminate Hraise|].
  exists e. reflexivity.
Qed.

Lemma final_score_rejects_non_numeric_witness :
  exists e,
    _calculate_final_score test_config
      (<["color" := {| score := PyStr "90"; analysis := PyStr "";
                       recommendations := PyList [];
                       technical_data := None |}]> test_analysis) = Raise e.
Proof.
  apply (final_score_rejects_non_numeric test_config _ "color"
           {| weight := PFloat (decimal 20 2) |}
           {| score := PyStr "90"; analysis := PyStr "";
              recommendations := PyList []; technical_data := None |}).
  - cbn. apply elem_of_cons. right. apply elem_of_cons. left. reflexivity.
  - vm_compute. reflexivity.
  - reflexivity.
Defined.

(** *** [evaluate_website] *)

(** What a returned evaluation holds: the URL asked for, the screenshot
    the capture gave, the final score of the very analysis it carries,
    and a report path; and when the cloud is switched off, no cloud
    URL. *)
Theorem evaluate_website_returns_consistent {World} (self : evaluator World)
    (u : string) (save_to_cloud save_to_sheets : bool) (w w' : World)
    (data : evaluation_data) :
  evaluate_website self u save_to_cloud save_to_sheets w = (Ok data, w') ->
  validate_url self u = true /\
  url data = u /\
  (exists w1, capture_website self u w = (Ok (screenshot_path data), w1)) /\
  _calculate_final_score (config self) (analysis_results data) =
    Ok (final_score data) /\
  is_Some (report_path data) /\
  (save_to_cloud = false -> cloud_url data = None).
Proof.
  unfold evaluate_website.
  destruct (validate_url self u); cbn [negb]; [|discriminate].
  unfold mbind, io_bind, io_read, io_lift, mret, io_ret.
  destruct (capture_website self u w) as [[path|e] w1] eqn:Hcap; [|discriminate].
  destruct (if save_to_cloud then upload_screenshot self path else _) as [[cloud|e] w2]
    eqn:Hup; [|discriminate].
  destruct (WebsiteEvaluator.analyze_design self path u w2) as [[results|e] w3]; [|discriminate].
  destruct (_calculate_final_score (config self) results) as [final|e] eqn:Hscore;
    [|discriminate].
  destruct (generate_report self _ w3) as [[report|e] w4]; [|discriminate].
  destruct (if save_to_sheets then log_evaluation self _ else _) as [[logged|e] w5];
    [|discriminate].
  intros [= <- <-]. cbn.
  repeat split; eauto.
  intros ->. injection Hup as <- _. reflexivity.
Qed.

(** With the cloud switched off the uploader is never used, and with
    the sheet switched off the spreadsheet is never used: the
    evaluation is the same, result and world, whatever stands in their
    place. *)
Theorem evaluate_website_ignores_disabled_services {World}
    (self : evaluator World) (u : string) (w : World) :
  (forall upload save_to_sheets,
     evaluate_website (with_services self upload (log_evaluation self))
       u false save_to_sheets w =
     evaluate_website self u false save_to_sheets w) /\
  (forall log save_to_cloud,
     evaluate_website (with_services self (upload_screenshot self) log)
       u save_to_cloud false w =
     evaluate_website self u save_to_cloud false w).
Proof. split; intros; reflexivity. Qed.

(** When the spreadsheet step cannot raise, logging to it does not
    change what [evaluate_website] returns or raises. *)
Theorem evaluate_website_sheet_is_harmless {World} (self : evaluator World)
    (u : string) (save_to_cloud : bool) (w : World) :
  (forall data w0, exists logged w1,
     log_evaluation self data w0 = (Ok logged, w1)) ->
  (evaluate_website self u save_to_cloud true w).1 =
  (evaluate_website self u save_to_cloud false w).1.
Proof.
  intros Hlog. unfold evaluate_website.
  destruct (validate_url self u); cbn [negb]; [|reflexivity].
  unfold mbind, io_bind, io_read, io_lift, mret, io_ret.
  destruct (capture_website self u w) as [[path|e] w1]; [|reflexivity].
  destruct (if save_to_cloud then upload_screenshot self path else _) as [[cloud|e] w2];
    [|reflexivity].
  destruct (WebsiteEvaluator.analyze_design self path u w2) as [[results|e] w3];
    [|reflexivity].
  destruct (_calculate_final_score (config self) results) as [final|e];
    [|reflexivity].
  destruct (generate_report self _ w3) as [[report|e] w4]; [|reflexivity].
  match goal with
  | |- context [log_evaluation self ?d w4] =>
      destruct (Hlog d w4) as (logged & w5 & ->)
  end.
  reflexivity.
Qed.

Lemma evaluate_website_sheet_is_harmless_witness :
  (evaluate_website sample_evaluator "https://a.example" false true 0%nat).1 =
  (evaluate_website sample_evaluator "https://a.example" false false 0%nat).1.
Proof.
  apply (evaluate_website_sheet_is_harmless sample_evaluator).
  intros data w0. exists false, (S w0). reflexivity.
Defined.

Lemma evaluate_website_returns_consistent_witness :
  match evaluate_website sample_evaluator "https://a.example" false false 0%nat with
  | (Ok data, _) =>
      url data = "https://a.example" /\ cloud_url data = None /\
      is_Some (report_path data)
  | (Raise _, _) => False
  end.
Proof.
  destruct (evaluate_website sample_evaluator "https://a.example" false false 0%nat)
    as [[data|e] w'] eqn:Hrun.
  - destruct (evaluate_website_returns_consistent sample_evaluator
                "https://a.example" false false 0%nat w' data Hrun)
      as (_ & Hurl & _ & _ & Hreport & Hcloud).
    split; [exact Hurl|]. split; [apply Hcloud; reflexivity|exact Hreport].
  - vm_compute in Hrun. discriminate Hrun.
Defined.

(** The scores of the analysis are not checked before they are
    weighted: when the analyser returns a weighted category whose score
    is no number (a vision model answering ["85"] for 85), the
    evaluation raises once the screenshot is taken, uploaded and
    analysed, and no report is written: the world is the one the
    analysis left. *)
Theorem evaluate_website_fails_on_non_numeric_score {World}
    (self : evaluator World) (u : string) (save_to_cloud save_to_sheets : bool)
    (w w1 w2 w3 : World) (path : string) (cloud : option string)
    (results : AnalysisResult) (category : string) (cd : category_weight)
    (r : category_result) :
  validate_url self u = true ->
  capture_website self u w = (Ok path, w1) ->
  (if save_to_cloud then upload_screenshot self path else mret None) w1 =
    (Ok cloud, w2) ->
  WebsiteEvaluator.analyze_design self path u w2 = (Ok results, w3) ->
  (category, cd) ∈ scoring_weights (config self) ->
  results !! category = Some r ->
  as_number (score r) = None ->
  exists e,
    evaluate_website self u save_to_cloud save_to_sheets w = (Raise e, w3).
Proof.
  intros Hvalid Hcap Hup Hrun Hin Hr Hscore.
  pose proof (score_loop_non_numeric results _ category cd r Hin Hr Hscore
                (S754_zero false)) as Hraise.
  unfold evaluate_website. rewrite Hvalid. cbn [negb].
  unfold mbind at 1, io_bind, io_read. unfold mbind at 1. rewrite Hcap.
  unfold mbind at 1. rewrite Hup. unfold mbind at 1. rewrite Hrun.
  unfold mbind at 1, io_lift, _calculate_final_score.
  destruct (score_loop results (S754_zero false) (scoring_weights (config self)))
    as [t|e]; [discriminate Hraise|].
  exists e. reflexivity.
Qed.

Lemma evaluate_website_fails_on_non_numeric_score_witness :
  exists e,
    evaluate_website string_score_evaluator "https://a.example" false false
      0%nat = (Raise e, 2%nat).
Proof.
  apply (evaluate_website_fails_on_non_numeric_score string_score_evaluator
           "https://a.example" false false 0%nat 1%nat 1%nat 2%nat
           "screenshots/0.png" None string_score_analysis "color"
           {| weight := PFloat (decimal 20 2) |}
           {| score := PyStr "90"; analysis := PyStr "";
              recommendations := PyList []; technical_data := None |});
    try reflexivity.
  cbn. apply elem_of_cons. right. apply elem_of_cons. left. reflexivity.
Defined.

(** *** [batch_evaluate] *)

Lemma slots_app {World} (self : evaluator World) c s (us vs : list string) :
  forall w,
    slots self c s (us ++ vs)%list w =
    (slots self c s us w ++
     slots self c s vs (foldl (world_after self c s) w us))%list.
Proof.
  induction us as [|u us IH]; intros w; cbn; [reflexivity|].
  rewrite IH. reflexivity.
Qed.

(** A batch over two lists put end to end is the batch over the first,
    then the batch over the second in the world the first one left: the
    results are the two result lists put end to end. *)
Theorem batch_evaluate_app {World} (self : evaluator World)
    (us vs : list string) (save_to_cloud save_to_sheets : bool) (w : World) :
  batch_evaluate self (us ++ vs)%list save_to_cloud save_to_sheets w =
  let '(first, w1) := batch_evaluate self us save_to_cloud save_to_sheets w in
  let '(second, w2) := batch_evaluate self vs save_to_cloud save_to_sheets w1 in
  ((first ++ second)%list, w2).
Proof.
  unfold batch_evaluate. rewrite !batch_loop_slots. cbn [app].
  rewrite slots_app, foldl_app. reflexivity.
Qed.

(** A URL that [validate_url] rejects costs the batch nothing: its slot
    is the error record with the message of the [ValueError] and the
    time of the world as it stood, no collaborator is called, and the
    next URL is evaluated in that same world. *)
Theorem batch_evaluate_invalid_url {World} (self : evaluator World)
    (u : string) (rest : list string) (save_to_cloud save_to_sheets : bool)
    (w : World) :
  validate_url self u = false ->
  batch_evaluate self (u :: rest) save_to_cloud save_to_sheets w =
  let '(results, w') :=
    batch_evaluate self rest save_to_cloud save_to_sheets w in
  (ErrorRecord u ("URL inválida: " ++ u) (datetime_now_isoformat self w)
     :: results, w').
Proof.
  intros Hvalid. unfold batch_evaluate. rewrite !batch_loop_slots. cbn.
  unfold slot, world_after.
  rewrite (evaluate_website_invalid_url self save_to_cloud save_to_sheets u w Hvalid).
  reflexivity.
Qed.

Lemma batch_evaluate_invalid_url_witness :
  (batch_evaluate sample_evaluator ["a.example"] false false 0%nat).1 =
  [ErrorRecord "a.example" "URL inválida: a.example" "2024-01-01T12:00:0"].
Proof.
  rewrite (batch_evaluate_invalid_url sample_evaluator "a.example" [] false false
             0%nat eq_refl).
  reflexivity.
Defined.

(** ** [design_analyzer.py] *)

(** *** [_find_sections]: the shape of the result *)

Lemma apart_snoc lo sections s e :
  apart lo sections ->
  (lo <= s < e)%nat ->
  (forall s' e', (s', e') ∈ sections -> (e' < s)%nat) ->
  apart lo (sections ++ [(s, e)]).
Proof.
  revert lo. induction sections as [|[s0 e0] rest IH]; intros lo Hap Hse Hbefore; cbn.
  - split; [exact Hse|exact I].
  - destruct Hap as [H0 Hrest]. split; [exact H0|].
    apply IH; [exact Hrest| |].
    + assert ((s0, e0) ∈ (s0, e0) :: rest) as Hin by (apply elem_of_cons; left; reflexivity).
      apply Hbefore in Hin. lia.
    + intros s' e' Hin. apply (Hbefore s' e'). apply elem_of_cons. right. exact Hin.
Qed.

Lemma apart_weaken lo lo' sections :
  (lo' <= lo)%nat -> apart lo sections -> apart lo' sections.
Proof. destruct sections as [|[s e] rest]; cbn; [auto|]. intros ? [? ?]. split; [lia|assumption]. Qed.

Lemma apart_elem lo sections s e :
  apart lo sections -> (s, e) ∈ sections -> (lo <= s < e)%nat.
Proof.
  revert lo. induction sections as [|[s0 e0] rest IH]; intros lo Hap Hin.
  - inversion Hin.
  - destruct Hap as [H0 Hrest]. apply elem_of_cons in Hin as [[= -> ->]|Hin]; [exact H0|].
    specialize (IH _ Hrest Hin). lia.
Qed.

Lemma apart_lookup lo sections i j s1 e1 s2 e2 :
  apart lo sections -> (i < j)%nat ->
  sections !! i = Some (s1, e1) -> sections !! j = Some (s2, e2) ->
  (e1 < s2)%nat.
Proof.
  revert lo i j. induction sections as [|[s0 e0] rest IH]; intros lo i j Hap Hij Hi Hj.
  - discriminate.
  - destruct Hap as [H0 Hrest]. destruct j as [|j]; [lia|]. cbn in Hj.
    destruct i as [|i]; cbn in Hi.
    + injection Hi as -> ->.
      apply list_elem_of_lookup_2 in Hj.
      pose proof (apart_elem _ _ _ _ Hrest Hj). lia.
    + eapply IH; [exact Hrest| |exact Hi|exact Hj]. lia.
Qed.

(** A chain of sections between [lo] and [hi] has at most
    [(hi - lo + 1) / 2] links. *)
Lemma apart_length lo hi sections :
  apart lo sections ->
  (forall s e, (s, e) ∈ sections -> (e <= hi)%nat) ->
  sections = [] \/ (lo + 2 * length sections <= hi + 1)%nat.
Proof.
  revert lo. induction sections as [|[s0 e0] rest IH]; intros lo Hap Hhi; [left; reflexivity|].
  right. destruct Hap as [H0 Hrest].
  destruct (IH (S e0) Hrest) as [->|Hlen].
  - intros s e Hin. apply (Hhi s e). apply elem_of_cons. right. exact Hin.
  - assert ((s0, e0) ∈ [(s0, e0)]) as Hin by (apply elem_of_cons; left; reflexivity).
    apply Hhi in Hin. cbn. lia.
  - assert ((s0, e0) ∈ (s0, e0) :: rest) as Hin by (apply elem_of_cons; left; reflexivity).
    apply Hhi in Hin. cbn [length]. lia.
Qed.

(** The state of the loop of [_find_sections] once [profile] is read. *)
Record scan_invariant (threshold : pynum) (profile : list pynum)
    (st : section_scan) : Prop := {
  inv_apart : apart 0 (sections st);
  inv_closed : forall s e, (s, e) ∈ sections st -> (e < length profile)%nat;
  inv_open : in_section st = true ->
    (section_start st < length profile)%nat /\
    forall s e, (s, e) ∈ sections st -> (e < section_start st)%nat;
  inv_below : forall i value,
    profile !! i = Some value -> py_lt value threshold = true ->
    covered (sections st) i \/
    (in_section st = true /\ (section_start st <= i)%nat);
  inv_above : forall i value,
    profile !! i = Some value -> py_le threshold value = true ->
    ~ covered (sections st) i /\
    (in_section st = true -> (i < section_start st)%nat)
}.

Lemma covered_snoc sections s e i :
  covered (sections ++ [(s, e)]) i <->
  covered sections i \/ (s <= i < e)%nat.
Proof.
  unfold covered. split.
  - intros (s' & e' & Hin & Hi). apply elem_of_app in Hin as [Hin|Hin].
    + left. eauto.
    + apply list_elem_of_singleton in Hin as [= -> ->]. right. exact Hi.
  - intros [(s' & e' & Hin & Hi)|Hi].
    + exists s', e'. split; [apply elem_of_app; left; exact Hin|exact Hi].
    + exists s, e. split; [apply elem_of_app; right; apply list_elem_of_singleton; reflexivity|exact Hi].
Qed.

Lemma scan_invariant_step threshold profile st value :
  scan_invariant threshold profile st ->
  scan_invariant threshold (profile ++ [value])
    (section_step threshold st (length profile) value).
Proof.
  intros [Hap Hcl Hop Hbe Hab].
  assert (Hlook : forall i v, ((profile ++ [value])%list : list pynum) !! i = Some v ->
            (profile !! i = Some v /\ (i < length profile)%nat) \/
            (i = length profile /\ v = value)).
  { intros i v Hi. apply lookup_app_Some in Hi as [Hi|[Hge Hi]].
    - left. split; [exact Hi|]. eapply lookup_lt_Some, Hi.
    - right. apply list_lookup_singleton_Some in Hi as [Hi ->]. split; [lia|reflexivity]. }
  assert (Hnotcov : ~ covered (sections st) (length profile)).
  { intros (s & e & Hin & Hi). specialize (Hcl s e Hin). lia. }
  unfold section_step.
  destruct (py_lt value threshold) eqn:Hlt;
    destruct (in_section st) eqn:Hin; cbn [andb negb].
  - (* below the threshold, inside a section: nothing changes *)
    rewrite (py_lt_not_ge _ _ Hlt). cbn [andb].
    destruct (Hop eq_refl) as [Hstart Hends].
    split; rewrite ?length_app, ?Hin; cbn [length].
    + exact Hap.
    + intros s e Hse. specialize (Hcl s e Hse). lia.
    + intros _. split; [lia|exact Hends].
    + intros i v Hi Hv. destruct (Hlook i v Hi) as [[Hi' _]|[-> ->]].
      * destruct (Hbe i v Hi' Hv) as [?|[_ ?]]; [left; assumption|right; split; [reflexivity|assumption]].
      * right. split; [reflexivity|lia].
    + intros i v Hi Hv. destruct (Hlook i v Hi) as [[Hi' _]|[-> ->]].
      * apply (Hab i v Hi' Hv).
      * rewrite (py_lt_not_ge _ _ Hlt) in Hv. discriminate.
  - (* below the threshold, outside: a section opens here *)
    split; cbn [sections in_section section_start]; rewrite ?length_app; cbn [length].
    + exact Hap.
    + intros s e Hse. specialize (Hcl s e Hse). lia.
    + intros _. split; [lia|exact Hcl].
    + intros i v Hi Hv. destruct (Hlook i v Hi) as [[Hi' _]|[-> ->]].
      * destruct (Hbe i v Hi' Hv) as [?|[? _]]; [left; assumption|congruence].
      * right. split; [reflexivity|lia].
    + intros i v Hi Hv. destruct (Hlook i v Hi) as [[Hi' Hlen]|[-> ->]].
      * split; [apply (Hab i v Hi' Hv)|intros _; exact Hlen].
      * rewrite (py_lt_not_ge _ _ Hlt) in Hv. discriminate.
  - (* not below, inside *)
    destruct (Hop eq_refl) as [Hstart Hends].
    destruct (py_le threshold value) eqn:Hge; cbn [andb].
    + (* at or above the threshold: the section closes here *)
      split; cbn [sections in_section section_start]; rewrite ?length_app; cbn [length].
      * apply apart_snoc; [exact Hap|lia|exact Hends].
      * intros s e Hse. apply elem_of_app in Hse as [Hse|Hse].
        -- specialize (Hcl s e Hse). lia.
        -- apply list_elem_of_singleton in Hse as [= -> ->]. lia.
      * discriminate.
      * intros i v Hi Hv. left. apply covered_snoc.
        destruct (Hlook i v Hi) as [[Hi' Hlen]|[-> ->]].
        -- destruct (Hbe i v Hi' Hv) as [?|[_ ?]]; [left; assumption|right; lia].
        -- congruence.
      * intros i v Hi Hv. split; [|discriminate].
        rewrite covered_snoc. intros [Hc|Hc].
        -- destruct (Hlook i v Hi) as [[Hi' _]|[-> ->]].
           ++ apply (Hab i v Hi' Hv). exact Hc.
           ++ apply Hnotcov, Hc.
        -- destruct (Hlook i v Hi) as [[Hi' _]|[-> ->]].
           ++ destruct (Hab i v Hi' Hv) as [_ Hb]. specialize (Hb eq_refl). lia.
           ++ lia.
    + (* neither: a NaN *)
      split; rewrite ?length_app, ?Hin; cbn [length].
      * exact Hap.
      * intros s e Hse. specialize (Hcl s e Hse). lia.
      * intros _. split; [lia|exact Hends].
      * intros i v Hi Hv. destruct (Hlook i v Hi) as [[Hi' _]|[-> ->]].
        -- destruct (Hbe i v Hi' Hv) as [?|[_ ?]]; [left; assumption|right; split; [reflexivity|assumption]].
        -- congruence.
      * intros i v Hi Hv. destruct (Hlook i v Hi) as [[Hi' _]|[-> ->]].
        -- apply (Hab i v Hi' Hv).
        -- congruence.
  - (* not below, outside: nothing changes *)
    rewrite andb_false_r.
    split; rewrite ?length_app, ?Hin; cbn [length].
    + exact Hap.
    + intros s e Hse. specialize (Hcl s e Hse). lia.
    + congruence.
    + intros i v Hi Hv. destruct (Hlook i v Hi) as [[Hi' _]|[-> ->]].
      * destruct (Hbe i v Hi' Hv) as [?|[? _]]; [left; assumption|congruence].
      * congruence.
    + intros i v Hi Hv. split; [|congruence].
      destruct (Hlook i v Hi) as [[Hi' _]|[-> ->]].
      * apply (Hab i v Hi' Hv).
      * exact Hnotcov.
Qed.

Lemma scan_invariant_holds threshold profile :
  scan_invariant threshold profile (section_scan_of profile threshold).
Proof.
  induction profile as [|value profile IH] using rev_ind.
  - split; cbn; try discriminate; [exact I|].
    intros s e Hin. inversion Hin.
  - unfold section_scan_of in *. rewrite section_loop_snoc. cbn [Nat.add].
    apply scan_invariant_step, IH.
Qed.

(** What [_find_sections] returns, from the state of the loop. *)
Lemma find_sections_cases profile threshold :
  let st := section_scan_of profile threshold in
  (in_section st = false /\ _find_sections profile threshold = sections st) \/
  (in_section st = true /\
   _find_sections profile threshold =
   (sections st ++ [(section_start st, length profile)])%list).
Proof.
  cbn. unfold _find_sections.
  destruct (in_section (section_scan_of profile threshold)); [right|left]; auto.
Qed.

Lemma find_sections_apart profile threshold :
  apart 0 (_find_sections profile threshold) /\
  forall s e, (s, e) ∈ _find_sections profile threshold -> (e <= length profile)%nat.
Proof.
  pose proof (scan_invariant_holds threshold profile) as [Hap Hcl Hop _ _].
  destruct (find_sections_cases profile threshold) as [[Hin ->]|[Hin ->]].
  - split; [exact Hap|]. intros s e Hse. specialize (Hcl s e Hse). lia.
  - destruct (Hop Hin) as [Hstart Hends]. split.
    + apply apart_snoc; [exact Hap|lia|exact Hends].
    + intros s e Hse. apply elem_of_app in Hse as [Hse|Hse].
      * specialize (Hcl s e Hse). lia.
      * apply list_elem_of_singleton in Hse as [= -> ->]. lia.
Qed.

Lemma find_sections_count profile threshold :
  (2 * length (_find_sections profile threshold) <= length profile + 1)%nat.
Proof.
  destruct (find_sections_apart profile threshold) as [Hap Hhi].
  destruct (apart_length 0 (length profile) _ Hap Hhi) as [->|Hlen]; cbn in *; lia.
Qed.

(** The sections [_find_sections] returns are non-empty ranges of rows
    of the profile, in increasing order and apart: each starts after the
    row that closed the one before; so there are at most
    [(len + 1) / 2] of them. *)
Theorem find_sections_well_formed (profile : list pynum) (threshold : pynum) :
  let sections := _find_sections profile threshold in
  (forall s e, (s, e) ∈ sections -> (s < e <= length profile)%nat) /\
  (forall i j s1 e1 s2 e2,
     (i < j)%nat ->
     sections !! i = Some (s1, e1) -> sections !! j = Some (s2, e2) ->
     (e1 < s2)%nat) /\
  (2 * length sections <= length profile + 1)%nat.
Proof.
  cbn. destruct (find_sections_apart profile threshold) as [Hap Hhi].
  split; [|split].
  - intros s e Hse. pose proof (apart_elem _ _ _ _ Hap Hse). specialize (Hhi s e Hse). lia.
  - intros i j s1 e1 s2 e2. apply apart_lookup with (lo := 0%nat). exact Hap.
  - apply find_sections_count.
Qed.

(** Which rows the sections hold: every row whose value is below the
    threshold lies in a section, and no row whose value is at or above
    it does (a NaN row is neither, and stays on the side of the row
    before it). *)
Theorem find_sections_cover_content (profile : list pynum) (threshold : pynum)
    (i : nat) (value : pynum) :
  profile !! i = Some value ->
  (py_lt value threshold = true ->
   covered (_find_sections profile threshold) i) /\
  (py_le threshold value = true ->
   ~ covered (_find_sections profile threshold) i).
Proof.
  intros Hi.
  pose proof (scan_invariant_holds threshold profile) as [Hap Hcl Hop Hbe Hab].
  pose proof (lookup_lt_Some _ _ _ Hi) as Hlen.
  destruct (find_sections_cases profile threshold) as [[Hin ->]|[Hin ->]].
  - split.
    + intros Hv. destruct (Hbe i value Hi Hv) as [?|[? _]]; [assumption|congruence].
    + intros Hv. apply (Hab i value Hi Hv).
  - split.
    + intros Hv. apply covered_snoc.
      destruct (Hbe i value Hi Hv) as [?|[_ ?]]; [left; assumption|right; lia].
    + intros Hv. rewrite covered_snoc. destruct (Hab i value Hi Hv) as [Hnc Hb].
      intros [Hc|Hc]; [exact (Hnc Hc)|]. specialize (Hb Hin). lia.
Qed.

(** Rows 1 and 3 of the test profile. *)
Lemma find_sections_cover_content_witness :
  covered (_find_sections test_profile (PInt 10)) 1 /\
  ~ covered (_find_sections test_profile (PInt 10)) 3.
Proof.
  split.
  - apply (find_sections_cover_content test_profile (PInt 10) 1 (PInt 5) eq_refl).
    reflexivity.
  - apply (find_sections_cover_content test_profile (PInt 10) 3 (PInt 50) eq_refl).
    reflexivity.
Defined.

(** *** [_find_sections] on a uniform profile *)

Lemma section_loop_idle threshold (profile : list pynum) : forall st i,
  in_section st = false ->
  Forall (fun value => py_lt value threshold = false) profile ->
  section_loop threshold st i profile = st.
Proof.
  induction profile as [|value rest IH]; intros st i Hout Hall; [reflexivity|].
  apply Forall_cons in Hall as [Hvalue Hrest]. cbn [section_loop].
  unfold section_step. rewrite Hvalue, Hout, andb_false_r. cbn [andb].
  apply IH; assumption.
Qed.

Lemma section_loop_stays_open threshold (profile : list pynum) : forall st i,
  in_section st = true ->
  Forall (fun value => py_lt value threshold = true) profile ->
  section_loop threshold st i profile = st.
Proof.
  induction profile as [|value rest IH]; intros st i Hin Hall; [reflexivity|].
  apply Forall_cons in Hall as [Hvalue Hrest]. cbn [section_loop].
  unfold section_step. rewrite Hvalue, Hin, (py_lt_not_ge _ _ Hvalue).
  cbn [andb negb]. apply IH; assumption.
Qed.

(** A profile with no row below the threshold (a page on a light
    background, the threshold being 10 of 255) has no section at all,
    and a non-empty profile with every row below it is one section, from
    row 0 to the length of the profile. *)
Theorem find_sections_uniform (profile : list pynum) (threshold : pynum) :
  (Forall (fun value => py_lt value threshold = false) profile ->
   _find_sections profile threshold = []) /\
  (profile <> [] ->
   Forall (fun value => py_lt value threshold = true) profile ->
   _find_sections profile threshold = [(0%nat, length profile)]).
Proof.
  split.
  - intros Hall. unfold _find_sections, section_scan_of.
    rewrite section_loop_idle by (reflexivity || exact Hall). reflexivity.
  - intros Hne Hall. destruct profile as [|value rest]; [contradiction|].
    apply Forall_cons in Hall as [Hvalue Hrest].
    unfold _find_sections, section_scan_of. cbn [section_loop].
    replace (section_step threshold _ 0 value)
      with {| sections := []; in_section := true; section_start := 0 |}
      by (unfold section_step; cbn [in_section negb]; rewrite Hvalue; reflexivity).
    rewrite section_loop_stays_open by (reflexivity || exact Hrest).
    reflexivity.
Qed.

(** *** [_analyze_layout] on the path that returns *)

(** When the [try] of [_analyze_layout] returns, the image has pixels,
    the dimensions are reported as (width, height), the line count is
    not negative, and the sections are at most [(height + 1) / 2]. *)
Theorem layout_shape
    {Rng CvImage PilImage : Type} (lib : libraries Rng CvImage PilImage)
    (image : option CvImage) (d : layout_descriptor) :
  layout_body lib image = Ok d ->
  exists gray,
    cvtColor lib image = Ok gray /\
    gray <> [] /\ gray_width gray <> 0%nat /\
    image_dimensions d =
      (Z.of_nat (gray_width gray), Z.of_nat (length gray)) /\
    0 <= line_count d /\
    0 <= 2 * sections_detected d <= Z.of_nat (length gray) + 1.
Proof.
  intros Hbody. unfold layout_body in Hbody.
  destruct (cvtColor lib image) as [gray|]; [|discriminate].
  cbn [mbind result_bind] in Hbody.
  destruct (hough_lines lib gray) as [lines|]; [|discriminate].
  cbn [mbind result_bind] in Hbody.
  destruct (int_truediv _ _) as [density|] eqn:Hdiv; [|discriminate].
  cbn [mbind result_bind] in Hbody.
  destruct (int_sub_float 1 density) as [whitespace|]; [|discriminate].
  cbn [mbind result_bind] in Hbody. injection Hbody as <-.
  exists gray. split; [reflexivity|].
  unfold int_truediv in Hdiv.
  destruct (Z.eqb_spec (Z.of_nat (length gray) * Z.of_nat (gray_width gray)) 0)
    as [|Hpixels]; [discriminate|].
  split; [intros ->; cbn in Hpixels; lia|].
  split; [intros Hw; rewrite Hw in Hpixels; lia|].
  cbn [image_dimensions line_count sections_detected].
  split; [reflexivity|]. split; [destruct lines; lia|].
  match goal with
  | |- context [_find_sections ?p ?t] =>
      pose proof (find_sections_count p t) as Hcount;
      rewrite length_map in Hcount
  end.
  lia.
Qed.

Lemma layout_shape_witness :
  exists d gray,
    layout_body (sample_libraries (Ok (PyDict []))) (Some gray_rows) = Ok d /\
    cvtColor (sample_libraries (Ok (PyDict []))) (Some gray_rows) = Ok gray /\
    image_dimensions d = (Z.of_nat (gray_width gray), Z.of_nat (length gray)).
Proof.
  destruct (layout_body (sample_libraries (Ok (PyDict []))) (Some gray_rows))
    as [d|e] eqn:Hbody; [|vm_compute in Hbody; discriminate Hbody].
  destruct (layout_shape (sample_libraries (Ok (PyDict []))) (Some gray_rows)
              d Hbody) as (gray & Hgray & _ & _ & Hdims & _).
  exists d, gray. split; [reflexivity|]. split; [exact Hgray|exact Hdims].
Defined.

(** *** [_analyze_colors]: the diversity count *)

Lemma length_remove_dups `{EqDecision A} (l : list A) :
  (length (remove_dups l) <= length l)%nat.
Proof.
  induction l as [|x l IH]; cbn; [lia|].
  destruct (decide_rel elem_of x l); cbn; lia.
Qed.

(** Whatever the libraries do, the colour diversity [_analyze_colors]
    reports lies between 0 and 1000: it counts the distinct pixels among
    the first 1000 of the sample, and is 100 on the failure path. *)
Theorem color_diversity_bounded
    {Rng CvImage PilImage : Type} (lib : libraries Rng CvImage PilImage)
    (image : PilImage) (rng : Rng) :
  exists d rng',
    _analyze_colors lib image rng = (Ok d, rng') /\
    0 <= color_diversity d <= 1000.
Proof.
  rewrite analyze_colors_cases.
  destruct (colors_body lib image rng) as [[d|e] rng'] eqn:Hbody.
  - exists d, rng'. split; [reflexivity|].
    unfold colors_body in Hbody. rewrite io_bind_lift in Hbody.
    destruct (rgb_pixels lib image) as [pixels|]; [|discriminate].
    rewrite io_bind_run in Hbody.
    destruct (draw_sample lib pixels rng) as [[sample|] rng1]; [|discriminate].
    rewrite io_bind_lift in Hbody.
    destruct (cluster lib sample) as [colors|]; [|discriminate].
    rewrite io_bind_lift in Hbody.
    destruct (stat_mean lib image) as [mean|]; [|discriminate].
    rewrite io_bind_lift in Hbody.
    destruct (gray_std lib image) as [contrast|]; [|discriminate].
    rewrite io_bind_lift in Hbody.
    destruct (gray_mean lib image) as [bright|]; [|discriminate].
    injection Hbody as <- _. cbn [color_diversity].
    pose proof (length_remove_dups (take 1000 sample)).
    pose proof (firstn_le_length 1000 sample). lia.
  - exists color_defaults, rng'. split; [reflexivity|]. cbn. lia.
Qed.

(** *** [analyze_design] on a reply that is a JSON object *)

Lemma category_entry_dict items name technical :
  category_entry (PyDict items) name technical =
  Ok {| score := default (PyInt 70) (dict_lookup (name ++ "_score") items);
        analysis := default (PyStr "") (dict_lookup (name ++ "_analysis") items);
        recommendations :=
          default (PyList []) (dict_lookup (name ++ "_recommendations") items);
        technical_data := technical |}.
Proof. reflexivity. Qed.

(** When the image opens and the reply of the vision model parses to an
    object, [analyze_design] returns exactly the five categories; each
    carries the reply's own values, whatever they are, and for a key
    the reply lacks the defaults: score 70, the empty narrative, no
    recommendation.  Only typography, colour and layout carry technical
    data. *)
Theorem analyze_design_object_reply
    {Rng CvImage PilImage : Type} (lib : libraries Rng CvImage PilImage)
    (path url : string) (rng : Rng) (pil_image : PilImage)
    (items : list (string * pyval)) :
  Image_open lib path = Ok pil_image ->
  openai_json lib path = Ok (PyDict items) ->
  exists results rng',
    analyze_design lib path url rng = (Ok results, rng') /\
    dom results = list_to_set categories /\
    forall name, name ∈ categories ->
      exists r,
        results !! name = Some r /\
        score r = default (PyInt 70) (dict_lookup (name ++ "_score") items) /\
        analysis r =
          default (PyStr "") (dict_lookup (name ++ "_analysis") items) /\
        recommendations r =
          default (PyList []) (dict_lookup (name ++ "_recommendations") items) /\
        (is_Some (technical_data r) <->
         name ∈ ["typography"; "color"; "layout"]).
Proof.
  intros Hopen Hreply.
  destruct (analyze_design_open lib path url rng pil_image Hopen)
    as (ai & color & layout & typography & rng' & Hai & _ & _ & _ & ->).
  rewrite openai_never_raises, Hreply in Hai. cbn in Hai.
  injection Hai as <-.
  unfold combine. rewrite !category_entry_dict. cbn [mbind result_bind].
  eexists _, rng'. split; [reflexivity|]. split.
  - rewrite !dom_insert_L, dom_empty_L. cbn. set_solver.
  - intros name Hname. unfold categories in Hname.
    repeat (apply elem_of_cons in Hname as [->|Hname]);
      [eexists; split; [reflexivity|];
       cbn [score analysis recommendations technical_data];
       do 3 (split; [reflexivity|]); split..|inversion Hname].
    all: first
      [ intros [t Ht]; discriminate Ht
      | intros _; eexists; reflexivity
      | solve [intros _;
               repeat first [apply elem_of_cons; left; reflexivity
                            |apply elem_of_cons; right]]
      | intros Hin;
        repeat (apply elem_of_cons in Hin as [Hin|Hin]; [discriminate Hin|]);
        inversion Hin ].
Qed.

(** The empty object: every category gets the defaults. *)
Lemma analyze_design_object_reply_witness :
  exists results rng',
    analyze_design (sample_libraries (Ok (PyDict []))) "page.png"
      "https://a.example" 0%nat = (Ok results, rng') /\
    forall name, name ∈ categories ->
      exists r, results !! name = Some r /\ score r = PyInt 70.
Proof.
  destruct (analyze_design_object_reply (sample_libraries (Ok (PyDict [])))
              "page.png" "https://a.example" 0%nat _ [] eq_refl eq_refl)
    as (results & rng' & Hrun & _ & Hall).
  exists results, rng'. split; [exact Hrun|].
  intros name Hname. destruct (Hall name Hname) as (r & Hr & Hscore & _).
  exists r. split; [exact Hr|exact Hscore].
Defined.

(** *** [analyze_design] on a screenshot that cannot be read *)

Lemma combine_layout items typography color layout results :
  combine (PyDict items) typography color layout = Ok results ->
  exists r, results !! "layout" = Some r /\ technical_data r = Some layout.
Proof.
  unfold combine. rewrite !category_entry_dict. cbn [mbind result_bind].
  intros [= <-]. eexists. split; reflexivity.
Qed.

(** The two readers of the screenshot fail differently: when Pillow
    cannot open the file, [analyze_design] raises at once, before the
    vision model is asked; when only OpenCV cannot decode it,
    [analyze_design] still returns, and its layout entry carries the
    defaults of the failure path. *)
Theorem analyze_design_unreadable_screenshot
    {Rng CvImage PilImage : Type} (lib : libraries Rng CvImage PilImage)
    (path url : string) (rng : Rng) :
  (forall e,
     Image_open lib path = Raise e ->
     analyze_design lib path url rng = (Raise e, rng)) /\
  (forall pil_image,
     Image_open lib path = Ok pil_image ->
     cv2_imread lib path = None ->
     (forall reply, openai_json lib path = Ok reply ->
                    exists items, reply = PyDict items) ->
     exists results rng' r,
       analyze_design lib path url rng = (Ok results, rng') /\
       results !! "layout" = Some r /\
       technical_data r = Some (Layout layout_defaults)).
Proof.
  split.
  - intros e Hopen. unfold analyze_design. rewrite io_bind_lift, Hopen.
    reflexivity.
  - intros pil_image Hopen Hread Hreply.
    destruct (analyze_design_open lib path url rng pil_image Hopen)
      as (ai & color & layout & typography & rng' & Hai & _ & Hlayout & _ & ->).
    rewrite Hread in Hlayout. cbn in Hlayout. injection Hlayout as <-.
    rewrite openai_never_raises in Hai. cbn in Hai. injection Hai as <-.
    assert (Hdict : exists items,
              match openai_json lib path with
              | Ok v => v
              | Raise _ => openai_fallback
              end = PyDict items).
    { destruct (openai_json lib path) as [reply|e]; [eauto|].
      eexists. reflexivity. }
    destruct Hdict as [items ->].
    destruct (combine (PyDict items) _ _ _) as [results|e] eqn:Hcombine.
    + destruct (combine_layout _ _ _ _ _ Hcombine) as (r & Hr & Htech).
      exists results, rng', r. split; [reflexivity|]. split; assumption.
    + unfold combine in Hcombine. rewrite !category_entry_dict in Hcombine.
      discriminate Hcombine.
Qed.

(** A file Pillow opens and OpenCV does not. *)
Lemma analyze_design_unreadable_screenshot_witness :
  exists results rng' r,
    analyze_design (sample_libraries (Ok (PyDict []))) "unreadable.gif"
      "https://a.example" 0%nat = (Ok results, rng') /\
    results !! "layout" = Some r /\
    technical_data r = Some (Layout layout_defaults).
Proof.
  apply (analyze_design_unreadable_screenshot
           (sample_libraries (Ok (PyDict []))) "unreadable.gif"
           "https://a.example" 0%nat) with (pil_image := eight_pixels).
  - reflexivity.
  - reflexivity.
  - intros reply [= <-]. eexists. reflexivity.
Defined.

(** *** [_analyze_typography] *)

(** Whatever OpenCV and NumPy return, the readability the typography
    step reports never exceeds 100, on the path that returns from the
    [try] as on the failure path. *)
Theorem typography_readability_capped
    {Rng CvImage PilImage Contour : Type} (lib : libraries Rng CvImage PilImage)
    (tools : contour_tools Contour) (image : option CvImage) :
  exists d,
    _analyze_typography (with_typography lib tools) image = Ok d /\
    py_le (estimated_readability d) (PInt 100) = true.
Proof.
  unfold _analyze_typography. rewrite try_except_ok.
  eexists. split; [reflexivity|].
  cbn [typography_body with_typography].
  destruct (typography_try lib tools image) as [d|e] eqn:Hbody; [|reflexivity].
  unfold typography_try in Hbody.
  repeat run_bind Hbody.
  match type of Hbody with
  | (match ?p with _ => _ end) = _ => destruct p as [[avg consistency] coverage]
  end.
  injection Hbody as <-. cbn [estimated_readability].
  unfold py_min.
  destruct (py_lt _ (PInt 100)) eqn:Hlt; [apply py_lt_le, Hlt|reflexivity].
Qed.

(** A page on which no contour passes for text (a blank page, for one)
    gets 0 regions, height 20.0, consistency 0.5, coverage 0.1 and
    readability 50.0: not the defaults of the failure path, which are
    10 regions and readability 70. *)
Theorem typography_without_text
    {Rng CvImage PilImage Contour : Type} (lib : libraries Rng CvImage PilImage)
    (tools : contour_tools Contour) (image : option CvImage)
    (gray : list (list Z)) (contours : list Contour) :
  cvtColor lib image = Ok gray ->
  find_contours tools gray = Ok contours ->
  contours_loop tools contours [] = Ok [] ->
  _analyze_typography (with_typography lib tools) image = Ok no_text_descriptor /\
  no_text_descriptor <> typography_defaults.
Proof.
  intros Hgray Hcontours Hloop. split.
  - unfold _analyze_typography. rewrite try_except_ok.
    cbn [typography_body with_typography].
    unfold typography_try. rewrite Hgray. cbn [mbind result_bind].
    rewrite Hcontours. cbn [mbind result_bind].
    rewrite Hloop. cbn [mbind result_bind text_statistics length].
    vm_compute. reflexivity.
  - intros [=].
Qed.

(** One speck of 4 by 5 pixels, too small to pass for text. *)
Lemma typography_without_text_witness :
  _analyze_typography
    (with_typography (sample_libraries (Ok (PyDict [])))
       (sample_tools [((0, 0, 4, 5), exact_float 20)]))
    (Some gray_rows) = Ok no_text_descriptor.
Proof.
  apply (typography_without_text (sample_libraries (Ok (PyDict [])))
           (sample_tools [((0, 0, 4, 5), exact_float 20)])
           (Some gray_rows) gray_rows [((0, 0, 4, 5), exact_float 20)]
           eq_refl eq_refl).
  vm_compute. reflexivity.
Defined.

(** ** [report_generator.py] *)

(** *** [_get_score_category] beside the evaluator's [get_score_category] *)

Lemma xle_antisym_value p q :
  Qle_bool p q = true -> Qle_bool q p = true -> Qeq p q.
Proof.
  intros H1%Qle_bool_iff H2%Qle_bool_iff. apply Qle_antisym; assumption.
Qed.

(** Within [0, 100] the clamp keeps the value of the score. *)
Lemma clamp_in_range f :
  py_le (PInt 0) (PFloat f) = true -> py_le (PFloat f) (PInt 100) = true ->
  exists p q,
    num_value (clamp f) = XFin p /\ num_value (PFloat f) = XFin q /\ Qeq p q.
Proof.
  unfold clamp, py_max, py_min, py_lt, py_le.
  cbn [num_value]. destruct (float_value f) as [| |q|] eqn:Hv; cbn [xle xlt];
    try discriminate.
  intros Hlo Hhi.
  destruct (Qle_bool (inject_Z 100) q) eqn:Hge; cbn [negb].
  - cbn [num_value xlt]. exists (inject_Z 100), q.
    replace (negb (Qle_bool (inject_Z 100) (inject_Z 0))) with true
      by (vm_compute; reflexivity).
    cbn [num_value]. split; [reflexivity|]. split; [reflexivity|].
    apply xle_antisym_value; assumption.
  - cbn [num_value]. rewrite Hv. cbn [xlt].
    destruct (Qle_bool q (inject_Z 0)) eqn:Hle; cbn [negb num_value].
    + exists (inject_Z 0), q. split; [reflexivity|]. split; [reflexivity|].
      apply xle_antisym_value; assumption.
    + exists q, q. rewrite Hv. split; [reflexivity|]. split; reflexivity.
Qed.

Lemma py_float_number float_of_str v n :
  as_number v = Some n ->
  ReportGenerator.py_float float_of_str v = float_of_num n.
Proof. destruct v; intros [= <-]; reflexivity. Qed.

Lemma py_le_not_lt a b : py_le a b = true -> py_lt b a = false.
Proof.
  destruct (py_lt b a) eqn:Hlt; [|reflexivity].
  rewrite (py_lt_not_ge _ _ Hlt). discriminate.
Qed.

(** For a score within [0, 100], the report and the evaluator scan the
    same ranges with the same value: both return the first range that
    holds it, and they part only when no range does, the report with
    ['poor'], the evaluator with ['fair']. *)
Theorem report_category_agrees_in_range
    (float_of_str : string -> option pyfloat) (config : scoring_config)
    (v : pyval) (n : pynum) (f : pyfloat) :
  as_number v = Some n -> float_of_num n = Ok f ->
  py_le (PInt 0) (PFloat f) = true -> py_le (PFloat f) (PInt 100) = true ->
  let found := scan_ranges (score_ranges config) (PFloat f) in
  ReportGenerator._get_score_category float_of_str config v =
    Ok (default "poor" found) /\
  get_score_category config v = Ok (default "fair" found) /\
  (is_Some found ->
   ReportGenerator._get_score_category float_of_str config v =
   get_score_category config v).
Proof.
  intros Hn Hf Hlo Hhi found.
  assert (Hreport : ReportGenerator._get_score_category float_of_str config v =
                    Ok (default "poor" found)).
  { unfold ReportGenerator._get_score_category.
    replace (is_none v) with false by (destruct v; try discriminate; reflexivity).
    rewrite (py_float_number float_of_str v n Hn), Hf. cbn [mbind result_bind].
    rewrite (py_le_not_lt _ _ Hlo), (py_le_not_lt _ _ Hhi).
    fold found. destruct found; reflexivity. }
  assert (Heval : get_score_category config v = Ok (default "fair" found)).
  { rewrite (get_score_category_eq config v f)
      by (rewrite (validated_number v n Hn); exact Hf).
    destruct (clamp_in_range f Hlo Hhi) as (p & q & Hp & Hq & Hpq).
    rewrite (scan_ranges_same_value _ (clamp f) (PFloat f) p q Hp Hq Hpq).
    reflexivity. }
  split; [exact Hreport|]. split; [exact Heval|].
  intros [category Hfound]. rewrite Hreport, Heval, Hfound. reflexivity.
Qed.

Lemma report_category_agrees_in_range_witness :
  ReportGenerator._get_score_category (fun _ => None) test_config (PyInt 95) =
  get_score_category test_config (PyInt 95).
Proof.
  assert (Hf : float_of_num (PInt 95) = Ok (exact_float 95))
    by (vm_compute; reflexivity).
  apply (report_category_agrees_in_range (fun _ => None) test_config
           (PyInt 95) (PInt 95) (exact_float 95) eq_refl Hf);
    vm_compute; eauto.
Defined.

Lemma int_to_float_raises n e : int_to_float n = Raise e -> e = overflow_error.
Proof.
  assert (Hpos : forall s p, float_of_pos s p = Raise e -> e = overflow_error).
  { intros s p. unfold float_of_pos.
    repeat match goal with
           | |- context [if ?b then _ else _] => destruct b
           | |- context [let '(_, _) := ?x in _] => destruct x
           end; congruence. }
  destruct n; cbn; [discriminate|apply Hpos..].
Qed.

(** The report's category never raises, except on an int too large for
    a float, whose [OverflowError] its [except (ValueError, TypeError)]
    lets through; [None], a list, a dictionary and a string [float()]
    rejects all give ['poor']. *)
Theorem report_category_raises_only_on_overflow
    (float_of_str : string -> option pyfloat) (config : scoring_config) :
  (forall v,
     (forall n, v = PyInt n -> is_ok (int_to_float n) = true) ->
     exists category,
       ReportGenerator._get_score_category float_of_str config v = Ok category) /\
  (forall n e,
     int_to_float n = Raise e ->
     ReportGenerator._get_score_category float_of_str config (PyInt n) =
     Raise overflow_error) /\
  (forall v,
     as_number v = None ->
     (forall s, v = PyStr s -> float_of_str s = None) ->
     ReportGenerator._get_score_category float_of_str config v = Ok "poor").
Proof.
  split; [|split].
  - intros v Hint. unfold ReportGenerator._get_score_category.
    destruct (is_none v); [eexists; reflexivity|].
    assert (Hcases : (exists f, ReportGenerator.py_float float_of_str v = Ok f) \/
                     ReportGenerator.py_float float_of_str v = Raise ReportGenerator.value_error \/
                     ReportGenerator.py_float float_of_str v = Raise ReportGenerator.float_type_error).
    { destruct v as [|b|n|f|s|l|d]; cbn; eauto.
      - destruct b; left; eexists; reflexivity.
      - specialize (Hint n eq_refl). destruct (int_to_float n); [eauto|discriminate].
      - destruct (float_of_str s); eauto. }
    destruct Hcases as [[f ->]|[->| ->]]; cbn [mbind result_bind];
      [|eexists; reflexivity..].
    destruct (py_lt (PFloat f) (PInt 0)); [eexists; reflexivity|].
    destruct (py_lt (PInt 100) (PFloat f)); [eexists; reflexivity|].
    destruct (scan_ranges _ _); eexists; reflexivity.
  - intros n e Hraise. pose proof (int_to_float_raises n e Hraise) as ->.
    unfold ReportGenerator._get_score_category. cbn [is_none ReportGenerator.py_float].
    rewrite Hraise. reflexivity.
  - intros v Hnone Hstr. unfold ReportGenerator._get_score_category.
    destruct v as [|b|n|f|s|l|d]; try discriminate; try reflexivity.
    cbn. rewrite (Hstr s eq_refl). reflexivity.
Qed.

(** ** [google_sheets_integration.py] and [main.py] *)

Import GoogleSheetsIntegration.

(** *** [_truncate_text] *)

Lemma code_points_append (s t : string) :
  code_points (s ++ t) = (code_points s + code_points t)%nat.
Proof.
  induction s as [|c s IH]; [reflexivity|].
  change (String c s ++ t) with (String c (s ++ t)).
  cbn [code_points]. rewrite IH. destruct (is_continuation c); reflexivity.
Qed.

Lemma code_points_take (k : nat) (s : string) :
  code_points (take_code_points k s) = Nat.min k (code_points s).
Proof.
  revert k. induction s as [|c s IH]; intros k; cbn [take_code_points code_points].
  - rewrite Nat.min_0_r. reflexivity.
  - destruct (is_continuation c) eqn:Hc.
    + cbn [code_points]. rewrite Hc. apply IH.
    + destruct k as [|k]; [reflexivity|].
      cbn [code_points]. rewrite Hc, IH. reflexivity.
Qed.

Lemma take_code_points_all (k : nat) (s : string) :
  (code_points s <= k)%nat -> take_code_points k s = s.
Proof.
  revert k. induction s as [|c s IH]; intros k Hlen; [reflexivity|].
  cbn [take_code_points code_points] in *.
  destruct (is_continuation c).
  - rewrite IH by exact Hlen. reflexivity.
  - destruct k as [|k]; [lia|]. rewrite IH by lia. reflexivity.
Qed.

(** The model counts as Python does: [len("ñandú")] is 5 (its
    encoding has 7 bytes), and ["ñandú"[:2]] is ["ña"]. *)
Example code_points_examples :
  code_points "ñandú" = 5%nat /\ String.length "ñandú" = 7%nat /\
  take_code_points 2 "ñandú" = "ña" /\
  code_points "🏆 Análisis" = 10%nat /\
  _truncate_text (PyStr "ñandú") 5 = Ok (PyStr "ñandú").
Proof. repeat split; vm_compute; reflexivity. Qed.

(** [_truncate_text] on a string, for a limit of at least 3, counting
    characters as Python does (code points): the result fits the limit;
    a text that fits is returned as it is, and a longer one is cut to
    its first [max_length - 3] characters followed by three dots, which
    makes exactly [max_length] characters. *)
Theorem truncate_text_fits (s : string) (max_length : Z) :
  3 <= max_length ->
  exists t,
    _truncate_text (PyStr s) max_length = Ok (PyStr t) /\
    Z.of_nat (code_points t) <= max_length /\
    (Z.of_nat (code_points s) <= max_length -> t = s) /\
    (max_length < Z.of_nat (code_points s) ->
     t = take_code_points (Z.to_nat (max_length - 3)) s ++ "..." /\
     Z.of_nat (code_points t) = max_length).
Proof.
  intros Hmax. unfold _truncate_text. cbn [py_len mbind result_bind].
  destruct (Z.leb_spec (Z.of_nat (code_points s)) max_length) as [Hfit|Hlong].
  - exists s. repeat split; [exact Hfit|lia..].
  - eexists. split; [reflexivity|].
    unfold str_slice_to, slice_stop.
    destruct (Z.leb_spec 0 (max_length - 3)); [|lia].
    rewrite Nat.min_l by lia.
    rewrite code_points_append, code_points_take.
    change (code_points "...") with 3%nat.
    repeat split; intros; lia.
Qed.

(** A text of 17 characters and 19 bytes, cut to 11 characters. *)
Lemma truncate_text_fits_witness :
  exists t,
    _truncate_text (PyStr "Análisis de color") 11 = Ok (PyStr t) /\
    t = "Análisis..." /\ Z.of_nat (code_points t) = 11.
Proof.
  destruct (truncate_text_fits "Análisis de color" 11 ltac:(lia))
    as (t & Hrun & _ & _ & Hlong).
  exists t. split; [exact Hrun|].
  destruct Hlong as [-> Hlen]; [vm_compute; reflexivity|].
  split; [reflexivity|exact Hlen].
Defined.

(** *** The fixed thresholds of the spreadsheet category *)

Lemma xle_trans a b c : xle a b = true -> xle b c = true -> xle a c = true.
Proof.
  destruct a as [| |p|], b as [| |q|], c as [| |r|]; cbn;
    try discriminate; try reflexivity.
  intros H1%Qle_bool_iff H2%Qle_bool_iff. apply Qle_bool_iff.
  eapply Qle_trans; eassumption.
Qed.

Lemma py_le_trans a b c : py_le a b = true -> py_le b c = true -> py_le a c = true.
Proof. apply xle_trans. Qed.

Lemma sheet_category_number v n :
  as_number v = Some n ->
  GoogleSheetsIntegration._get_score_category v =
  Ok (if py_le (PInt 90) n then "Excellent"
      else if py_le (PInt 80) n then "Very Good"
      else if py_le (PInt 70) n then "Good"
      else if py_le (PInt 60) n then "Fair"
      else "Poor").
Proof.
  intros Hn. unfold GoogleSheetsIntegration._get_score_category, ge_int.
  rewrite Hn. cbn [mbind result_bind].
  repeat match goal with
         | |- context [py_le ?a ?b] => destruct (py_le a b); try reflexivity
         end.
Qed.

Lemma py_le_above k k' n :
  k' <= k -> py_le (PInt k) n = true -> py_le (PInt k') n = true.
Proof.
  intros Hk. apply py_le_trans. rewrite py_le_int_int. apply Z.leb_le, Hk.
Qed.

(** The spreadsheet category of a number is total and monotone: of
    two numbers in order, the higher never gets the lower category. *)
Theorem sheet_category_monotone (a b : pyval) (x y : pynum) :
  as_number a = Some x -> as_number b = Some y ->
  py_le x y = true ->
  exists ca cb,
    GoogleSheetsIntegration._get_score_category a = Ok ca /\
    GoogleSheetsIntegration._get_score_category b = Ok cb /\
    (category_rank ca <= category_rank cb)%nat.
Proof.
  intros Ha Hb Hxy.
  rewrite (sheet_category_number a x Ha), (sheet_category_number b y Hb).
  eexists _, _. split; [reflexivity|]. split; [reflexivity|].
  assert (Hup : forall k, py_le (PInt k) x = true -> py_le (PInt k) y = true).
  { intros k Hk. eapply py_le_trans; eassumption. }
  destruct (py_le (PInt 90) x) eqn:H90.
  { rewrite (Hup 90 H90). reflexivity. }
  destruct (py_le (PInt 80) x) eqn:H80.
  { rewrite (Hup 80 H80). destruct (py_le (PInt 90) y); cbn; lia. }
  destruct (py_le (PInt 70) x) eqn:H70.
  { rewrite (Hup 70 H70).
    destruct (py_le (PInt 90) y), (py_le (PInt 80) y); cbn; lia. }
  destruct (py_le (PInt 60) x) eqn:H60.
  { rewrite (Hup 60 H60).
    destruct (py_le (PInt 90) y), (py_le (PInt 80) y), (py_le (PInt 70) y);
      cbn; lia. }
  destruct (py_le (PInt 90) y), (py_le (PInt 80) y), (py_le (PInt 70) y),
    (py_le (PInt 60) y); cbn; lia.
Qed.

Lemma sheet_category_monotone_witness :
  exists ca cb,
    GoogleSheetsIntegration._get_score_category (PyInt 75) = Ok ca /\
    GoogleSheetsIntegration._get_score_category (PyFloat (decimal 855 1)) = Ok cb /\
    (category_rank ca <= category_rank cb)%nat.
Proof.
  apply (sheet_category_monotone (PyInt 75) (PyFloat (decimal 855 1))
           (PInt 75) (PFloat (decimal 855 1)) eq_refl eq_refl).
  vm_compute. reflexivity.
Defined.

(** The badge the command line prints and the category the spreadsheet
    stores always go together: the two functions cut at the same
    thresholds, and raise on the same values. *)
Theorem emoji_matches_sheet_category (score : pyval) :
  Main.get_score_emoji score =
  Main.emoji_of_category <$> GoogleSheetsIntegration._get_score_category score.
Proof.
  unfold Main.get_score_emoji, GoogleSheetsIntegration._get_score_category, ge_int.
  destruct (as_number score) as [n|]; [|reflexivity].
  cbn [mbind result_bind].
  repeat match goal with
         | |- context [py_le ?a ?b] => destruct (py_le a b); try reflexivity
         end.
Qed.

(** *** [_prepare_row_data] and [log_evaluation] *)

Lemma truncate_text_cell text cell s :
  _truncate_text text 1000 = Ok cell -> cell = PyStr s ->
  (code_points s <= 1000)%nat.
Proof.
  intros Hrun ->. destruct text as [| | | |t| |];
    try (unfold _truncate_text in Hrun; cbn in Hrun;
         repeat match type of Hrun with
                | context [if ?b then _ else _] => destruct b
                end; discriminate Hrun).
  destruct (truncate_text_fits t 1000 ltac:(lia)) as (t' & Ht' & Hlen & _).
  rewrite Ht' in Hrun. injection Hrun as <-. lia.
Qed.

Lemma truncated_cell (m : result pyval) cell s :
  (m ≫= λ text, _truncate_text text 1000) = Ok cell -> cell = PyStr s ->
  (code_points s <= 1000)%nat.
Proof.
  destruct m as [text|]; [|discriminate]. apply truncate_text_cell.
Qed.

(** A row [_prepare_row_data] returns has one cell per header; its
    cells 1, 3 and 4 are the URL, the final score and the category of
    that score (with the defaults [''] and 0 for a missing key), and a
    string in one of the five analysis cells has at most 1000
    characters, counted as Python counts them (code points). *)
Theorem prepare_row_data_shape {World} (self : sheets World)
    (evaluation_data : pyval) (w : World) (row : list pyval) :
  _prepare_row_data self evaluation_data w = Ok row ->
  length row = length headers /\
  (exists items final_score category,
     evaluation_data = PyDict items /\
     final_score = default (PyInt 0) (dict_lookup "final_score" items) /\
     GoogleSheetsIntegration._get_score_category final_score = Ok category /\
     row !! 1%nat = Some (default (PyStr "") (dict_lookup "url" items)) /\
     row !! 3%nat = Some final_score /\
     row !! 4%nat = Some (PyStr category)) /\
  (forall i s,
     (13 <= i <= 17)%nat -> row !! i = Some (PyStr s) ->
     (code_points s <= 1000)%nat).
Proof.
  intros Hrow. unfold _prepare_row_data in Hrow.
  destruct evaluation_data as [| | | | | |items]; try discriminate Hrow.
  cbn [dict_get mbind result_bind] in Hrow.
  destruct (domain_of self _) as [domain|]; cbn [mbind result_bind] in Hrow;
    [|discriminate Hrow].
  destruct (GoogleSheetsIntegration._get_score_category _) as [category|] eqn:Hcat;
    cbn [mbind result_bind] in Hrow; [|discriminate Hrow].
  repeat run_bind Hrow.
  injection Hrow as <-.
  split; [reflexivity|]. split.
  - exists items, (default (PyInt 0) (dict_lookup "final_score" items)), category.
    repeat split; try reflexivity. exact Hcat.
  - intros i s Hi Hcell.
    assert (Hcases : (i = 13 \/ i = 14 \/ i = 15 \/ i = 16 \/ i = 17)%nat) by lia.
    destruct Hcases as [->|[->|[->|[->| ->]]]];
      cbn [lookup list_lookup] in Hcell; injection Hcell as Hcell;
      match goal with
      | H : (_ ≫= _) = Ok ?c, Hc : ?c = PyStr s |- _ =>
          exact (truncated_cell _ _ _ H Hc)
      end.
Qed.


(** The row of the repository's own test: the URL is in cell 1 and the
    score 85.5 in cell 3. *)
Lemma prepare_row_data_shape_witness :
  exists row,
    _prepare_row_data (sample_sheets true) test_evaluation_data [] = Ok row /\
    length row = 20%nat /\
    row !! 1%nat = Some (PyStr "https://example.com") /\
    row !! 3%nat = Some (PyFloat (decimal 855 1)).
Proof.
  destruct (_prepare_row_data (sample_sheets true) test_evaluation_data [])
    as [row|e] eqn:Hrow; [|vm_compute in Hrow; discriminate Hrow].
  exists row. split; [reflexivity|].
  destruct (prepare_row_data_shape (sample_sheets true) test_evaluation_data
              [] row Hrow)
    as (Hlen & (items & final & category & Hitems & -> & _ & Hurl & Hscore & _) & _).
  injection Hitems as <-.
  split; [exact Hlen|]. split; [exact Hurl|exact Hscore].
Defined.

(** A text of 600 characters and 1200 bytes is under the limit of 1000
    characters: it goes into its cell as it is. *)
Example truncate_text_counts_characters :
  let text := String.concat "" (replicate 600 "ñ") in
  String.length text = 1200%nat /\
  _truncate_text (PyStr text) 1000 = Ok (PyStr text).
Proof. split; vm_compute; reflexivity. Qed.

(** [log_evaluation] never raises, whatever the evaluation holds and
    whatever the worksheet does: it answers [True] only when the row was
    built and appended, and [False] otherwise; without a configured
    client, or when the row cannot be built, the worksheet is not
    touched. *)
Theorem log_evaluation_never_raises {World} (self : sheets World)
    (evaluation_data : pyval) (w : World) :
  exists logged w',
    log_evaluation self evaluation_data w = (Ok logged, w') /\
    (logged = true ->
     configured self = true /\
     exists row,
       _prepare_row_data self evaluation_data w = Ok row /\
       append_row self row w = (Ok tt, w')) /\
    (configured self = false \/
     is_ok (_prepare_row_data self evaluation_data w) = false ->
     logged = false /\ w' = w).
Proof.
  unfold log_evaluation, io_try_except.
  destruct (configured self) eqn:Hconf; cbn [negb].
  - unfold mbind, io_bind, mret, io_ret.
    destruct (_prepare_row_data self evaluation_data w) as [row|e] eqn:Hrow.
    + destruct (append_row self row w) as [[[]|e] w'] eqn:Happ.
      * exists true, w'. split; [reflexivity|]. split.
        -- intros _. split; [reflexivity|]. exists row. split; [reflexivity|exact Happ].
        -- intros [?|?]; discriminate.
      * exists false, w'. split; [reflexivity|]. split; [discriminate|].
        intros [?|?]; discriminate.
    + exists false, w. split; [reflexivity|]. split; [discriminate|].
      intros _. split; reflexivity.
  - exists false, w. split; [reflexivity|]. split; [discriminate|].
    intros _. split; reflexivity.
Qed.

(** ** [cloud_storage.py] *)

Import CloudStorageManager.

Lemma upload_to_s3_returns {World} (self : storage World)
    (file_path folder : string) (w : World) :
  exists r w',
    upload_to_s3 self file_path folder w = (Ok r, w') /\
    (CloudStorageManager.configured self = false \/
     os_path_exists self file_path w = false -> r = None /\ w' = w).
Proof.
  unfold upload_to_s3.
  destruct (CloudStorageManager.configured self); cbn [negb].
  - destruct (os_path_exists self file_path w); cbn [negb].
    + unfold io_try_except, mbind, io_bind, mret, io_ret.
      destruct (upload_body self file_path folder w) as [[url|e] w'];
        eexists _, w'; (split; [reflexivity|]); intros [?|?]; discriminate.
    + exists None, w. split; [reflexivity|]. intros _. split; reflexivity.
  - exists None, w. split; [reflexivity|]. intros _. split; reflexivity.
Qed.

(** [upload_screenshot] never raises, whatever S3 and the file system
    do: it returns a URL or [None], never the empty string; and without
    a configured client, or when the file is not there, it returns
    [None] and leaves the world as it was: nothing is sent. *)
Theorem upload_screenshot_never_raises {World} (self : storage World)
    (file_path : string) (w : World) :
  exists r w',
    upload_screenshot self file_path w = (Ok r, w') /\
    r <> Some "" /\
    (CloudStorageManager.configured self = false \/
     os_path_exists self file_path w = false -> r = None /\ w' = w).
Proof.
  unfold upload_screenshot.
  destruct (os_path_exists self file_path w) eqn:Hexists; cbn [negb].
  - destruct (upload_to_s3_returns self file_path "screenshots" w)
      as (r & w' & Hrun & Hnone).
    rewrite Hexists in Hnone. rewrite Hrun. destruct r as [url|].
    + destruct (String.eqb_spec url "") as [->|Hne].
      * exists None, w'. split; [reflexivity|]. split; [discriminate|].
        intros H. destruct (Hnone H) as [[=] _].
      * exists (Some url), w'. split; [reflexivity|]. split; [congruence|].
        intros H. destruct (Hnone H) as [[=] _].
    + exists None, w'. split; [reflexivity|]. split; [discriminate|].
      intros H. split; [reflexivity|]. apply (Hnone H).
  - exists None, w. split; [reflexivity|]. split; [discriminate|].
    intros _. split; reflexivity.
Qed.
